(** * Verification of [core/config.py]

    A shallow embedding of the configuration module: the [Config] /
    [DotDict] containers, the normalisation passes run by
    [Config.validate], the provider resolver and the URL predicates,
    together with the part of the Python runtime they call into
    ([str] methods, [re], [configparser], [int]).

    Conventions.
    - A Python [str] is a [string]; a character is a code point of the
      range U+0000..U+00FF, so [ascii] is read as Latin-1.
    - A Python [dict] is an association list in insertion order.
    - A function that mutates the configuration, logs, or raises, is a
      computation in the monad [M]: the state survives a raise, as the
      mutated objects do in Python. *)

From Stdlib Require Import String Ascii List Bool Arith ZArith Lia.
Import ListNotations.

Set Implicit Arguments.
Local Open Scope string_scope.
Local Open Scope list_scope.

(* ================================================================= *)
(** ** Python strings *)

Module PyStr.

Definition code (c : ascii) : nat := nat_of_ascii c.

Definition between (lo hi : nat) (c : ascii) : bool :=
  Nat.leb lo (code c) && Nat.leb (code c) hi.

(** [str.isupper] on one character of the Latin-1 range:
    A-Z, and U+00C0..U+00DE without the multiplication sign U+00D7. *)
Definition is_upper (c : ascii) : bool :=
  between 65 90 c || (between 192 222 c && negb (Nat.eqb (code c) 215)).

(** [str.lower] on one character: every cased character of the range
    has its lowercase 32 code points above it. *)
Definition lower_char (c : ascii) : ascii :=
  if is_upper c then ascii_of_nat (code c + 32) else c.

(** [s.lower()] *)
Fixpoint lower (s : string) : string :=
  match s with
  | EmptyString => EmptyString
  | String c s' => String (lower_char c) (lower s')
  end.

(** [s.startswith(p)] *)
Definition startswith (p s : string) : bool := String.prefix p s.

(** [s.split(sep)] for a separator of one character: the fields
    between the occurrences of [sep], never an empty list. *)
Fixpoint split (sep : ascii) (s : string) : list string :=
  match s with
  | EmptyString => [EmptyString]
  | String c s' =>
      if Ascii.eqb c sep then EmptyString :: split sep s'
      else match split sep s' with
           | [] => [String c EmptyString]
           | t :: ts => String c t :: ts
           end
  end.

(** [sep.join(l)] *)
Fixpoint join (sep : string) (l : list string) : string :=
  match l with
  | [] => EmptyString
  | [x] => x
  | x :: xs => x ++ sep ++ join sep xs
  end.

(** [c in s] for a character [c] *)
Fixpoint contains (c : ascii) (s : string) : bool :=
  match s with
  | EmptyString => false
  | String x s' => Ascii.eqb x c || contains c s'
  end.

(** [s.find(c)], [None] standing for [-1] *)
Fixpoint find (c : ascii) (s : string) : option nat :=
  match s with
  | EmptyString => None
  | String x s' =>
      if Ascii.eqb x c then Some 0 else option_map S (find c s')
  end.

(** [s[:n]] and [s[n:]] *)
Fixpoint take (n : nat) (s : string) : string :=
  match n, s with
  | S n', String c s' => String c (take n' s')
  | _, _ => EmptyString
  end.

Fixpoint drop (n : nat) (s : string) : string :=
  match n, s with
  | S n', String _ s' => drop n' s'
  | _, _ => s
  end.

(** No character of [s] is an uppercase letter. *)
Fixpoint no_upper (s : string) : bool :=
  match s with
  | EmptyString => true
  | String c s' => negb (is_upper c) && no_upper s'
  end.

(** Characters Python treats as white space ([str.isspace], [\s]). *)
Definition is_space (c : ascii) : bool :=
  between 9 13 c || between 28 32 c || Nat.eqb (code c) 133 || Nat.eqb (code c) 160.

Definition is_digit (c : ascii) : bool := between 48 57 c.
Definition is_ascii_lower (c : ascii) : bool := between 97 122 c.
Definition is_ascii_upper (c : ascii) : bool := between 65 90 c.
Definition is_ascii_alpha (c : ascii) : bool :=
  is_ascii_lower c || is_ascii_upper c.

End PyStr.

(* ================================================================= *)
(** ** Regular expressions ([re])

    The three patterns of the module use concatenation, alternation,
    character classes and counted or unbounded repetition, and no
    back-reference or look-around: a backtracking search finds a match
    exactly when the anchored pattern denotes the subject string. *)

Module Re.

Inductive regex : Type :=
| Nul : regex                          (* matches nothing *)
| Eps : regex                          (* the empty string *)
| Cls : (ascii -> bool) -> regex       (* one character of a class *)
| Cat : regex -> regex -> regex
| Alt : regex -> regex -> regex
| Star : regex -> regex.

(** The language of a pattern. *)
Inductive Matches : regex -> string -> Prop :=
| MEps : Matches Eps EmptyString
| MCls p c : p c = true -> Matches (Cls p) (String c EmptyString)
| MCat r1 r2 s1 s2 :
    Matches r1 s1 -> Matches r2 s2 -> Matches (Cat r1 r2) (s1 ++ s2)
| MAltL r1 r2 s : Matches r1 s -> Matches (Alt r1 r2) s
| MAltR r1 r2 s : Matches r2 s -> Matches (Alt r1 r2) s
| MStar0 r : Matches (Star r) EmptyString
| MStarS r s1 s2 :
    Matches r s1 -> Matches (Star r) s2 -> Matches (Star r) (s1 ++ s2).

Fixpoint nullable (r : regex) : bool :=
  match r with
  | Nul => false
  | Eps => true
  | Cls _ => false
  | Cat r1 r2 => nullable r1 && nullable r2
  | Alt r1 r2 => nullable r1 || nullable r2
  | Star _ => true
  end.

(** Constructors that keep derivatives small. *)
Definition cat (r1 r2 : regex) : regex :=
  match r1, r2 with
  | Nul, _ => Nul
  | _, Nul => Nul
  | Eps, _ => r2
  | _, Eps => r1
  | _, _ => Cat r1 r2
  end.

Definition alt (r1 r2 : regex) : regex :=
  match r1, r2 with
  | Nul, _ => r2
  | _, Nul => r1
  | _, _ => Alt r1 r2
  end.

(** The residual of [r] after reading the character [c]. *)
Fixpoint deriv (c : ascii) (r : regex) : regex :=
  match r with
  | Nul => Nul
  | Eps => Nul
  | Cls p => if p c then Eps else Nul
  | Cat r1 r2 =>
      if nullable r1
      then alt (cat (deriv c r1) r2) (deriv c r2)
      else cat (deriv c r1) r2
  | Alt r1 r2 => alt (deriv c r1) (deriv c r2)
  | Star r1 => cat (deriv c r1) (Star r1)
  end.

(** Does the whole of [s] belong to the language of [r]? *)
Fixpoint matchb (r : regex) (s : string) : bool :=
  match s with
  | EmptyString => nullable r
  | String c s' => matchb (deriv c r) s'
  end.

(** *** Pattern syntax *)

Definition chr (c : ascii) : regex := Cls (Ascii.eqb c).

(** A literal string. *)
Fixpoint lit (s : string) : regex :=
  match s with
  | EmptyString => Eps
  | String c s' => Cat (chr c) (lit s')
  end.

(** A literal under [re.IGNORECASE]: each character matches both of
    its cases. *)
Definition chr_i (c : ascii) : regex :=
  Cls (fun x => Ascii.eqb (PyStr.lower_char x) (PyStr.lower_char c)).

Fixpoint lit_i (s : string) : regex :=
  match s with
  | EmptyString => Eps
  | String c s' => Cat (chr_i c) (lit_i s')
  end.

Definition opt (r : regex) : regex := Alt Eps r.        (* r? *)
Definition plus (r : regex) : regex := Cat r (Star r).  (* r+ *)

(** [r{n}] *)
Fixpoint times (n : nat) (r : regex) : regex :=
  match n with
  | 0 => Eps
  | S n' => Cat r (times n' r)
  end.

(** [r{0,n}] *)
Fixpoint upto (n : nat) (r : regex) : regex :=
  match n with
  | 0 => Eps
  | S n' => opt (Cat r (upto n' r))
  end.

(** [r{lo,hi}] and [r{lo,}] *)
Definition rep (lo hi : nat) (r : regex) : regex :=
  Cat (times lo r) (upto (hi - lo) r).
Definition atleast (lo : nat) (r : regex) : regex :=
  Cat (times lo r) (Star r).

(** [$] as the last item of a pattern: the end of the subject, or
    the position before a line feed that ends the subject. *)
Definition dollar : regex := opt (chr "010"%char).

(** [re.match(p, s) is not None] for a pattern [p] that ends in [$]:
    the match starts at position 0 and [$] pins its end. *)
Definition re_match (p : regex) (s : string) : bool := matchb p s.

End Re.

(* ================================================================= *)
(** ** Python values, exceptions and dictionaries *)

(** The values a configuration entry holds before and after
    validation. *)
Inductive value : Type :=
| VNone : value
| VStr (s : string) : value
| VInt (n : Z) : value
| VBool (b : bool) : value
| VTuple (items : list string) : value               (* tuple of str *)
| VDict (d : list (string * string)) : value         (* dict str -> str *)
| VTemplate (template : value) : value.              (* string.Template *)

Inductive exn : Type :=
| KeyError (key : string)
| AttributeError
| TypeError
| ValueError
| NoSectionError (section : string)
| NoOptionError (option section : string)
| InterpolationSyntaxError
| InterpolationMissingOptionError
| InterpolationDepthError
| ImportRaised.   (* what [__import__] raises besides ModuleNotFoundError *)

Inductive outcome (A : Type) : Type :=
| Return (a : A)
| Raise (e : exn).
Arguments Return {A} a.
Arguments Raise {A} e.

(** A [dict] with [str] keys, in insertion order. *)
Definition dict (V : Type) : Type := list (string * V).

Section Dict.
Variable V : Type.

(** [d.get(k)] *)
Fixpoint dict_get (d : dict V) (k : string) : option V :=
  match d with
  | [] => None
  | (k', v) :: d' => if String.eqb k' k then Some v else dict_get d' k
  end.

(** [k in d] *)
Definition dict_mem (d : dict V) (k : string) : bool :=
  match dict_get d k with Some _ => true | None => false end.

(** [d[k] = v]: a present key keeps its place, a new key goes last. *)
Fixpoint dict_set (d : dict V) (k : string) (v : V) : dict V :=
  match d with
  | [] => [(k, v)]
  | (k', v') :: d' =>
      if String.eqb k' k then (k', v) :: d'
      else (k', v') :: dict_set d' k v
  end.

Definition dict_keys (d : dict V) : list string := map fst d.

(** The representation invariant of a [dict]: no key occurs twice. *)
Definition dict_wf (d : dict V) : Prop := NoDup (dict_keys d).
End Dict.

(** The truth value of an object ([if v:], [while v:]). *)
Definition truthy (v : value) : bool :=
  match v with
  | VNone => false
  | VStr s => negb (String.eqb s "")
  | VInt n => negb (Z.eqb n 0)
  | VBool b => b
  | VTuple l => match l with [] => false | _ => true end
  | VDict d => match d with [] => false | _ => true end
  | VTemplate _ => true
  end.

(** ["%" in v] *)
Definition percent_in (v : value) : outcome bool :=
  match v with
  | VStr s => Return (PyStr.contains "%" s)
  | VTuple l => Return (existsb (String.eqb "%") l)
  | VDict d => Return (dict_mem d "%")
  | _ => Raise TypeError
  end.

(** [''.join(L)] *)
Fixpoint join_values (l : list value) : outcome string :=
  match l with
  | [] => Return ""
  | VStr s :: l' =>
      match join_values l' with
      | Return t => Return (s ++ t)%string
      | Raise e => Raise e
      end
  | _ :: _ => Raise TypeError
  end.

(** [a + b] where one operand is known to be a [str]. *)
Definition str_add (a b : value) : outcome value :=
  match a, b with
  | VStr x, VStr y => Return (VStr (x ++ y)%string)
  | _, _ => Raise TypeError
  end.

(* ================================================================= *)
(** ** [int(s)] *)

Module PyInt.

(** The white space [int] skips around the literal. *)
Definition is_blank (c : ascii) : bool :=
  PyStr.between 9 13 c || Nat.eqb (PyStr.code c) 32
  || Nat.eqb (PyStr.code c) 133 || Nat.eqb (PyStr.code c) 160.

Fixpoint lstrip (s : string) : string :=
  match s with
  | String c s' => if is_blank c then lstrip s' else s
  | EmptyString => EmptyString
  end.

(** [digits acc n s]: reads [digit (_? digit)*] and then only white
    space; [n] counts the digits read. *)
Fixpoint digits (acc : Z) (n : nat) (s : string) : option (Z * nat) :=
  match s with
  | EmptyString => Some (acc, n)
  | String c s' =>
      if PyStr.is_digit c
      then digits (10 * acc + Z.of_nat (PyStr.code c - 48)) (S n) s'
      else if Ascii.eqb c "_"
      then match s' with
           | String d _ => if PyStr.is_digit d then digits acc n s' else None
           | EmptyString => None
           end
      else if is_blank c
      then match lstrip s' with EmptyString => Some (acc, n) | _ => None end
      else None
  end.

Definition unsigned (s : string) : option (Z * nat) :=
  match s with
  | String c _ => if PyStr.is_digit c then digits 0 0 s else None
  | EmptyString => None
  end.

(** The literal grammar of [int(s)] in base 10: optional white space,
    an optional sign, digits with single underscores between them,
    optional white space.  The second component is the number of
    digits. *)
Definition parse (s : string) : option (Z * nat) :=
  match lstrip s with
  | String "+" s' => unsigned s'
  | String "-" s' =>
      match unsigned s' with
      | Some (z, n) => Some (- z, n)
      | None => None
      end
  | s' => unsigned s'
  end%Z.

End PyInt.

(* ================================================================= *)
(** ** The configuration object and the state of a run *)

(** [class DotDict(dict)]: a section, option name -> value. *)
Definition DotDict : Type := dict value.

(** The two dictionaries of a [ConfigParser] the module reads and
    writes: the sections and the options of the DEFAULT section. *)
Record Config : Type := mkConfig {
  _sections : dict DotDict;
  _defaults : DotDict
}.

Definition default_section : string := "DEFAULT".

Inductive level : Type := DEBUG | INFO | WARNING.

(** The records the module logs: the two fixed messages, and the
    warning that ends with the names of the unknown crawlers joined
    by [', ']. *)
Inductive message : Type :=
| InvalidProxyFormat
| Fc2fanSkipped
| InvalidCrawlers (joined : string).

Record world : Type := mkWorld {
  cfg : Config;
  log : list (level * message);
  stdout : list string
}.

Inductive import_result : Type :=
| Imported
| ModuleNotFound
| OtherFailure.

(** What a run observes of its environment and does not change. *)
Record runtime : Type := mkRuntime {
  isdir : string -> bool;                  (* os.path.isdir on a path *)
  isdir_fd : Z -> bool;                    (* ... on a file descriptor *)
  import_module : string -> import_result; (* __import__(name) *)
  os_sep : string;                         (* os.sep *)
  run_as_main : bool;                      (* __name__ == "__main__" *)
  int_max_str_digits : nat                 (* sys.get_int_max_str_digits() *)
}.

(** Computations: the state is kept when an exception is raised. *)
Definition M (A : Type) : Type := world -> world * outcome A.

Definition ret {A} (a : A) : M A := fun w => (w, Return a).
Definition raise {A} (e : exn) : M A := fun w => (w, Raise e).
Definition bind {A B} (m : M A) (k : A -> M B) : M B :=
  fun w => match m w with
           | (w', Return a) => k a w'
           | (w', Raise e) => (w', Raise e)
           end.
Definition lift {A} (o : outcome A) : M A := fun w => (w, o).
Definition read {A} (f : Config -> outcome A) : M A :=
  fun w => (w, f (cfg w)).
Definition write (f : Config -> Config) : M unit :=
  fun w => (mkWorld (f (cfg w)) (log w) (stdout w), Return tt).

Declare Scope py_scope.
Delimit Scope py_scope with py.
Notation "x <- m ;; k" := (bind m (fun x => k))
  (at level 61, m at next level, right associativity) : py_scope.
Notation "m ;; k" := (bind m (fun _ => k))
  (at level 61, right associativity) : py_scope.
Local Open Scope py_scope.

(** [for x in l: body(x)] *)
Fixpoint for_each {A} (l : list A) (body : A -> M unit) : M unit :=
  match l with
  | [] => ret tt
  | x :: l' => body x ;; for_each l' body
  end.

Definition logger_debug (m : message) : M unit :=
  fun w => (mkWorld (cfg w) (log w ++ [(DEBUG, m)]) (stdout w), Return tt).
Definition logger_warning (m : message) : M unit :=
  fun w => (mkWorld (cfg w) (log w ++ [(WARNING, m)]) (stdout w), Return tt).
Definition print (s : string) : M unit :=
  fun w => (mkWorld (cfg w) (log w) (stdout w ++ [s]), Return tt).

(** [s.lower()], [s.split(sep)] on an object: only [str] has them. *)
Definition py_lower (v : value) : outcome string :=
  match v with VStr s => Return (PyStr.lower s) | _ => Raise AttributeError end.
Definition py_split (sep : ascii) (v : value) : outcome (list string) :=
  match v with VStr s => Return (PyStr.split sep s) | _ => Raise AttributeError end.

(* ================================================================= *)
(** ** [configparser]: the methods [Config] inherits and calls

    [Config.__init__] passes [dict_type=DotDict] and nothing else, so
    the parser keeps its defaults: [BasicInterpolation], option names
    folded to lower case, no option without a value. *)

Module ConfigParser.

(** [optionxform] *)
Definition optionxform (optionstr : string) : string := PyStr.lower optionstr.

(** [has_section] *)
Definition has_section (c : Config) (section : string) : bool :=
  dict_mem (_sections c) section.

(** The [ChainMap] that [_unify_values(section, None)] builds: the
    section's dictionary, then the defaults. *)
Definition unify_values (c : Config) (section : string)
  : outcome (DotDict * DotDict) :=
  match dict_get (_sections c) section with
  | Some sectiondict => Return (sectiondict, _defaults c)
  | None =>
      if String.eqb section default_section
      then Return ([], _defaults c)
      else Raise (NoSectionError section)
  end.

Definition chain_get (m : DotDict * DotDict) (k : string) : option value :=
  match dict_get (fst m) k with
  | Some v => Some v
  | None => dict_get (snd m) k
  end.

(** *** [BasicInterpolation] *)

Definition MAX_INTERPOLATION_DEPTH : nat := 10.

(** The characters of [s] before its first [')'], and the rest. *)
Fixpoint until_rparen (s : string) : string * string :=
  match s with
  | EmptyString => (EmptyString, EmptyString)
  | String c s' =>
      if Ascii.eqb c ")" then (EmptyString, s)
      else let (name, tail) := until_rparen s' in (String c name, tail)
  end.

(** [_KEYCRE.match(rest)] for the pattern [%\(([^)]+)\)s]: group 1
    and [rest[m.end():]]. *)
Definition keycre_match (rest : string) : option (string * string) :=
  match rest with
  | String "%" (String "(" r) =>
      match until_rparen r with
      | (String c name, String ")" (String "s" after)) =>
          Some (String c name, after)
      | _ => None
      end
  | _ => None
  end.

(** The [while rest:] loop of [_interpolate_some]; [deeper] is the
    recursive call for a value that holds a ['%'].  Every turn of the
    loop shortens [rest], so one turn per character and one more are
    enough ([interpolate_loop_turns]). *)
Fixpoint interpolate_loop
    (deeper : value -> list value -> outcome (list value))
    (map : DotDict * DotDict) (turns : nat) (rest : value)
    (accum : list value) : outcome (list value) :=
  match turns with
  | 0 => Return accum
  | S turns' =>
      if negb (truthy rest) then Return accum else
      match rest with
      | VStr s =>
          match PyStr.find "%" s with
          | None => Return (accum ++ [VStr s])
          | Some p =>
              let accum :=
                if Nat.ltb 0 p then accum ++ [VStr (PyStr.take p s)]
                else accum in
              let s := PyStr.drop p s in
              let c := PyStr.take 1 (PyStr.drop 1 s) in
              if String.eqb c "%" then
                interpolate_loop deeper map turns' (VStr (PyStr.drop 2 s))
                                 (accum ++ [VStr "%"])
              else if String.eqb c "(" then
                match keycre_match s with
                | None => Raise InterpolationSyntaxError
                | Some (name, after) =>
                    match chain_get map (optionxform name) with
                    | None => Raise InterpolationMissingOptionError
                    | Some v =>
                        match percent_in v with
                        | Raise e => Raise e
                        | Return true =>
                            match deeper v accum with
                            | Raise e => Raise e
                            | Return accum' =>
                                interpolate_loop deeper map turns'
                                                 (VStr after) accum'
                            end
                        | Return false =>
                            interpolate_loop deeper map turns' (VStr after)
                                             (accum ++ [v])
                        end
                    end
                end
              else Raise InterpolationSyntaxError
          end
      | _ => Raise AttributeError          (* rest.find *)
      end
  end.

Definition turns_for (rest : value) : nat :=
  match rest with VStr s => S (String.length s) | _ => 1 end.

(** [_interpolate_some], writing [levels] for the depth that is left:
    [MAX_INTERPOLATION_DEPTH + 1 - depth]. *)
Fixpoint interpolate_some (levels : nat) (map : DotDict * DotDict)
    (rest : value) (accum : list value) : outcome (list value) :=
  match levels with
  | 0 => Raise InterpolationDepthError
  | S levels' =>
      interpolate_loop (interpolate_some levels' map) map
                       (turns_for rest) rest accum
  end.

(** [before_get] *)
Definition before_get (map : DotDict * DotDict) (v : value) : outcome string :=
  match interpolate_some MAX_INTERPOLATION_DEPTH map v [] with
  | Return L => join_values L
  | Raise e => Raise e
  end.

(** [value.replace('%%', '')] *)
Fixpoint drop_escaped (s : string) : string :=
  match s with
  | String "%" (String "%" s') => drop_escaped s'
  | String c s' => String c (drop_escaped s')
  | EmptyString => EmptyString
  end.

(** [_KEYCRE.sub('', s)]: a turn removes a reference or passes a
    character, so one turn per character is enough
    ([drop_references_turns]). *)
Fixpoint drop_references (turns : nat) (s : string) : string :=
  match turns with
  | 0 => s
  | S turns' =>
      match keycre_match s with
      | Some (_, after) => drop_references turns' after
      | None =>
          match s with
          | String c s' => String c (drop_references turns' s')
          | EmptyString => EmptyString
          end
      end
  end.

(** [before_set]: the value is returned unless a ['%'] is left that
    is neither escaped nor part of a reference. *)
Definition before_set (s : string) : outcome string :=
  let tmp_value := drop_escaped s in
  let tmp_value := drop_references (String.length tmp_value) tmp_value in
  if PyStr.contains "%" tmp_value then Raise ValueError else Return s.

(** [get(section, option)] *)
Definition get (c : Config) (section option : string) : outcome value :=
  match unify_values c section with
  | Raise e => Raise e
  | Return d =>
      let option := optionxform option in
      match chain_get d option with
      | None => Raise (NoOptionError option section)
      | Some VNone => Return VNone
      | Some v =>
          match before_get d v with
          | Return s => Return (VStr s)
          | Raise e => Raise e
          end
      end
  end.

(** [int(v)] *)
Definition to_int (rt : runtime) (v : value) : outcome Z :=
  match v with
  | VStr s =>
      match PyInt.parse s with
      | Some (z, n) =>
          if Nat.ltb 0 (int_max_str_digits rt)
             && Nat.ltb (int_max_str_digits rt) n
          then Raise ValueError else Return z
      | None => Raise ValueError
      end
  | VInt z => Return z
  | VBool b => Return (if b then 1%Z else 0%Z)
  | _ => Raise TypeError
  end.

Definition BOOLEAN_STATES : dict bool :=
  [("1", true); ("yes", true); ("true", true); ("on", true);
   ("0", false); ("no", false); ("false", false); ("off", false)].

(** [_convert_to_boolean] *)
Definition convert_to_boolean (v : value) : outcome bool :=
  match py_lower v with
  | Raise e => Raise e
  | Return low =>
      match dict_get BOOLEAN_STATES low with
      | None => Raise ValueError
      | Some b => Return b
      end
  end.

(** [getint], [getboolean] *)
Definition getint (rt : runtime) (c : Config) (section option : string)
  : outcome Z :=
  match get c section option with
  | Return v => to_int rt v
  | Raise e => Raise e
  end.

Definition getboolean (c : Config) (section option : string) : outcome bool :=
  match get c section option with
  | Return v => convert_to_boolean v
  | Raise e => Raise e
  end.

(** [options(section)] *)
Definition options (c : Config) (section : string) : outcome (list string) :=
  match dict_get (_sections c) section with
  | None => Raise (NoSectionError section)
  | Some opts =>
      Return (dict_keys
                (fold_left (fun o kv => dict_set o (fst kv) (snd kv))
                           (_defaults c) opts))
  end.

(** [has_option(section, option)] *)
Definition has_option (c : Config) (section option : string) : bool :=
  if String.eqb section "" || String.eqb section default_section
  then dict_mem (_defaults c) (optionxform option)
  else match dict_get (_sections c) section with
       | None => false
       | Some d =>
           dict_mem d (optionxform option)
           || dict_mem (_defaults c) (optionxform option)
       end.

(** [ConfigParser.set(section, option, value)]: the value must be a
    [str]; a non-empty one passes [before_set]. *)
Definition set (section option : string) (v : value) : M unit :=
  match v with
  | VStr s =>
      (if truthy v then lift (before_set s) else ret s) ;;
      c <- read (fun c => Return c) ;;
      if String.eqb section "" || String.eqb section default_section
      then write (fun c =>
             mkConfig (_sections c)
                      (dict_set (_defaults c) (optionxform option) v))
      else match dict_get (_sections c) section with
           | None => raise (NoSectionError section)
           | Some sectdict =>
               write (fun c =>
                 mkConfig (dict_set (_sections c) section
                             (dict_set sectdict (optionxform option) v))
                          (_defaults c))
           end
  | _ => raise TypeError
  end.

(** *** [SectionProxy], the object [cfg[name]] returns *)

(** [ConfigParser.__getitem__(key)]: the proxy of a section is named
    by the section. *)
Definition getitem (c : Config) (key : string) : outcome string :=
  if negb (String.eqb key default_section) && negb (has_section c key)
  then Raise (KeyError key) else Return key.

(** [SectionProxy._options] *)
Definition proxy_options (c : Config) (name : string) : outcome (list string) :=
  if negb (String.eqb name default_section) then options c name
  else Return (dict_keys (_defaults c)).

(** [SectionProxy.__getitem__(key)] *)
Definition proxy_getitem (c : Config) (name key : string) : outcome value :=
  if has_option c name key then get c name key else Raise (KeyError key).

(** [SectionProxy.__setitem__(key, value)] *)
Definition proxy_setitem (name key : string) (v : value) : M unit :=
  match v with
  | VStr _ => set name key v
  | _ => raise TypeError
  end.

End ConfigParser.

(* ================================================================= *)
(** ** [core/config.py] *)

(** *** [class DotDict(dict)] *)

(** [__getattr__ = dict.get] *)
Definition DotDict___getattr__ (d : DotDict) (name : string) : value :=
  match dict_get d name with
  | Some v => v
  | None => VNone
  end.

(** [__setattr__ = dict.__setitem__] *)
Definition DotDict___setattr__ (d : DotDict) (name : string) (v : value)
  : DotDict :=
  dict_set d name v.

(** *** [class Config(configparser.ConfigParser)] *)

(** [Config.__getattr__]: the section stored under [name].  Past the
    membership test [self._sections.get(name)] cannot miss. *)
Definition Config___getattr__ (c : Config) (name : string) : outcome DotDict :=
  if negb (dict_mem (_sections c) name)
  then Raise (KeyError name)
  else match dict_get (_sections c) name with
       | Some d => Return d
       | None => Raise (KeyError name)
       end.

(** *** Attribute reads

    [obj.name] looks [name] up on the object and its class first and
    calls [__getattr__] only when that finds nothing.  The names bound
    on the classes are those of the class bodies and the inherited
    ones; of the latter the module itself uses [_sections], [getint],
    [getboolean] on a [Config] and [items], [get] on a section, and
    [inherited] stands for the rest. *)

Inductive attribute (A : Type) : Type :=
| ClassAttribute (name : string)    (* found by the normal look-up *)
| FromGetattr (a : A).              (* the result of [__getattr__] *)
Arguments ClassAttribute {A} name.
Arguments FromGetattr {A} a.

Definition Config_class_names : list string :=
  ["__init__"; "__getattr__"; "read"; "validate";
   "_sections"; "getint"; "getboolean"].

Definition DotDict_class_names : list string :=
  ["__getattr__"; "__setattr__"; "__delattr__"; "items"; "get"].

Definition bound_in (names : list string) (inherited : string -> bool)
    (name : string) : bool :=
  existsb (String.eqb name) names || inherited name.

(** [cfg.name] *)
Definition Config_getattribute (inherited : string -> bool) (c : Config)
    (name : string) : outcome (attribute DotDict) :=
  if bound_in Config_class_names inherited name
  then Return (ClassAttribute name)
  else match Config___getattr__ c name with
       | Return d => Return (FromGetattr d)
       | Raise e => Raise e
       end.

(** [section.name] *)
Definition DotDict_getattribute (inherited : string -> bool) (d : DotDict)
    (name : string) : attribute value :=
  if bound_in DotDict_class_names inherited name
  then ClassAttribute name
  else FromGetattr (DotDict___getattr__ d name).

(** *** Reads and writes of the passes

    None of the section and option names the passes spell out is bound
    on the classes, so [cfg.Section] and [cfg.Section.key] reach
    [__getattr__]; [cfg.Section.key = v] always goes to [__setattr__].
    A section object is shared: a write through [cfg.Section] is a
    write to [cfg._sections[Section]]. *)

(** [cfg.Section.key] *)
Definition getattr2 (section key : string) : M value :=
  d <- read (fun c => Config___getattr__ c section) ;;
  ret (DotDict___getattr__ d key).

(** [cfg.Section.key = v] and [cfg._sections[Section][key] = v] *)
Definition setattr2 (section key : string) (v : value) : M unit :=
  d <- read (fun c => Config___getattr__ c section) ;;
  write (fun c =>
    mkConfig (dict_set (_sections c) section (DotDict___setattr__ d key v))
             (_defaults c)).

(** *** [is_url] *)

Definition alnum (c : ascii) : bool :=                 (* [A-Z0-9] *)
  PyStr.is_ascii_alpha c || PyStr.is_digit c.
Definition alnum_dash (c : ascii) : bool :=            (* [A-Z0-9-] *)
  alnum c || Ascii.eqb c "-".
Definition slash_or_query (c : ascii) : bool :=        (* [/?] *)
  Ascii.eqb c "/" || Ascii.eqb c "?".
Definition non_space (c : ascii) : bool :=             (* \S *)
  negb (PyStr.is_space c).

Import Re.

Definition url_domain : regex :=
  Cat (plus (Cat (Cls alnum)
            (Cat (opt (Cat (rep 0 61 (Cls alnum_dash)) (Cls alnum)))
                 (chr "."))))
      (Alt (Cat (rep 2 6 (Cls PyStr.is_ascii_alpha)) (opt (chr ".")))
           (Cat (atleast 2 (Cls alnum_dash)) (opt (chr ".")))).

Definition url_ip : regex :=
  let octet := rep 1 3 (Cls PyStr.is_digit) in
  Cat octet (Cat (chr ".") (Cat octet (Cat (chr ".")
    (Cat octet (Cat (chr ".") octet))))).

(** The pattern of [is_url], compiled with [re.IGNORECASE]. *)
Definition url_pattern : regex :=
  Cat (lit_i "http") (Cat (opt (chr_i "s")) (Cat (lit "://")
  (Cat (Alt url_domain (Alt (lit_i "localhost") url_ip))
  (Cat (opt (Cat (chr ":") (plus (Cls PyStr.is_digit))))
  (Cat (Alt (opt (chr "/")) (Cat (Cls slash_or_query) (plus (Cls non_space))))
       dollar))))).

Definition is_url (url : string) : bool := re_match url_pattern url.

(** *** [validate_proxy] *)

Definition host_char (c : ascii) : bool :=             (* [-.a-z\d] *)
  Ascii.eqb c "-" || Ascii.eqb c "." || PyStr.is_ascii_lower c
  || PyStr.is_digit c.

Definition proxy_pattern : regex :=
  Cat (Alt (lit "socks5") (lit "http")) (Cat (lit "://")
  (Cat (plus (Cls host_char)) (Cat (chr ":")
  (Cat (plus (Cls PyStr.is_digit)) dollar)))).

Section Passes.
Variable rt : runtime.

(** *** [norm_int] *)
Definition norm_int : M unit :=
  n <- read (fun c => ConfigParser.getint rt c "Network" "retry") ;;
  setattr2 "Network" "retry" (VInt n) ;;
  n <- read (fun c => ConfigParser.getint rt c "Network" "timeout") ;;
  setattr2 "Network" "timeout" (VInt n).

(** *** [norm_tuples] *)
Definition dotted (i : string) : string :=
  if PyStr.startswith "." i then i else ("." ++ i)%string.

Definition norm_tuples : M unit :=
  v <- getattr2 "File" "media_ext" ;;
  low <- lift (py_lower v) ;;
  let items := PyStr.split ";" low in
  let exts := map dotted items in
  setattr2 "File" "media_ext" (VTuple exts) ;;
  v <- getattr2 "File" "ignore_folder" ;;
  items <- lift (py_split ";" v) ;;
  setattr2 "File" "ignore_folder" (VTuple items) ;;
  v <- getattr2 "Crawler" "required_keys" ;;
  items <- lift (py_split "," v) ;;
  setattr2 "Crawler" "required_keys" (VTuple items).

(** *** [norm_boolean] *)
Definition boolean_fields : list (string * string) :=
  [("Crawler", "hardworking_mode");
   ("Crawler", "remove_actor_in_title");
   ("NFO", "add_genre_to_tag")].

Definition norm_boolean : M unit :=
  for_each boolean_fields (fun sk =>
    b <- read (fun c => ConfigParser.getboolean c (fst sk) (snd sk)) ;;
    setattr2 (fst sk) (snd sk) (VBool b)).

(** *** [validate_proxy] *)
Definition validate_proxy : M unit :=
  v <- getattr2 "Network" "proxy" ;;
  proxy <- lift (py_lower v) ;;
  proxies <-
    (if truthy (VStr proxy) then
       if re_match proxy_pattern proxy
       then ret [("http", proxy); ("https", proxy)]
       else logger_warning InvalidProxyFormat ;; ret []
     else ret []) ;;
  setattr2 "Network" "proxy" (VDict proxies).

(** *** [import_crawlers] *)

(** [os.path.isdir(v)]: a path, or an integer taken as a file
    descriptor. *)
Definition os_path_isdir (v : value) : outcome bool :=
  match v with
  | VStr p => Return (isdir rt p)
  | VInt n => Return (isdir_fd rt n)
  | VBool b => Return (isdir_fd rt (if b then 1%Z else 0%Z))
  | _ => Raise TypeError
  end.

(** The loop over the names of one category, [valid_mods] and
    [unknown_mods] being the two lists it appends to. *)
Fixpoint import_names (mods valid_mods unknown_mods : list string)
  : M (list string * list string) :=
  match mods with
  | [] => ret (valid_mods, unknown_mods)
  | name :: mods' =>
      skip <-
        (if String.eqb name "fc2fan" then
           p <- getattr2 "Crawler" "fc2fan_local_path" ;;
           b <- lift (os_path_isdir p) ;;
           ret (negb b)
         else ret false) ;;
      if (skip : bool) then
        logger_debug Fc2fanSkipped ;;
        import_names mods' valid_mods unknown_mods
      else
        let import_name := ("web." ++ name)%string in
        match import_module rt import_name with
        | Imported =>
            import_names mods' (valid_mods ++ [import_name]) unknown_mods
        | ModuleNotFound =>
            import_names mods' valid_mods (unknown_mods ++ [name])
        | OtherFailure => raise ImportRaised
        end
  end.

(** The loop over [cfg.Priority.items()].  Each turn rebinds the key
    it is at and no other, so the items the loop sees are those the
    section held when the loop began. *)
Fixpoint import_categories (items : list (string * value))
    (unknown_mods : list string) : M (list string) :=
  match items with
  | [] => ret unknown_mods
  | (typ, cfg_str) :: items' =>
      mods <- lift (py_split "," cfg_str) ;;
      r <- import_names mods [] unknown_mods ;;
      setattr2 "Priority" typ (VTuple (fst r)) ;;
      import_categories items' (snd r)
  end.

Definition import_crawlers : M unit :=
  priority <- read (fun c => Config___getattr__ c "Priority") ;;
  unknown_mods <- import_categories priority [] ;;
  match unknown_mods with
  | [] => ret tt
  | _ =>
      if negb (run_as_main rt)
      then logger_warning (InvalidCrawlers (PyStr.join ", " unknown_mods))
      else print (PyStr.join ", " unknown_mods)
  end.

(** *** [convert_naming_rule] *)
Definition convert_naming_rule : M unit :=
  a <- getattr2 "NamingRule" "output_folder" ;;
  ab <- lift (str_add a (VStr (os_sep rt))) ;;
  b <- getattr2 "NamingRule" "save_dir" ;;
  combine <- lift (str_add ab b) ;;
  let path_t := VTemplate combine in
  f <- getattr2 "NamingRule" "filename" ;;
  let file_t := VTemplate f in
  setattr2 "NamingRule" "save_dir" path_t ;;
  setattr2 "NamingRule" "filename" file_t.

(** *** [check_proxy_free_url] *)

(** The value an entry is rebound to. *)
Definition free_url (url : string) : string :=
  let url := PyStr.lower url in
  let url := if negb (PyStr.startswith "http" url)
             then ("http://" ++ url)%string else url in
  if is_url url then url else "".

(** [cfg['ProxyFree']] is a [SectionProxy].  Its [items()] lists the
    options once, when the loop begins, and reads each value through
    [ConfigParser.get] when the loop reaches it; [sec[site] = v] goes
    through [ConfigParser.set]. *)
Definition check_proxy_free_url : M unit :=
  sec <- read (fun c => ConfigParser.getitem c "ProxyFree") ;;
  sites <- read (fun c => ConfigParser.proxy_options c sec) ;;
  for_each sites (fun site =>
    v <- read (fun c => ConfigParser.proxy_getitem c sec site) ;;
    match v with
    | VStr url => ConfigParser.proxy_setitem sec site (VStr (free_url url))
    | _ => raise AttributeError                      (* url.lower() *)
    end).

(** *** [Config.validate] *)
Definition validate : M unit :=
  norm_int ;;
  norm_tuples ;;
  norm_boolean ;;
  validate_proxy ;;
  import_crawlers ;;
  convert_naming_rule ;;
  check_proxy_free_url.

End Passes.

(* ================================================================= *)
(** ** Vocabulary of the statements *)

(** [cfg._sections[section][key]], when both exist. *)
Definition lookup2 (c : Config) (section key : string) : option value :=
  match dict_get (_sections c) section with
  | Some d => dict_get d key
  | None => None
  end.

(** The state [w] with [l] appended to its log. *)
Definition logged (w : world) (l : list (level * message)) : world :=
  mkWorld (cfg w) (log w ++ l) (stdout w).

(** The state [w] with the section [name] bound to [d]. *)
Definition with_section (w : world) (name : string) (d : DotDict) : world :=
  mkWorld (mkConfig (dict_set (_sections (cfg w)) name d) (_defaults (cfg w)))
          (log w) (stdout w).

(** A computation keeps a property of the state, whether it returns or
    raises. *)
Definition preserves {A} (P : world -> Prop) (m : M A) : Prop :=
  forall w, P w -> P (fst (m w)).

(** Every character of [s] is in the class [f]. *)
Fixpoint all_chars (f : ascii -> bool) (s : string) : bool :=
  match s with
  | EmptyString => true
  | String c s' => f c && all_chars f s'
  end.

(** [s] holds no interpolation character. *)
Definition percent_free (s : string) : bool := negb (PyStr.contains "%" s).

(** The tokens [getboolean] recognises, in lower case. *)
Definition true_tokens : list string := ["1"; "yes"; "true"; "on"].
Definition false_tokens : list string := ["0"; "no"; "false"; "off"].
Definition in_tokens (l : list string) (s : string) : bool :=
  existsb (String.eqb (PyStr.lower s)) l.

Section Resolution.
Variable rt : runtime.
(** Whether the directory of the local archive exists. *)
Variable local_archive : bool.

(** The import of [name] is attempted. *)
Definition attempted (name : string) : bool :=
  negb (String.eqb name "fc2fan") || local_archive.

(** [name] loads: its import is attempted and succeeds. *)
Definition loads (name : string) : bool :=
  attempted name &&
  match import_module rt ("web." ++ name) with Imported => true | _ => false end.

(** The import of [name] is attempted and the module is not found. *)
Definition not_found (name : string) : bool :=
  attempted name &&
  match import_module rt ("web." ++ name) with
  | ModuleNotFound => true
  | _ => false
  end.

(** No attempted import of [names] fails in another way. *)
Definition settles (names : list string) : bool :=
  forallb (fun name =>
    negb (attempted name &&
          match import_module rt ("web." ++ name) with
          | OtherFailure => true
          | _ => false
          end)) names.

(** The handles of the names that load, in the order of [names]. *)
Definition resolved (names : list string) : list string :=
  map (String.append "web.") (filter loads names).

(** The names of one category, of all categories. *)
Definition names_of (raw : string) : list string := PyStr.split "," raw.
Definition all_names (raws : list (string * string)) : list string :=
  flat_map (fun kr => names_of (snd kr)) raws.
End Resolution.

(** A section whose values are the raw strings [raws]. *)
Definition raw_section (raws : list (string * string)) : DotDict :=
  map (fun kr => (fst kr, VStr (snd kr))) raws.

(** The parts of the state a write to a section does not touch. *)
Definition same_rest (w0 w : world) : Prop :=
  _defaults (cfg w) = _defaults (cfg w0) /\ log w = log w0
  /\ stdout w = stdout w0.

(** [Network.retry] holds [x]. *)
Definition retry_is (x : option value) (w : world) : Prop :=
  lookup2 (cfg w) "Network" "retry" = x.

(* ================================================================= *)
(** ** Sample configurations *)

Definition media_ext_sample : world :=
  mkWorld (mkConfig [("File", [("media_ext", VStr "mp4;AVI;.mkv")])] []) [] [].

Definition proxy_sample (raw : string) : world :=
  mkWorld (mkConfig [("Network", [("proxy", VStr raw)])] []) [] [].

(** The token [s] is one of those [getboolean] recognises. *)
Definition recognised (s : string) : bool :=
  in_tokens true_tokens s || in_tokens false_tokens s.

Definition boolean_sample (a b c : string) : world :=
  mkWorld
    (mkConfig
       [("Crawler", [("hardworking_mode", VStr a);
                     ("remove_actor_in_title", VStr b)]);
        ("NFO", [("add_genre_to_tag", VStr c)])]
       [])
    [] [].


Section Report.
Variable rt : runtime.
Variable local_archive : bool.

(** The names recorded as unknown. *)
Definition unknown_names (names : list string) : list string :=
  filter (not_found rt local_archive) names.

(** One debug record for each name that is skipped. *)
Definition skip_notes (names : list string) : list (level * message) :=
  map (fun _ => (DEBUG, Fc2fanSkipped))
      (filter (fun name => negb (attempted local_archive name)) names).

(** The [Priority] section after the resolution. *)
Definition resolve_category (d : DotDict) (kr : string * string) : DotDict :=
  dict_set d (fst kr) (VTuple (resolved rt local_archive (names_of (snd kr)))).


End Report.

(** A runtime without the local archive, in which [web.siteB] does not
    exist and importing [web.fc2fan] would fail in another way. *)
Definition sample_runtime : runtime :=
  mkRuntime (fun _ => false) (fun _ => false)
    (fun name =>
       if String.eqb name "web.siteB" then ModuleNotFound
       else if String.eqb name "web.fc2fan" then OtherFailure
       else Imported)
    "/" false 4300.


(** A dictionary as the parser stores it when it reads a file without
    interpolation: lowercase keys, string values free of ['%']. *)
Definition plain_entry (kv : string * value) : bool :=
  String.eqb (PyStr.lower (fst kv)) (fst kv) &&
  match snd kv with
  | VStr s => percent_free s
  | _ => false
  end.
Definition plain_section (d : DotDict) : bool := forallb plain_entry d.

Definition free_proxy_sample (raw : string) : world :=
  mkWorld (mkConfig [("ProxyFree", [("site", VStr raw)])] []) [] [].

(** A configuration with every section of the schema, as read from a
    file, and the same configuration once validated. *)
Definition raw_sample : world :=
  mkWorld
    (mkConfig
       [("Network", [("retry", VStr "3"); ("timeout", VStr "10");
                     ("proxy", VStr "http://127.0.0.1:1080")]);
        ("File", [("media_ext", VStr "mp4;AVI;.mkv");
                  ("ignore_folder", VStr "#recycle;#done")]);
        ("Crawler", [("required_keys", VStr "cover,title");
                     ("hardworking_mode", VStr "yes");
                     ("remove_actor_in_title", VStr "no");
                     ("fc2fan_local_path", VStr "")]);
        ("Priority", [("normal", VStr "siteA,siteB"); ("fc2", VStr "fc2fan")]);
        ("NamingRule", [("output_folder", VStr "#out");
                        ("save_dir", VStr "$actress");
                        ("filename", VStr "$num")]);
        ("NFO", [("add_genre_to_tag", VStr "yes")]);
        ("ProxyFree", [("sitea", VStr "example.com")])]
       [])
    [] [].

Definition validated_sample : world :=
  mkWorld
    (mkConfig
       [("Network", [("retry", VInt 3); ("timeout", VInt 10);
                     ("proxy", VDict [("http", "http://127.0.0.1:1080");
                                      ("https", "http://127.0.0.1:1080")])]);
        ("File", [("media_ext", VTuple [".mp4"; ".avi"; ".mkv"]);
                  ("ignore_folder", VTuple ["#recycle"; "#done"])]);
        ("Crawler", [("required_keys", VTuple ["cover"; "title"]);
                     ("hardworking_mode", VBool true);
                     ("remove_actor_in_title", VBool false);
                     ("fc2fan_local_path", VStr "")]);
        ("Priority", [("normal", VTuple ["web.siteA"]); ("fc2", VTuple [])]);
        ("NamingRule", [("output_folder", VStr "#out");
                        ("save_dir", VTemplate (VStr "#out/$actress"));
                        ("filename", VTemplate (VStr "$num"))]);
        ("NFO", [("add_genre_to_tag", VBool true)]);
        ("ProxyFree", [("sitea", VStr "http://example.com")])]
       [])
    [(DEBUG, Fc2fanSkipped); (WARNING, InvalidCrawlers "siteB")] [].

Definition attribute_sample : Config :=
  mkConfig [("Priority", [("normal", VStr "siteA")])] [].

(* ================================================================= *)
(** ** The rest of the module *)

(** [__delattr__ = dict.__delitem__] of [DotDict]: the dictionary
    without the key, if it has it. *)
Fixpoint dict_del (V : Type) (d : dict V) (k : string) : option (dict V) :=
  match d with
  | [] => None
  | (k', v) :: d' =>
      if String.eqb k' k then Some d'
      else match dict_del d' k with
           | Some d'' => Some ((k', v) :: d'')
           | None => None
           end
  end.

Definition DotDict___delattr__ (d : DotDict) (name : string) : outcome DotDict :=
  match dict_del d name with
  | Some d' => Return d'
  | None => Raise (KeyError name)
  end.

(** [del cfg.Section.key] *)
Definition delattr2 (section key : string) : M unit :=
  d <- read (fun c => Config___getattr__ c section) ;;
  d' <- lift (DotDict___delattr__ d key) ;;
  write (fun c => mkConfig (dict_set (_sections c) section d') (_defaults c)).

(** ** Further vocabulary of the statements *)

(** Every character class of the pattern [r] has the property [Q]. *)
Fixpoint classes_all (Q : (ascii -> bool) -> Prop) (r : regex) : Prop :=
  match r with
  | Nul | Eps => True
  | Cls p => Q p
  | Cat r1 r2 | Alt r1 r2 => classes_all Q r1 /\ classes_all Q r2
  | Star r1 => classes_all Q r1
  end.

(** The class [p] rejects the characters of [f]. *)
Definition avoids (f p : ascii -> bool) : Prop :=
  forall c, f c = true -> p c = false.

(** The class [p] takes a character and its lower case alike. *)
Definition folds_case (p : ascii -> bool) : Prop :=
  forall c, p (PyStr.lower_char c) = p c.

(** The 256 characters, and the two properties of a class decided by
    trying each one. *)
Definition every_char : list ascii := map ascii_of_nat (seq 0 256).

Definition avoidsb (f p : ascii -> bool) : bool :=
  forallb (fun c => implb (f c) (negb (p c))) every_char.

Definition folds_caseb (p : ascii -> bool) : bool :=
  forallb (fun c => Bool.eqb (p (PyStr.lower_char c)) (p c)) every_char.

Fixpoint classes_allb (q : (ascii -> bool) -> bool) (r : regex) : bool :=
  match r with
  | Nul | Eps => true
  | Cls p => q p
  | Cat r1 r2 | Alt r1 r2 => classes_allb q r1 && classes_allb q r2
  | Star r1 => classes_allb q r1
  end.

(** The string has no white space. *)
Definition no_space (s : string) : bool := all_chars non_space s.

(** The string does not hold the character [c]. *)
Definition lacks (c : ascii) (s : string) : bool := negb (PyStr.contains c s).

(** The types of the values of a validated configuration. *)
Definition is_int (v : option value) : bool :=
  match v with Some (VInt _) => true | _ => false end.
Definition is_bool (v : option value) : bool :=
  match v with Some (VBool _) => true | _ => false end.
Definition is_tuple (v : option value) : bool :=
  match v with Some (VTuple _) => true | _ => false end.
Definition is_mapping (v : option value) : bool :=
  match v with Some (VDict _) => true | _ => false end.
Definition is_template (v : option value) : bool :=
  match v with Some (VTemplate _) => true | _ => false end.

(** The options [validate] converts, with the type each one has once
    it has returned. *)
Definition typed_options : list (string * string * (option value -> bool)) :=
  [("Network", "retry", is_int);
   ("Network", "timeout", is_int);
   ("File", "media_ext", is_tuple);
   ("File", "ignore_folder", is_tuple);
   ("Crawler", "required_keys", is_tuple);
   ("Crawler", "hardworking_mode", is_bool);
   ("Crawler", "remove_actor_in_title", is_bool);
   ("NFO", "add_genre_to_tag", is_bool);
   ("Network", "proxy", is_mapping);
   ("NamingRule", "save_dir", is_template);
   ("NamingRule", "filename", is_template)].

(** The option [section.key] has the type [T]. *)
Definition has_type (T : option value -> bool) (section key : string)
    (w : world) : Prop :=
  T (lookup2 (cfg w) section key) = true.

(** The option [section.key] holds [x]; it holds something. *)
Definition option_is (section key : string) (x : option value) (w : world)
  : Prop :=
  lookup2 (cfg w) section key = x.

Definition option_set (section key : string) (w : world) : Prop :=
  lookup2 (cfg w) section key <> None.

(** The sections are those of [names], in that order, and the
    defaults are [dflt]. *)
Definition shape_is (names : list string) (dflt : DotDict) (w : world)
  : Prop :=
  dict_keys (_sections (cfg w)) = names /\ _defaults (cfg w) = dflt.

(** [l] names the option [section.key]. *)
Definition names_option (l : list (string * string)) (section key : string)
  : bool :=
  existsb (fun p => String.eqb section (fst p) && String.eqb key (snd p)) l.

(** The options [validate] assigns as attributes: those of the schema
    and the categories of [Priority]. *)
Definition schema_options : list (string * string) :=
  map fst typed_options.

Definition writes (section key : string) : bool :=
  String.eqb section "Priority" || names_option schema_options section key.

(** A computation that returns leaves the state in [Q]. *)
Definition ensures {A} (Q : world -> Prop) (m : M A) : Prop :=
  forall w w' a, m w = (w', Return a) -> Q w'.

(** ** Further sample configurations *)

Definition network_sample (retry timeout : string) : world :=
  mkWorld
    (mkConfig [("Network", [("retry", VStr retry); ("timeout", VStr timeout)])]
              [])
    [] [].

Definition tuples_sample (ignore required : string) : world :=
  mkWorld
    (mkConfig
       [("File", [("media_ext", VStr "mp4"); ("ignore_folder", VStr ignore)]);
        ("Crawler", [("required_keys", VStr required)])]
       [])
    [] [].

Definition naming_sample : world :=
  mkWorld
    (mkConfig
       [("NamingRule", [("output_folder", VStr "#out");
                        ("save_dir", VStr "$actress");
                        ("filename", VStr "$num")])]
       [])
    [] [].

(** A runtime with the local archive, in which [web.siteB] does not
    exist and importing [web.fc2fan] fails in another way. *)
Definition archive_runtime : runtime :=
  mkRuntime (fun _ => true) (fun _ => false)
    (fun name =>
       if String.eqb name "web.siteB" then ModuleNotFound
       else if String.eqb name "web.fc2fan" then OtherFailure
       else Imported)
    "/" false 4300.

(* ================================================================= *)
(** * Properties *)

(** ** Strings *)

Lemma append_empty_r (s : string) : (s ++ "")%string = s.
Proof. induction s as [|c s IH]; simpl; [reflexivity | now rewrite IH]. Qed.

Lemma append_assoc (s t u : string) :
  ((s ++ t) ++ u)%string = (s ++ (t ++ u))%string.
Proof. induction s as [|c s IH]; simpl; [reflexivity | now rewrite IH]. Qed.

Lemma append_eq_empty (s t : string) :
  (s ++ t)%string = "" -> s = "" /\ t = "".
Proof. destruct s; simpl; [auto | discriminate]. Qed.

(** ** The matcher decides the language of a pattern *)

Lemma nullable_sound (r : regex) : nullable r = true -> Matches r "".
Proof.
  induction r as [| | p | r1 IH1 r2 IH2 | r1 IH1 r2 IH2 | r IH]; simpl; intros H;
    try discriminate.
  - constructor.
  - apply andb_true_iff in H as [H1 H2].
    change "" with ("" ++ "")%string. constructor; auto.
  - apply orb_true_iff in H as [H | H]; [apply MAltL | apply MAltR]; auto.
  - constructor.
Qed.

Lemma nullable_complete (r : regex) (s : string) :
  Matches r s -> s = "" -> nullable r = true.
Proof.
  induction 1 as [ | p c Hp | r1 r2 s1 s2 _ IH1 _ IH2 | r1 r2 s _ IH
                 | r1 r2 s _ IH | r | r s1 s2 _ _ _ _ ]; simpl; intros E;
    try reflexivity; try discriminate.
  - apply append_eq_empty in E as [E1 E2]. now rewrite IH1, IH2.
  - now rewrite IH.
  - rewrite IH by assumption. apply orb_true_r.
Qed.

Lemma nullable_correct (r : regex) : nullable r = true <-> Matches r "".
Proof.
  split; [apply nullable_sound | intros H; now apply (nullable_complete H)].
Qed.

Lemma Matches_Nul (s : string) : ~ Matches Nul s.
Proof. intros H; inversion H. Qed.

Lemma Matches_Eps (s : string) : Matches Eps s <-> s = "".
Proof. split; [intros H; now inversion H | intros ->; constructor]. Qed.

Lemma Matches_Cat (r1 r2 : regex) (s : string) :
  Matches (Cat r1 r2) s <->
  exists s1 s2, s = (s1 ++ s2)%string /\ Matches r1 s1 /\ Matches r2 s2.
Proof.
  split.
  - intros H; inversion H; subst; eauto.
  - intros (s1 & s2 & -> & H1 & H2); now constructor.
Qed.

Lemma Matches_Alt (r1 r2 : regex) (s : string) :
  Matches (Alt r1 r2) s <-> Matches r1 s \/ Matches r2 s.
Proof.
  split.
  - intros H; inversion H; subst; auto.
  - intros [H | H]; [now apply MAltL | now apply MAltR].
Qed.

Lemma cat_correct (r1 r2 : regex) (s : string) :
  Matches (cat r1 r2) s <-> Matches (Cat r1 r2) s.
Proof.
  split.
  - intros H.
    destruct r1, r2; simpl in H; try (now inversion H); try exact H;
      try (change s with ("" ++ s)%string; constructor;
           [constructor | exact H]);
      try (rewrite <- (append_empty_r s); constructor;
           [exact H | constructor]).
  - intros H. apply Matches_Cat in H as (s1 & s2 & -> & H1 & H2).
    destruct r1, r2; simpl;
      try (now inversion H1); try (now inversion H2);
      try (apply Matches_Eps in H1; subst s1; exact H2);
      try (apply Matches_Eps in H2; subst s2; rewrite append_empty_r;
           exact H1);
      now constructor.
Qed.

Lemma alt_correct (r1 r2 : regex) (s : string) :
  Matches (alt r1 r2) s <-> Matches (Alt r1 r2) s.
Proof.
  rewrite Matches_Alt.
  destruct r1, r2; simpl; try (rewrite Matches_Alt; reflexivity);
    split; intros H; auto;
    destruct H as [H | H]; auto; now inversion H.
Qed.

Lemma deriv_complete (r : regex) (s' : string) :
  Matches r s' -> forall c s, s' = String c s -> Matches (deriv c r) s.
Proof.
  induction 1 as [ | p x Hp | r1 r2 s1 s2 H1 IH1 H2 IH2 | r1 r2 t H IH
                 | r1 r2 t H IH | r | r s1 s2 H1 IH1 H2 IH2 ];
    intros c s E; simpl.
  - discriminate.
  - injection E as -> <-. rewrite Hp. constructor.
  - destruct s1 as [|x s1]; simpl in E.
    + subst s2. rewrite (proj2 (nullable_correct r1) H1).
      apply alt_correct, MAltR. now apply IH2.
    + injection E as -> <-.
      assert (Hc : Matches (cat (deriv c r1) r2) (s1 ++ s2)).
      { apply cat_correct. constructor; [now apply IH1 | assumption]. }
      destruct (nullable r1); [apply alt_correct, MAltL|]; exact Hc.
  - apply alt_correct, MAltL. now apply IH.
  - apply alt_correct, MAltR. now apply IH.
  - discriminate.
  - destruct s1 as [|x s1]; simpl in E.
    + subst s2. now apply IH2.
    + injection E as -> <-. apply cat_correct.
      constructor; [now apply IH1 | assumption].
Qed.

Lemma deriv_sound (c : ascii) (r : regex) :
  forall s, Matches (deriv c r) s -> Matches r (String c s).
Proof.
  induction r as [| | p | r1 IH1 r2 IH2 | r1 IH1 r2 IH2 | r IH]; simpl; intros s H.
  - inversion H.
  - inversion H.
  - destruct (p c) eqn:Hp; [|inversion H].
    apply Matches_Eps in H; subst s. now constructor.
  - assert (Hcat : forall t, Matches (cat (deriv c r1) r2) t ->
                             Matches (Cat r1 r2) (String c t)).
    { intros t Ht. apply cat_correct, Matches_Cat in Ht.
      destruct Ht as (s1 & s2 & -> & H1 & H2).
      change (String c (s1 ++ s2)) with (String c s1 ++ s2)%string.
      constructor; auto. }
    destruct (nullable r1) eqn:Hn; [|now apply Hcat].
    apply alt_correct, Matches_Alt in H. destruct H as [H | H]; [now apply Hcat|].
    change (String c s) with ("" ++ String c s)%string.
    constructor; [now apply nullable_correct | auto].
  - apply alt_correct, Matches_Alt in H.
    destruct H as [H | H]; [apply MAltL | apply MAltR]; auto.
  - apply cat_correct, Matches_Cat in H.
    destruct H as (s1 & s2 & -> & H1 & H2).
    change (String c (s1 ++ s2)) with (String c s1 ++ s2)%string.
    constructor; auto.
Qed.

Lemma deriv_correct (c : ascii) (r : regex) (s : string) :
  Matches (deriv c r) s <-> Matches r (String c s).
Proof.
  split; [apply deriv_sound | intros H; now apply (deriv_complete H)].
Qed.

(** [matchb] accepts exactly the strings of the language. *)
Lemma matchb_correct (s : string) :
  forall r, matchb r s = true <-> Matches r s.
Proof.
  induction s as [|c s IH]; intros r; simpl.
  - apply nullable_correct.
  - rewrite IH. apply deriv_correct.
Qed.

(** ** Dictionaries *)

Section DictFacts.
Variable V : Type.
Implicit Types (d : dict V) (k : string) (v : V).

Lemma dict_get_set_same d k v : dict_get (dict_set d k v) k = Some v.
Proof.
  induction d as [|[k' v'] d IH]; simpl.
  - now rewrite String.eqb_refl.
  - destruct (String.eqb k' k) eqn:E; simpl; rewrite E; auto.
Qed.

Lemma dict_get_set_other d k k' v :
  k' <> k -> dict_get (dict_set d k v) k' = dict_get d k'.
Proof.
  intros N. induction d as [|[k0 v0] d IH]; simpl.
  - destruct (String.eqb_spec k k'); [congruence | reflexivity].
  - destruct (String.eqb_spec k0 k) as [->|]; simpl.
    + destruct (String.eqb_spec k k'); [congruence | reflexivity].
    + now rewrite IH.
Qed.

Lemma dict_set_set d k v v' :
  dict_set (dict_set d k v) k v' = dict_set d k v'.
Proof.
  induction d as [|[k0 v0] d IH]; simpl.
  - now rewrite String.eqb_refl.
  - destruct (String.eqb k0 k) eqn:E; simpl; rewrite E; [reflexivity|].
    now rewrite IH.
Qed.

Lemma dict_keys_set_present d k v v0 :
  dict_get d k = Some v0 -> dict_keys (dict_set d k v) = dict_keys d.
Proof.
  unfold dict_keys. induction d as [|[k0 x] d IH]; simpl; [discriminate|].
  destruct (String.eqb k0 k) eqn:E; simpl; [reflexivity|].
  intros H. now rewrite IH.
Qed.

Lemma dict_keys_set_absent d k v :
  dict_get d k = None -> dict_keys (dict_set d k v) = dict_keys d ++ [k].
Proof.
  unfold dict_keys. induction d as [|[k0 x] d IH]; simpl; [reflexivity|].
  destruct (String.eqb k0 k) eqn:E; simpl; [discriminate|].
  intros H. now rewrite IH.
Qed.

Lemma dict_get_In d k v : dict_get d k = Some v -> In (k, v) d.
Proof.
  induction d as [|[k0 x] d IH]; simpl; [discriminate|].
  destruct (String.eqb_spec k0 k) as [->|].
  - intros [= ->]. now left.
  - intros H. right. auto.
Qed.

Lemma dict_get_None d k : dict_get d k = None <-> ~ In k (dict_keys d).
Proof.
  unfold dict_keys. induction d as [|[k0 x] d IH]; simpl; [tauto|].
  destruct (String.eqb_spec k0 k) as [->|N].
  - split; [discriminate | intros H; exfalso; auto].
  - rewrite IH. tauto.
Qed.


Lemma dict_mem_true d k : dict_mem d k = true <-> In k (dict_keys d).
Proof.
  unfold dict_mem. destruct (dict_get d k) eqn:E.
  - split; [intros _ | reflexivity].
    apply dict_get_In in E. change k with (fst (k, v)).
    now apply in_map.
  - apply dict_get_None in E. split; [discriminate | tauto].
Qed.
End DictFacts.

(** ** Characters *)

Ltac by_cases_on_char c :=
  destruct c as [[] [] [] [] [] [] [] []]; vm_compute; reflexivity.

Lemma lower_char_not_upper (c : ascii) :
  PyStr.is_upper (PyStr.lower_char c) = false.
Proof. by_cases_on_char c. Qed.

Lemma lower_char_semicolon (c : ascii) :
  Ascii.eqb (PyStr.lower_char c) ";" = Ascii.eqb c ";".
Proof. by_cases_on_char c. Qed.

Lemma lower_char_percent (c : ascii) :
  Ascii.eqb (PyStr.lower_char c) "%" = Ascii.eqb c "%".
Proof. by_cases_on_char c. Qed.

Lemma lower_char_fixed (c : ascii) :
  PyStr.is_upper c = false -> PyStr.lower_char c = c.
Proof. unfold PyStr.lower_char. now intros ->. Qed.

Lemma lower_no_upper (s : string) : PyStr.no_upper (PyStr.lower s) = true.
Proof.
  induction s as [|c s IH]; simpl; [reflexivity|].
  now rewrite lower_char_not_upper, IH.
Qed.

Lemma no_upper_lower (s : string) :
  PyStr.no_upper s = true -> PyStr.lower s = s.
Proof.
  induction s as [|c s IH]; simpl; [reflexivity|].
  intros H. apply andb_true_iff in H as [Hc Hs].
  apply negb_true_iff in Hc. now rewrite (lower_char_fixed _ Hc), IH.
Qed.

Lemma lower_idempotent (s : string) :
  PyStr.lower (PyStr.lower s) = PyStr.lower s.
Proof. apply no_upper_lower, lower_no_upper. Qed.

Lemma lower_contains_percent (s : string) :
  PyStr.contains "%" (PyStr.lower s) = PyStr.contains "%" s.
Proof.
  induction s as [|c s IH]; simpl; [reflexivity|].
  now rewrite lower_char_percent, IH.
Qed.

(** Lowering commutes with splitting on [';']. *)
Lemma split_lower (s : string) :
  PyStr.split ";" (PyStr.lower s) = map PyStr.lower (PyStr.split ";" s).
Proof.
  induction s as [|c s IH]; simpl; [reflexivity|].
  rewrite lower_char_semicolon, IH.
  destruct (Ascii.eqb c ";"); simpl; [reflexivity|].
  destruct (PyStr.split ";" s); reflexivity.
Qed.

Lemma split_not_nil (sep : ascii) (s : string) : PyStr.split sep s <> [].
Proof.
  destruct s as [|c s]; simpl; [discriminate|].
  destruct (Ascii.eqb c sep); [discriminate|].
  destruct (PyStr.split sep s); discriminate.
Qed.

Lemma dotted_startswith (i : string) : PyStr.startswith "." (dotted i) = true.
Proof.
  unfold dotted. destruct (PyStr.startswith "." i) eqn:E; [exact E|].
  simpl. destruct i; reflexivity.
Qed.

Lemma dotted_no_upper (i : string) :
  PyStr.no_upper i = true -> PyStr.no_upper (dotted i) = true.
Proof.
  intros H. unfold dotted. destruct (PyStr.startswith "." i); [exact H|].
  simpl. exact H.
Qed.

(** ** Reads and writes of a section *)

Lemma Config___getattr___Some (c : Config) (name : string) (d : DotDict) :
  dict_get (_sections c) name = Some d -> Config___getattr__ c name = Return d.
Proof. unfold Config___getattr__, dict_mem. now intros ->. Qed.

Lemma Config___getattr___None (c : Config) (name : string) :
  dict_get (_sections c) name = None ->
  Config___getattr__ c name = Raise (KeyError name).
Proof. unfold Config___getattr__, dict_mem. now intros ->. Qed.

Lemma getattr2_run (w : world) (s k : string) (d : DotDict) :
  dict_get (_sections (cfg w)) s = Some d ->
  getattr2 s k w = (w, Return (DotDict___getattr__ d k)).
Proof.
  intros H. unfold getattr2, bind, read, ret.
  now rewrite (Config___getattr___Some _ _ H).
Qed.

Lemma getattr2_fail (w : world) (s k : string) :
  dict_get (_sections (cfg w)) s = None ->
  getattr2 s k w = (w, Raise (KeyError s)).
Proof.
  intros H. unfold getattr2, bind, read.
  now rewrite (Config___getattr___None _ _ H).
Qed.

Lemma setattr2_run (w : world) (s k : string) (v : value) (d : DotDict) :
  dict_get (_sections (cfg w)) s = Some d ->
  setattr2 s k v w = (with_section w s (dict_set d k v), Return tt).
Proof.
  intros H. unfold setattr2, bind, read, write.
  now rewrite (Config___getattr___Some _ _ H).
Qed.

Lemma setattr2_fail (w : world) (s k : string) (v : value) :
  dict_get (_sections (cfg w)) s = None ->
  setattr2 s k v w = (w, Raise (KeyError s)).
Proof.
  intros H. unfold setattr2, bind, read.
  now rewrite (Config___getattr___None _ _ H).
Qed.

Lemma lookup2_with_section_same (w : world) (s k : string) (d : DotDict) :
  lookup2 (cfg (with_section w s d)) s k = dict_get d k.
Proof. unfold lookup2; simpl. now rewrite dict_get_set_same. Qed.

Lemma lookup2_with_section_other (w : world) (s s' k : string) (d : DotDict) :
  s' <> s -> lookup2 (cfg (with_section w s d)) s' k = lookup2 (cfg w) s' k.
Proof. intros N. unfold lookup2; simpl. now rewrite dict_get_set_other. Qed.

Lemma section_with_section_other (w : world) (s s' : string) (d : DotDict) :
  s' <> s ->
  dict_get (_sections (cfg (with_section w s d))) s' =
  dict_get (_sections (cfg w)) s'.
Proof. intros N. simpl. now rewrite dict_get_set_other. Qed.

Lemma with_section_twice (w : world) (s : string) (d d' : DotDict) :
  with_section (with_section w s d) s d' = with_section w s d'.
Proof. unfold with_section; simpl. now rewrite dict_set_set. Qed.

(** ** Running a sequence *)

Lemma bind_run {A B} (m : M A) (k : A -> M B) (w w' : world) (a : A) :
  m w = (w', Return a) -> bind m k w = k a w'.
Proof. unfold bind. now intros ->. Qed.

Lemma bind_fail {A B} (m : M A) (k : A -> M B) (w w' : world) (e : exn) :
  m w = (w', Raise e) -> bind m k w = (w', Raise e).
Proof. unfold bind. now intros ->. Qed.

Ltac run_with H := erewrite bind_run; [| exact H].
Ltac fail_with H := erewrite bind_fail; [| exact H].
Ltac run_pure := erewrite bind_run; [| reflexivity].

(** ** Properties a computation keeps *)

Lemma preserves_ret {A} (P : world -> Prop) (a : A) : preserves P (ret a).
Proof. intros w H; exact H. Qed.

Lemma preserves_raise {A} (P : world -> Prop) (e : exn) :
  preserves P (@raise A e).
Proof. intros w H; exact H. Qed.

Lemma preserves_lift {A} (P : world -> Prop) (o : outcome A) :
  preserves P (lift o).
Proof. intros w H; exact H. Qed.

Lemma preserves_read {A} (P : world -> Prop) (f : Config -> outcome A) :
  preserves P (read f).
Proof. intros w H; exact H. Qed.

Lemma preserves_bind {A B} (P : world -> Prop) (m : M A) (k : A -> M B) :
  preserves P m -> (forall a, preserves P (k a)) -> preserves P (bind m k).
Proof.
  intros Hm Hk w H. unfold bind. specialize (Hm w H).
  destruct (m w) as [w' [a | e]]; simpl in *; [now apply Hk | exact Hm].
Qed.

Lemma preserves_for_each {A} (P : world -> Prop) (l : list A)
    (body : A -> M unit) :
  (forall x, preserves P (body x)) -> preserves P (for_each l body).
Proof.
  intros Hb. induction l as [|x l IH]; simpl.
  - apply preserves_ret.
  - apply preserves_bind; [apply Hb | intros _; exact IH].
Qed.

Lemma preserves_getattr2 (P : world -> Prop) (s k : string) :
  preserves P (getattr2 s k).
Proof.
  apply preserves_bind; [apply preserves_read | intros; apply preserves_ret].
Qed.

(** A write to one option leaves every other option as it is. *)
Lemma setattr2_frame (s k s0 k0 : string) (v : value) (x : option value) :
  s0 <> s \/ k0 <> k ->
  preserves (fun w => lookup2 (cfg w) s0 k0 = x) (setattr2 s k v).
Proof.
  intros N w H.
  destruct (dict_get (_sections (cfg w)) s) as [d|] eqn:E.
  - rewrite (setattr2_run _ _ _ _ E). simpl fst.
    destruct (String.eqb_spec s0 s) as [->|Ns].
    + rewrite lookup2_with_section_same.
      destruct N as [N | N]; [congruence|].
      rewrite dict_get_set_other by exact N.
      unfold lookup2 in H. now rewrite E in H.
    + now rewrite lookup2_with_section_other.
  - now rewrite (setattr2_fail _ _ _ _ E).
Qed.

Lemma setattr2_same_rest (s k : string) (v : value) (w0 : world) :
  preserves (same_rest w0) (setattr2 s k v).
Proof.
  intros w H.
  destruct (dict_get (_sections (cfg w)) s) as [d|] eqn:E.
  - now rewrite (setattr2_run _ _ _ _ E).
  - now rewrite (setattr2_fail _ _ _ _ E).
Qed.

Ltac frame :=
  repeat first
    [ apply preserves_getattr2
    | apply setattr2_frame; first [left; discriminate | right; discriminate]
    | apply preserves_lift
    | apply preserves_read
    | apply preserves_ret
    | apply preserves_raise
    | apply preserves_bind; [|intros ?] ].

(** ** C1: the tuple of media extensions *)

(** C1.  Whatever string [File.media_ext] holds, [norm_tuples] rebinds
    it to the tuple obtained from its [';']-separated fields, in
    order and one entry per field: each field lowered and given a
    leading ['.'] when it has none.  Every entry starts with ['.'] and
    is lowercase. *)
Theorem media_ext_coercion (w : world) (file : DotDict) (raw : string) :
  dict_get (_sections (cfg w)) "File" = Some file ->
  dict_get file "media_ext" = Some (VStr raw) ->
  exists exts,
    lookup2 (cfg (fst (norm_tuples w))) "File" "media_ext"
      = Some (VTuple exts)
    /\ exts = map (fun field => dotted (PyStr.lower field))
                  (PyStr.split ";" raw)
    /\ length exts = length (PyStr.split ";" raw)
    /\ Forall (fun e => PyStr.startswith "." e = true
                        /\ PyStr.no_upper e = true
                        /\ PyStr.lower e = e) exts.
Proof.
  intros Hfile Hraw.
  exists (map dotted (PyStr.split ";" (PyStr.lower raw))).
  split; [|split; [|split]].
  - unfold norm_tuples.
    run_with (getattr2_run _ _ "media_ext" Hfile).
    unfold DotDict___getattr__. rewrite Hraw.
    run_pure.
    run_with (setattr2_run _ _ "media_ext"
                (VTuple (map dotted (PyStr.split ";" (PyStr.lower raw)))) Hfile).
    match goal with
    | |- lookup2 (cfg (fst (?m ?w1))) _ _ = ?x =>
        apply (fun Hp : preserves (fun w => lookup2 (cfg w) "File" "media_ext" = x) m
               => Hp w1)
    end.
    + frame.
    + rewrite lookup2_with_section_same. apply dict_get_set_same.
  - rewrite split_lower, map_map. reflexivity.
  - rewrite split_lower. now rewrite !length_map.
  - apply Forall_forall. intros e He.
    apply in_map_iff in He as (i & <- & Hi).
    rewrite split_lower in Hi. apply in_map_iff in Hi as (t & <- & _).
    assert (Hl : PyStr.no_upper (dotted (PyStr.lower t)) = true)
      by apply dotted_no_upper, lower_no_upper.
    split; [apply dotted_startswith | split; [exact Hl |]].
    now apply no_upper_lower.
Qed.

Lemma media_ext_coercion_witness :
  dict_get (_sections (cfg media_ext_sample)) "File"
    = Some [("media_ext", VStr "mp4;AVI;.mkv")]
  /\ lookup2 (cfg (fst (norm_tuples media_ext_sample))) "File" "media_ext"
     = Some (VTuple [".mp4"; ".avi"; ".mkv"]).
Proof.
  split; [reflexivity|].
  destruct (@media_ext_coercion media_ext_sample
              [("media_ext", VStr "mp4;AVI;.mkv")] "mp4;AVI;.mkv"
              eq_refl eq_refl) as (exts & H & -> & _).
  exact H.
Defined.

(** ** The shape of the strings a pattern denotes *)

Lemma Matches_chr (c : ascii) (s : string) :
  Matches (chr c) s <-> s = String c "".
Proof.
  unfold chr. split.
  - intros H; inversion H as [ | p x Hx | | | | | ]; subst.
    apply Ascii.eqb_eq in Hx. now subst.
  - intros ->. constructor. apply Ascii.eqb_refl.
Qed.

Lemma Matches_lit (t s : string) : Matches (lit t) s <-> s = t.
Proof.
  revert s. induction t as [|c t IH]; intros s; simpl.
  - apply Matches_Eps.
  - rewrite Matches_Cat. split.
    + intros (s1 & s2 & -> & H1 & H2).
      apply Matches_chr in H1. apply IH in H2. now subst.
    + intros ->. exists (String c ""), t.
      repeat split; [now apply Matches_chr | now apply IH].
Qed.

Lemma Matches_opt (r : regex) (s : string) :
  Matches (opt r) s <-> s = "" \/ Matches r s.
Proof. unfold opt. now rewrite Matches_Alt, Matches_Eps. Qed.

Lemma Matches_dollar (s : string) :
  Matches dollar s <-> s = "" \/ s = String "010" "".
Proof. unfold dollar. now rewrite Matches_opt, Matches_chr. Qed.

Lemma all_chars_app (f : ascii -> bool) (s t : string) :
  all_chars f (s ++ t)%string = all_chars f s && all_chars f t.
Proof.
  induction s as [|c s IH]; simpl; [reflexivity|].
  now rewrite IH, andb_assoc.
Qed.

Lemma Matches_star_cls (f : ascii -> bool) (s : string) :
  Matches (Star (Cls f)) s <-> all_chars f s = true.
Proof.
  split.
  - intros H. remember (Star (Cls f)) as r eqn:E.
    induction H as [ | | | | | r0 | r0 s1 s2 H1 _ H2 IH2 ]; try discriminate.
    + reflexivity.
    + injection E as ->. rewrite all_chars_app, IH2 by reflexivity.
      inversion H1; subst; simpl. now rewrite H0.
  - induction s as [|c s IH]; simpl; intros H.
    + constructor.
    + apply andb_true_iff in H as [Hc Hs].
      change (String c s) with (String c "" ++ s)%string.
      constructor; [now constructor | auto].
Qed.

Lemma Matches_plus_cls (f : ascii -> bool) (s : string) :
  Matches (plus (Cls f)) s <-> s <> "" /\ all_chars f s = true.
Proof.
  unfold plus. rewrite Matches_Cat. split.
  - intros (s1 & s2 & -> & H1 & H2). apply Matches_star_cls in H2.
    inversion H1; subst; simpl. rewrite H0, H2. split; [discriminate | reflexivity].
  - intros [N H]. destruct s as [|c s]; [congruence|].
    simpl in H. apply andb_true_iff in H as [Hc Hs].
    exists (String c ""), s.
    repeat split; [now constructor | now apply Matches_star_cls].
Qed.

(** The strings [proxy_pattern] denotes: a scheme, a host and a port,
    and possibly the line feed that [$] lets through. *)
Lemma proxy_pattern_shape (p : string) :
  Matches proxy_pattern p <->
  exists scheme host port eol,
    p = (scheme ++ "://" ++ host ++ ":" ++ port ++ eol)%string
    /\ (scheme = "socks5" \/ scheme = "http")
    /\ host <> "" /\ all_chars host_char host = true
    /\ port <> "" /\ all_chars PyStr.is_digit port = true
    /\ (eol = "" \/ eol = String "010" "").
Proof.
  unfold proxy_pattern. split.
  - intros H.
    apply Matches_Cat in H as (scheme & r1 & -> & Hs & H).
    apply Matches_Cat in H as (sep & r2 & -> & Hsep & H).
    apply Matches_Cat in H as (host & r3 & -> & Hh & H).
    apply Matches_Cat in H as (colon & r4 & -> & Hc & H).
    apply Matches_Cat in H as (port & eol & -> & Hp & He).
    apply Matches_Alt in Hs. rewrite !Matches_lit in Hs.
    apply Matches_lit in Hsep. apply Matches_chr in Hc.
    apply Matches_plus_cls in Hh as [Hh1 Hh2].
    apply Matches_plus_cls in Hp as [Hp1 Hp2].
    apply Matches_dollar in He. subst sep colon.
    exists scheme, host, port, eol. repeat split; auto.
  - intros (scheme & host & port & eol & -> & Hs & Hh1 & Hh2 & Hp1 & Hp2 & He).
    constructor; [apply Matches_Alt; rewrite !Matches_lit; exact Hs|].
    constructor; [now apply Matches_lit|].
    constructor; [now apply Matches_plus_cls|].
    change (":" ++ port ++ eol)%string with (String ":" "" ++ (port ++ eol))%string.
    constructor; [now apply Matches_chr|].
    constructor; [now apply Matches_plus_cls | now apply Matches_dollar].
Qed.

(** ** C2: the proxy mapping *)

(** C2.  Whatever string [Network.proxy] holds, [validate_proxy] works
    on its lowercase form.  When that form is not empty and matches
    the pattern, the option is rebound to the mapping that gives this
    very string to both [http] and [https], and nothing is logged.
    When it is not empty and does not match, one warning is logged and
    the option is rebound to the empty mapping.  Neither case raises. *)
Theorem proxy_validation (w : world) (net : DotDict) (raw : string) :
  dict_get (_sections (cfg w)) "Network" = Some net ->
  dict_get net "proxy" = Some (VStr raw) ->
  PyStr.lower raw <> "" ->
  (Matches proxy_pattern (PyStr.lower raw) ->
   validate_proxy w =
     (with_section w "Network"
        (dict_set net "proxy"
           (VDict [("http", PyStr.lower raw); ("https", PyStr.lower raw)])),
      Return tt))
  /\
  (~ Matches proxy_pattern (PyStr.lower raw) ->
   validate_proxy w =
     (logged (with_section w "Network" (dict_set net "proxy" (VDict [])))
             [(WARNING, InvalidProxyFormat)],
      Return tt)).
Proof.
  intros Hnet Hraw Hne.
  assert (Ht : truthy (VStr (PyStr.lower raw)) = true).
  { simpl. apply negb_true_iff. now apply String.eqb_neq. }
  assert (Hstart :
    forall k : string -> M unit,
      bind (getattr2 "Network" "proxy")
           (fun v => bind (lift (py_lower v)) k) w = k (PyStr.lower raw) w).
  { intros k. run_with (getattr2_run _ _ "proxy" Hnet).
    unfold DotDict___getattr__. rewrite Hraw. now run_pure. }
  unfold validate_proxy. rewrite Hstart, Ht. unfold re_match.
  split; intros Hm.
  - apply matchb_correct in Hm. rewrite Hm.
    run_pure. now rewrite (setattr2_run _ _ _ _ Hnet).
  - destruct (matchb proxy_pattern (PyStr.lower raw)) eqn:E.
    { exfalso. apply Hm. now apply matchb_correct. }
    unfold bind at 1. unfold bind at 1. unfold logger_warning at 1.
    unfold ret at 1.
    erewrite setattr2_run by exact Hnet. reflexivity.
Qed.

Lemma proxy_validation_witness :
  validate_proxy (proxy_sample "http://127.0.0.1:1080") =
    (with_section (proxy_sample "http://127.0.0.1:1080") "Network"
       [("proxy", VDict [("http", "http://127.0.0.1:1080");
                         ("https", "http://127.0.0.1:1080")])],
     Return tt)
  /\
  validate_proxy (proxy_sample "ftp://x:1") =
    (logged (with_section (proxy_sample "ftp://x:1") "Network"
               [("proxy", VDict [])])
            [(WARNING, InvalidProxyFormat)],
     Return tt).
Proof.
  split.
  - apply (proj1 (@proxy_validation (proxy_sample "http://127.0.0.1:1080")
                    [("proxy", VStr "http://127.0.0.1:1080")]
                    "http://127.0.0.1:1080" eq_refl eq_refl
                    ltac:(discriminate))).
    apply matchb_correct. reflexivity.
  - apply (proj2 (@proxy_validation (proxy_sample "ftp://x:1")
                    [("proxy", VStr "ftp://x:1")] "ftp://x:1"
                    eq_refl eq_refl ltac:(discriminate))).
    intros H. apply matchb_correct in H. discriminate H.
Defined.

(** ** C8: the URL predicate on three inputs *)

(** C8.  [is_url] accepts ["http://example.com/path?q=1"] and
    ["https://192.168.0.1:8080"] and rejects ["not a url"]. *)
Theorem is_url_examples :
  is_url "http://example.com/path?q=1" = true
  /\ is_url "https://192.168.0.1:8080" = true
  /\ is_url "not a url" = false.
Proof. repeat split; vm_compute; reflexivity. Qed.

(** ** The loops of the interpolation run long enough *)

Lemma length_drop (n : nat) (s : string) :
  String.length (PyStr.drop n s) = String.length s - n.
Proof.
  revert s. induction n as [|n IH]; intros s; simpl.
  - now rewrite Nat.sub_0_r.
  - destruct s as [|c s]; simpl; [reflexivity | apply IH].
Qed.

Lemma find_in_range (c : ascii) (s : string) (p : nat) :
  PyStr.find c s = Some p -> p < String.length s.
Proof.
  revert p. induction s as [|x s IH]; intros p; simpl; [discriminate|].
  destruct (Ascii.eqb x c).
  - intros [= <-]. lia.
  - destruct (PyStr.find c s) as [q|]; simpl; [|discriminate].
    intros [= <-]. specialize (IH q eq_refl). lia.
Qed.

Lemma until_rparen_length (s name tail : string) :
  ConfigParser.until_rparen s = (name, tail) ->
  String.length s = String.length name + String.length tail.
Proof.
  revert name tail. induction s as [|c s IH]; intros name tail; simpl.
  - intros [= <- <-]. reflexivity.
  - destruct (Ascii.eqb c ")").
    + intros [= <- <-]. reflexivity.
    + destruct (ConfigParser.until_rparen s) as [n t].
      intros [= <- <-]. simpl. now rewrite (IH n t eq_refl).
Qed.

Lemma keycre_match_shorter (s name after : string) :
  ConfigParser.keycre_match s = Some (name, after) ->
  String.length after < String.length s.
Proof.
  unfold ConfigParser.keycre_match.
  destruct s as [|c0 [|c1 r]]; try discriminate;
    try (destruct c0 as [[] [] [] [] [] [] [] []]; discriminate).
  destruct (Ascii.eqb_spec c0 "%") as [->|N].
  2:{ destruct c0 as [[] [] [] [] [] [] [] []]; try discriminate.
      congruence. }
  destruct (Ascii.eqb_spec c1 "(") as [->|N].
  2:{ destruct c1 as [[] [] [] [] [] [] [] []]; try discriminate.
      congruence. }
  destruct (ConfigParser.until_rparen r) as [n t] eqn:E.
  apply until_rparen_length in E.
  destruct n as [|cn n]; [discriminate|].
  destruct t as [|t0 [|t1 t]]; try discriminate;
    try (destruct t0 as [[] [] [] [] [] [] [] []]; discriminate).
  intros H.
  assert (after = t) as ->.
  { destruct t0 as [[] [] [] [] [] [] [] []]; try discriminate;
      destruct t1 as [[] [] [] [] [] [] [] []]; try discriminate.
    now injection H. }
  simpl in *. lia.
Qed.

(** More turns than the characters of [rest] change nothing. *)
Lemma interpolate_loop_turns
    (deeper : value -> list value -> outcome (list value))
    (map : DotDict * DotDict) (n : nat) :
  forall (m : nat) (s : string) (accum : list value),
    String.length s < n -> String.length s < m ->
    ConfigParser.interpolate_loop deeper map n (VStr s) accum
    = ConfigParser.interpolate_loop deeper map m (VStr s) accum.
Proof.
  induction n as [|n IH]; intros m s accum Hn Hm; [lia|].
  destruct m as [|m]; [lia|].
  cbn [ConfigParser.interpolate_loop].
  destruct (negb (truthy (VStr s))); [reflexivity|].
  destruct (PyStr.find "%" s) as [p|] eqn:Hf; [|reflexivity].
  apply find_in_range in Hf. cbv zeta.
  pose proof (length_drop p s) as Hl.
  destruct (String.eqb (PyStr.take 1 (PyStr.drop 1 (PyStr.drop p s))) "%").
  { apply IH; rewrite length_drop; lia. }
  destruct (String.eqb (PyStr.take 1 (PyStr.drop 1 (PyStr.drop p s))) "(");
    [|reflexivity].
  destruct (ConfigParser.keycre_match (PyStr.drop p s)) as [[name after]|] eqn:K;
    [|reflexivity].
  apply keycre_match_shorter in K.
  destruct (ConfigParser.chain_get map (ConfigParser.optionxform name));
    [|reflexivity].
  destruct (percent_in v) as [[|]|]; [| |reflexivity].
  - destruct (deeper v _); [|reflexivity]. apply IH; lia.
  - apply IH; lia.
Qed.

Lemma drop_references_any_turns (n : nat) :
  forall (m : nat) (s : string),
    String.length s <= n -> String.length s <= m ->
    ConfigParser.drop_references n s = ConfigParser.drop_references m s.
Proof.
  assert (Hempty : forall k, ConfigParser.drop_references k "" = "")
    by (intros [|k]; reflexivity).
  induction n as [|n IH]; intros m s Hn Hm.
  - destruct s; [|simpl in Hn; lia]. now rewrite !Hempty.
  - destruct m as [|m].
    { destruct s; [|simpl in Hm; lia]. now rewrite !Hempty. }
    cbn [ConfigParser.drop_references].
    destruct (ConfigParser.keycre_match s) as [[name after]|] eqn:K.
    + apply keycre_match_shorter in K. apply IH; lia.
    + destruct s as [|c s]; [reflexivity|].
      simpl in Hn, Hm. f_equal. apply IH; lia.
Qed.

Lemma drop_references_turns (n : nat) (s : string) :
  String.length s <= n ->
  ConfigParser.drop_references n s
  = ConfigParser.drop_references (String.length s) s.
Proof. intros H. apply drop_references_any_turns; lia. Qed.

(** ** Reading an option through the parser *)

Lemma find_percent_free (s : string) :
  percent_free s = true -> PyStr.find "%" s = None.
Proof.
  unfold percent_free. induction s as [|c s IH]; simpl; [reflexivity|].
  destruct (Ascii.eqb c "%"); simpl; [discriminate|].
  intros H. now rewrite IH.
Qed.

(** A string without ['%'] is its own interpolation. *)
Lemma before_get_plain (m : DotDict * DotDict) (s : string) :
  percent_free s = true -> ConfigParser.before_get m (VStr s) = Return s.
Proof.
  intros H. unfold ConfigParser.before_get, ConfigParser.MAX_INTERPOLATION_DEPTH.
  cbn [ConfigParser.interpolate_some ConfigParser.interpolate_loop
       ConfigParser.turns_for truthy].
  destruct (String.eqb_spec s "") as [->|N]; [reflexivity|].
  cbn [negb]. rewrite (find_percent_free _ H).
  simpl. now rewrite append_empty_r.
Qed.

Lemma get_plain (c : Config) (section option : string) (d : DotDict)
    (s : string) :
  dict_get (_sections c) section = Some d ->
  dict_get d (ConfigParser.optionxform option) = Some (VStr s) ->
  percent_free s = true ->
  ConfigParser.get c section option = Return (VStr s).
Proof.
  intros Hd Hs Hp. unfold ConfigParser.get, ConfigParser.unify_values.
  rewrite Hd. unfold ConfigParser.chain_get. cbn [fst snd]. rewrite Hs.
  now rewrite before_get_plain.
Qed.

(** ** C4: the boolean options *)

Lemma convert_to_boolean_tokens (t : string) :
  ConfigParser.convert_to_boolean (VStr t) =
    if in_tokens true_tokens t then Return true
    else if in_tokens false_tokens t then Return false
    else Raise ValueError.
Proof.
  unfold ConfigParser.convert_to_boolean, in_tokens, true_tokens, false_tokens,
    ConfigParser.BOOLEAN_STATES, py_lower.
  generalize (PyStr.lower t) as u. intros u. cbn [dict_get existsb].
  rewrite !(String.eqb_sym u).
  repeat match goal with
         | |- context [String.eqb ?k u] =>
             destruct (String.eqb_spec k u) as [<-|];
             [vm_compute; reflexivity|]
         end.
  reflexivity.
Qed.

Lemma not_boolean_field (s0 k0 : string) :
  ~ In (s0, k0) boolean_fields ->
  forall s k, In (s, k) boolean_fields -> s0 <> s \/ k0 <> k.
Proof.
  intros N s k H.
  destruct (String.eqb_spec s0 s) as [->|]; [right | now left].
  intros ->. contradiction.
Qed.

Lemma getboolean_recognised (w : world) (section option t : string)
    (k : bool -> M unit) :
  ConfigParser.get (cfg w) section option = Return (VStr t) ->
  recognised t = true ->
  bind (read (fun c => ConfigParser.getboolean c section option)) k w
  = k (in_tokens true_tokens t) w.
Proof.
  intros Hg Hr.
  apply bind_run. unfold read, ConfigParser.getboolean.
  rewrite Hg, convert_to_boolean_tokens.
  unfold recognised in Hr.
  destruct (in_tokens true_tokens t); [reflexivity|].
  change (in_tokens false_tokens t = true) in Hr. now rewrite Hr.
Qed.

Lemma getboolean_unrecognised (w : world) (section option t : string)
    (k : bool -> M unit) :
  ConfigParser.get (cfg w) section option = Return (VStr t) ->
  recognised t = false ->
  bind (read (fun c => ConfigParser.getboolean c section option)) k w
  = (w, Raise ValueError).
Proof.
  intros Hg Hr.
  apply bind_fail. unfold read, ConfigParser.getboolean.
  rewrite Hg, convert_to_boolean_tokens.
  unfold recognised in Hr. apply orb_false_iff in Hr as [-> ->].
  reflexivity.
Qed.

(** Rebinding a section does not change what the parser reads in
    another one. *)
Lemma get_with_section_other (w : world) (s section option : string)
    (d : DotDict) :
  section <> s ->
  ConfigParser.get (cfg (with_section w s d)) section option
  = ConfigParser.get (cfg w) section option.
Proof.
  intros N. unfold ConfigParser.get, ConfigParser.unify_values. simpl.
  now rewrite dict_get_set_other.
Qed.

(** C4.  [getboolean] reads yes/true/on/1 as true and no/false/off/0
    as false, whatever the case of the letters, and raises on every
    other token the parser hands it.  With [t1], [t2], [t3] the tokens
    the parser reads for [Crawler.hardworking_mode],
    [Crawler.remove_actor_in_title] and [NFO.add_genre_to_tag] (the
    second one once the first option is rebound), [norm_boolean]
    rebinds the three options to the booleans of their tokens and
    changes no other option, nor the defaults or the log; as soon as
    one of the three tokens is not recognised it raises. *)
Theorem boolean_coercion (w : world) (crawler nfo : DotDict)
    (t1 t2 t3 : string) :
  dict_get (_sections (cfg w)) "Crawler" = Some crawler ->
  dict_get (_sections (cfg w)) "NFO" = Some nfo ->
  ConfigParser.get (cfg w) "Crawler" "hardworking_mode" = Return (VStr t1) ->
  ConfigParser.get
    (cfg (with_section w "Crawler"
            (dict_set crawler "hardworking_mode"
               (VBool (in_tokens true_tokens t1)))))
    "Crawler" "remove_actor_in_title" = Return (VStr t2) ->
  ConfigParser.get (cfg w) "NFO" "add_genre_to_tag" = Return (VStr t3) ->
  (* the tokens *)
  (forall (c : Config) (section option t : string),
      ConfigParser.get c section option = Return (VStr t) ->
      ConfigParser.getboolean c section option =
        if in_tokens true_tokens t then Return true
        else if in_tokens false_tokens t then Return false
        else Raise ValueError)
  /\ (forall t, in_tokens true_tokens (PyStr.lower t) = in_tokens true_tokens t
             /\ in_tokens false_tokens (PyStr.lower t) = in_tokens false_tokens t)
  (* the three options *)
  /\ (recognised t1 && recognised t2 && recognised t3 = true ->
      norm_boolean w =
        (with_section
           (with_section w "Crawler"
              (dict_set
                 (dict_set crawler "hardworking_mode"
                    (VBool (in_tokens true_tokens t1)))
                 "remove_actor_in_title" (VBool (in_tokens true_tokens t2))))
           "NFO"
           (dict_set nfo "add_genre_to_tag" (VBool (in_tokens true_tokens t3))),
         Return tt))
  /\ (recognised t1 && recognised t2 && recognised t3 = false ->
      snd (norm_boolean w) = Raise ValueError)
  (* and nothing else *)
  /\ (forall section option x,
        ~ In (section, option) boolean_fields ->
        lookup2 (cfg w) section option = x ->
        lookup2 (cfg (fst (norm_boolean w))) section option = x)
  /\ same_rest w (fst (norm_boolean w)).
Proof.
  intros Hc Hn G1 G2 G3.
  set (crawler1 := dict_set crawler "hardworking_mode"
                     (VBool (in_tokens true_tokens t1))) in *.
  assert (Hc1 : dict_get (_sections (cfg (with_section w "Crawler" crawler1)))
                  "Crawler" = Some crawler1)
    by (simpl; apply dict_get_set_same).
  set (crawler2 := dict_set crawler1 "remove_actor_in_title"
                     (VBool (in_tokens true_tokens t2))).
  assert (Hn2 : dict_get (_sections (cfg (with_section w "Crawler" crawler2)))
                  "NFO" = Some nfo)
    by (rewrite section_with_section_other by discriminate; exact Hn).
  assert (G3' : ConfigParser.get (cfg (with_section w "Crawler" crawler2))
                  "NFO" "add_genre_to_tag" = Return (VStr t3))
    by (rewrite get_with_section_other by discriminate; exact G3).
  split; [|split; [|split; [|split; [|split]]]].
  - intros c section option t Hget. unfold ConfigParser.getboolean.
    rewrite Hget. apply convert_to_boolean_tokens.
  - intros t. unfold in_tokens. now rewrite lower_idempotent.
  - intros R. apply andb_true_iff in R as [R R3].
    apply andb_true_iff in R as [R1 R2].
    unfold norm_boolean, boolean_fields. cbn [for_each fst snd].
    erewrite bind_run; cycle 1.
    { rewrite (getboolean_recognised _ _ _ _ G1 R1).
      apply (setattr2_run _ _ _ _ Hc). }
    fold crawler1.
    erewrite bind_run; cycle 1.
    { rewrite (getboolean_recognised _ _ _ _ G2 R2).
      apply (setattr2_run _ _ _ _ Hc1). }
    rewrite with_section_twice. fold crawler2.
    erewrite bind_run; cycle 1.
    { rewrite (getboolean_recognised _ _ _ _ G3' R3).
      apply (setattr2_run _ _ _ _ Hn2). }
    reflexivity.
  - intros R.
    unfold norm_boolean, boolean_fields. cbn [for_each fst snd].
    destruct (recognised t1) eqn:R1.
    2:{ erewrite bind_fail; [reflexivity|].
        apply (getboolean_unrecognised _ _ _ _ G1 R1). }
    erewrite bind_run; cycle 1.
    { rewrite (getboolean_recognised _ _ _ _ G1 R1).
      apply (setattr2_run _ _ _ _ Hc). }
    fold crawler1.
    destruct (recognised t2) eqn:R2.
    2:{ erewrite bind_fail; [reflexivity|].
        apply (getboolean_unrecognised _ _ _ _ G2 R2). }
    erewrite bind_run; cycle 1.
    { rewrite (getboolean_recognised _ _ _ _ G2 R2).
      apply (setattr2_run _ _ _ _ Hc1). }
    rewrite with_section_twice. fold crawler2.
    change (recognised t3 = false) in R.
    erewrite bind_fail; [reflexivity|].
    apply (getboolean_unrecognised _ _ _ _ G3' R).
  - intros section option x N Hx.
    pose proof (not_boolean_field N) as Hne.
    revert Hx. generalize w.
    change (preserves (fun w0 => lookup2 (cfg w0) section option = x) norm_boolean).
    unfold norm_boolean, boolean_fields. cbn [for_each fst snd].
    repeat first
      [ apply setattr2_frame; apply Hne; simpl; tauto
      | apply preserves_read | apply preserves_ret
      | apply preserves_bind; [|intros ?] ].
  - assert (Hp : preserves (same_rest w) norm_boolean).
    { unfold norm_boolean, boolean_fields. cbn [for_each fst snd].
      repeat first
        [ apply setattr2_same_rest
        | apply preserves_read | apply preserves_ret
        | apply preserves_bind; [|intros ?] ]. }
    apply Hp. repeat split.
Qed.

Lemma boolean_coercion_witness :
  norm_boolean (boolean_sample "Yes" "off" "TRUE") =
    (mkWorld
       (mkConfig
          [("Crawler", [("hardworking_mode", VBool true);
                        ("remove_actor_in_title", VBool false)]);
           ("NFO", [("add_genre_to_tag", VBool true)])]
          [])
       [] [],
     Return tt)
  /\ snd (norm_boolean (boolean_sample "Yes" "maybe" "TRUE")) = Raise ValueError.
Proof.
  split.
  - apply (@boolean_coercion (boolean_sample "Yes" "off" "TRUE")
             [("hardworking_mode", VStr "Yes");
              ("remove_actor_in_title", VStr "off")]
             [("add_genre_to_tag", VStr "TRUE")] "Yes" "off" "TRUE"
             eq_refl eq_refl eq_refl eq_refl eq_refl).
    reflexivity.
  - apply (@boolean_coercion (boolean_sample "Yes" "maybe" "TRUE")
             [("hardworking_mode", VStr "Yes");
              ("remove_actor_in_title", VStr "maybe")]
             [("add_genre_to_tag", VStr "TRUE")] "Yes" "maybe" "TRUE"
             eq_refl eq_refl eq_refl eq_refl eq_refl).
    reflexivity.
Defined.

(** ** The provider resolver *)

Lemma logged_logged (w : world) (l1 l2 : list (level * message)) :
  logged (logged w l1) l2 = logged w (l1 ++ l2).
Proof. unfold logged; simpl. now rewrite app_assoc. Qed.

Lemma logged_nil (w : world) : logged w [] = w.
Proof. destruct w; unfold logged; simpl. now rewrite app_nil_r. Qed.

Section ResolverFacts.
Variable rt : runtime.
Variable isd : bool.

Lemma skip_notes_app (l1 l2 : list string) :
  skip_notes isd (l1 ++ l2) = skip_notes isd l1 ++ skip_notes isd l2.
Proof. unfold skip_notes. now rewrite filter_app, map_app. Qed.


Lemma settles_app (l1 l2 : list string) :
  settles rt isd (l1 ++ l2) = settles rt isd l1 && settles rt isd l2.
Proof. unfold settles. apply forallb_app. Qed.

(** The loop over the names of one category. *)
Lemma import_names_run (mods : list string) :
  forall (valid_mods unknown_mods : list string) (w : world)
         (crawler : DotDict),
    dict_get (_sections (cfg w)) "Crawler" = Some crawler ->
    os_path_isdir rt (DotDict___getattr__ crawler "fc2fan_local_path")
      = Return isd ->
    settles rt isd mods = true ->
    import_names rt mods valid_mods unknown_mods w =
      (logged w (skip_notes isd mods),
       Return (valid_mods ++ resolved rt isd mods,
               unknown_mods ++ unknown_names rt isd mods)).
Proof.
  induction mods as [|name mods IH]; intros valid unknown w crawler Hc Hd Hs.
  - simpl. unfold ret, resolved, unknown_names, skip_notes. simpl.
    now rewrite logged_nil, !app_nil_r.
  - simpl in Hs. apply andb_true_iff in Hs as [Hname Hs].
    apply negb_true_iff in Hname.
    cbn [import_names].
    assert (Hgate :
      (if String.eqb name "fc2fan"
       then bind (getattr2 "Crawler" "fc2fan_local_path")
              (fun p => bind (lift (os_path_isdir rt p))
                          (fun b => ret (negb b)))
       else ret false) w
      = (w, Return (negb (attempted isd name)))).
    { unfold attempted. destruct (String.eqb name "fc2fan"); [|reflexivity].
      run_with (getattr2_run _ _ "fc2fan_local_path" Hc).
      rewrite Hd. run_pure. cbn [negb orb]. reflexivity. }
    run_with Hgate.
    unfold resolved, unknown_names, skip_notes, loads, not_found.
    cbn [filter]. fold (loads rt isd) (not_found rt isd).
    destruct (attempted isd name) eqn:Ha; cbn [negb andb].
    + destruct (import_module rt ("web." ++ name)) eqn:Hi.
      * rewrite (IH _ _ _ _ Hc Hd Hs).
        unfold resolved, unknown_names, skip_notes.
        cbn [map]. now rewrite <- app_assoc.
      * rewrite (IH _ _ _ _ Hc Hd Hs).
        unfold resolved, unknown_names, skip_notes.
        now rewrite <- app_assoc.
      * simpl in Hi, Hname. rewrite Hi in Hname. discriminate Hname.
    + unfold bind at 1. unfold logger_debug at 1.
      rewrite (IH _ _ (logged w [(DEBUG, Fc2fanSkipped)]) _ Hc Hd Hs).
      now rewrite logged_logged.
Qed.

Lemma all_names_cons (kr : string * string) (raws : list (string * string)) :
  all_names (kr :: raws) = names_of (snd kr) ++ all_names raws.
Proof. reflexivity. Qed.





End ResolverFacts.

(** ** C3 and C7: what the resolver leaves in [Priority] *)










(** ** C5: the free-proxy URLs *)

Lemma dict_keys_set_iff (V : Type) (d : dict V) (k k' : string) (v : V) :
  In k' (dict_keys (dict_set d k v)) <-> k' = k \/ In k' (dict_keys d).
Proof.
  destruct (dict_get d k) as [v0|] eqn:E.
  - rewrite (dict_keys_set_present _ _ v E). split; [tauto|].
    intros [-> | H]; [|exact H].
    apply dict_get_In in E. change k with (fst (k, v0)). now apply in_map.
  - rewrite (dict_keys_set_absent _ _ v E), in_app_iff. simpl.
    split; intros H; intuition auto.
Qed.

Lemma dict_set_wf (V : Type) (d : dict V) (k : string) (v : V) :
  dict_wf d -> dict_wf (dict_set d k v).
Proof.
  unfold dict_wf. intros W. destruct (dict_get d k) as [v0|] eqn:E.
  - now rewrite (dict_keys_set_present _ _ v E).
  - rewrite (dict_keys_set_absent _ _ v E).
    apply NoDup_app; [exact W | repeat constructor; simpl; tauto |].
    intros x Hx [<- | []]. now apply dict_get_None in E.
Qed.

Lemma dict_update_keys (V : Type) (l d : dict V) (k : string) :
  In k (dict_keys (fold_left (fun o kv => dict_set o (fst kv) (snd kv)) l d))
  <-> In k (dict_keys d) \/ In k (dict_keys l).
Proof.
  revert d. induction l as [|[k0 v0] l IH]; intros d; simpl; [tauto|].
  rewrite IH, dict_keys_set_iff. intuition auto.
Qed.

Lemma dict_update_wf (V : Type) (l d : dict V) :
  dict_wf d ->
  dict_wf (fold_left (fun o kv => dict_set o (fst kv) (snd kv)) l d).
Proof.
  revert d. induction l as [|[k0 v0] l IH]; intros d W; simpl; [exact W|].
  apply IH. now apply dict_set_wf.
Qed.

Lemma plain_section_get (d : DotDict) (k : string) (v : value) :
  plain_section d = true -> dict_get d k = Some v ->
  PyStr.lower k = k /\ exists s, v = VStr s /\ percent_free s = true.
Proof.
  intros Hp Hg. apply dict_get_In in Hg.
  unfold plain_section in Hp. rewrite forallb_forall in Hp.
  specialize (Hp _ Hg). unfold plain_entry in Hp. cbn [fst snd] in Hp.
  apply andb_true_iff in Hp as [Hk Hv]. apply String.eqb_eq in Hk.
  split; [exact Hk|]. destruct v; try discriminate. eauto.
Qed.

(** Values without ['%'] pass [before_set]. *)
Lemma drop_escaped_plain (s : string) :
  percent_free s = true -> ConfigParser.drop_escaped s = s.
Proof.
  unfold percent_free. induction s as [|c s IH]; [reflexivity|].
  cbn [PyStr.contains]. intros H. apply negb_true_iff, orb_false_iff in H.
  destruct H as [Hc Hs].
  assert (E : ConfigParser.drop_escaped (String c s)
              = String c (ConfigParser.drop_escaped s)).
  { destruct c as [[] [] [] [] [] [] [] []]; try reflexivity.
    discriminate Hc. }
  rewrite E, IH; [reflexivity|]. now rewrite Hs.
Qed.

Lemma drop_references_plain (n : nat) (s : string) :
  percent_free s = true -> ConfigParser.drop_references n s = s.
Proof.
  unfold percent_free. revert s.
  induction n as [|n IH]; intros s; [reflexivity|].
  destruct s as [|c s]; [reflexivity|].
  cbn [PyStr.contains]. intros H. apply negb_true_iff, orb_false_iff in H.
  destruct H as [Hc Hs].
  assert (E : ConfigParser.keycre_match (String c s) = None).
  { destruct c as [[] [] [] [] [] [] [] []]; try reflexivity.
    discriminate Hc. }
  cbn [ConfigParser.drop_references]. rewrite E, IH; [reflexivity|].
  now rewrite Hs.
Qed.

Lemma before_set_plain (s : string) :
  percent_free s = true -> ConfigParser.before_set s = Return s.
Proof.
  intros H. unfold ConfigParser.before_set.
  rewrite (drop_escaped_plain _ H), (drop_references_plain _ _ H).
  unfold percent_free in H. apply negb_true_iff in H. now rewrite H.
Qed.

Lemma free_url_plain (s : string) :
  percent_free s = true -> percent_free (free_url s) = true.
Proof.
  unfold percent_free, free_url. intros H.
  assert (Hl : PyStr.contains "%" (PyStr.lower s) = false)
    by (rewrite lower_contains_percent; now apply negb_true_iff).
  destruct (negb (PyStr.startswith "http" (PyStr.lower s)));
    match goal with |- context [is_url ?u] => destruct (is_url u) end;
    simpl; rewrite ?Hl; reflexivity.
Qed.

Lemma get_plain_chain (c : Config) (section option : string) (d : DotDict)
    (s : string) :
  dict_get (_sections c) section = Some d ->
  ConfigParser.chain_get (d, _defaults c) (ConfigParser.optionxform option)
    = Some (VStr s) ->
  percent_free s = true ->
  ConfigParser.get c section option = Return (VStr s).
Proof.
  intros Hd Hs Hp. unfold ConfigParser.get, ConfigParser.unify_values.
  rewrite Hd, Hs. now rewrite before_get_plain.
Qed.

Lemma chain_get_mem (c : Config) (d : DotDict) (k : string) (v : value) :
  ConfigParser.chain_get (d, _defaults c) k = Some v ->
  dict_mem d k || dict_mem (_defaults c) k = true.
Proof.
  unfold ConfigParser.chain_get, dict_mem. cbn [fst snd].
  destruct (dict_get d k); [reflexivity|]. now intros ->.
Qed.

(** One turn of the loop of [check_proxy_free_url]. *)
Lemma free_proxy_turn (w : world) (cur : DotDict) (site s : string) :
  dict_get (_sections (cfg w)) "ProxyFree" = Some cur ->
  PyStr.lower site = site ->
  ConfigParser.chain_get (cur, _defaults (cfg w)) site = Some (VStr s) ->
  percent_free s = true ->
  bind (read (fun c => ConfigParser.proxy_getitem c "ProxyFree" site))
       (fun v => match v with
                 | VStr url =>
                     ConfigParser.proxy_setitem "ProxyFree" site
                       (VStr (free_url url))
                 | _ => raise AttributeError
                 end) w
  = (with_section w "ProxyFree" (dict_set cur site (VStr (free_url s))),
     Return tt).
Proof.
  intros Hc Hk Hs Hp.
  erewrite bind_run; cycle 1.
  { unfold read, ConfigParser.proxy_getitem, ConfigParser.has_option.
    cbn [String.eqb Ascii.eqb Bool.eqb orb]. rewrite Hc.
    unfold ConfigParser.optionxform. rewrite Hk.
    rewrite (chain_get_mem _ _ _ Hs).
    erewrite get_plain_chain; [reflexivity | exact Hc | | exact Hp].
    unfold ConfigParser.optionxform. rewrite Hk. exact Hs. }
  cbn beta iota.
  unfold ConfigParser.proxy_setitem, ConfigParser.set.
  erewrite bind_run; cycle 1.
  { destruct (truthy (VStr (free_url s))).
    - unfold lift. rewrite (before_set_plain _ (free_url_plain _ Hp)).
      reflexivity.
    - reflexivity. }
  erewrite bind_run; [|reflexivity].
  cbn [String.eqb Ascii.eqb Bool.eqb orb]. rewrite Hc.
  unfold ConfigParser.optionxform. rewrite Hk. reflexivity.
Qed.

Lemma chain_get_set_other (cur dflt : DotDict) (k k' : string) (v : value) :
  k' <> k ->
  ConfigParser.chain_get (dict_set cur k v, dflt) k'
  = ConfigParser.chain_get (cur, dflt) k'.
Proof.
  intros N. unfold ConfigParser.chain_get. cbn [fst snd].
  now rewrite dict_get_set_other.
Qed.

(** The loop, over the options it has still to visit. *)
Lemma free_proxy_loop (sites : list string) :
  forall (w : world) (cur : DotDict),
    dict_get (_sections (cfg w)) "ProxyFree" = Some cur ->
    NoDup sites ->
    (forall site, In site sites ->
       PyStr.lower site = site
       /\ exists s, ConfigParser.chain_get (cur, _defaults (cfg w)) site
                    = Some (VStr s) /\ percent_free s = true) ->
    exists cur',
      for_each sites (fun site =>
        bind (read (fun c => ConfigParser.proxy_getitem c "ProxyFree" site))
          (fun v => match v with
                    | VStr url =>
                        ConfigParser.proxy_setitem "ProxyFree" site
                          (VStr (free_url url))
                    | _ => raise AttributeError
                    end)) w
      = (with_section w "ProxyFree" cur', Return tt)
      /\ (forall site s,
            In site sites ->
            ConfigParser.chain_get (cur, _defaults (cfg w)) site
              = Some (VStr s) ->
            dict_get cur' site = Some (VStr (free_url s)))
      /\ (forall site, ~ In site sites -> dict_get cur' site = dict_get cur site).
Proof.
  induction sites as [|site sites IH]; intros w cur Hc Hnd Hall.
  - exists cur. split; [|split].
    + cbn [for_each]. unfold ret. f_equal.
      destruct w as [[secs dflt] lg out]. unfold with_section; simpl in *.
      do 2 f_equal. clear -Hc.
      induction secs as [|[k d] secs IHs]; simpl in *; [discriminate|].
      destruct (String.eqb k "ProxyFree"); [now injection Hc as -> |].
      now rewrite <- IHs.
    + intros site s [].
    + reflexivity.
  - inversion Hnd as [|? ? Hnotin Hnd']; subst.
    destruct (Hall site (or_introl eq_refl)) as (Hk & s & Hs & Hp).
    cbn [for_each].
    erewrite bind_run; [|exact (@free_proxy_turn w cur site s Hc Hk Hs Hp)].
    set (cur1 := dict_set cur site (VStr (free_url s))).
    set (w1 := with_section w "ProxyFree" cur1).
    assert (Hc1 : dict_get (_sections (cfg w1)) "ProxyFree" = Some cur1)
      by (simpl; apply dict_get_set_same).
    assert (Hother : forall site', In site' sites -> site' <> site)
      by (intros site' Hin ->; contradiction).
    destruct (IH w1 cur1 Hc1 Hnd') as (cur' & Hrun & Hdone & Hrest).
    { intros site' Hin. destruct (Hall site' (or_intror Hin)) as (Hk' & s' & Hs' & Hp').
      split; [exact Hk'|]. exists s'. split; [|exact Hp'].
      change (_defaults (cfg w1)) with (_defaults (cfg w)).
      unfold cur1. rewrite chain_get_set_other by auto. exact Hs'. }
    exists cur'. split; [|split].
    + rewrite Hrun. unfold w1. now rewrite with_section_twice.
    + intros site' s' [<- | Hin] Hs'.
      * rewrite (Hrest site Hnotin). unfold cur1.
        rewrite dict_get_set_same. rewrite Hs in Hs'. now injection Hs' as ->.
      * apply (Hdone site' s' Hin).
        change (_defaults (cfg w1)) with (_defaults (cfg w)).
        unfold cur1. rewrite chain_get_set_other by auto. exact Hs'.
    + intros site' Hn. rewrite Hrest by (intros Hin; apply Hn; now right).
      unfold cur1. apply dict_get_set_other. intros ->. apply Hn. now left.
Qed.

(** C5, as the code has it.  When the options of [ProxyFree] and of
    the DEFAULT section are strings without the interpolation
    character ['%'], [check_proxy_free_url] returns without raising
    and logs nothing; every option of the section, and every default
    the section inherits, is rebound to its value in lower case, with
    ["http://"] put in front when it does not start with ["http"],
    if that is a URL for [is_url], and to the empty string if it is
    not.  So ["example.com"] becomes ["http://example.com"] and
    ["!!!invalid!!!"] becomes [""]. *)
Theorem free_proxy_sanitization (w : world) (sec : DotDict) :
  dict_get (_sections (cfg w)) "ProxyFree" = Some sec ->
  dict_wf sec ->
  plain_section sec = true ->
  plain_section (_defaults (cfg w)) = true ->
  (exists sec',
     check_proxy_free_url w = (with_section w "ProxyFree" sec', Return tt)
     /\ (forall site raw,
           dict_get sec site = Some (VStr raw) ->
           dict_get sec' site = Some (VStr (free_url raw)))
     /\ (forall site raw,
           dict_get sec site = None ->
           dict_get (_defaults (cfg w)) site = Some (VStr raw) ->
           dict_get sec' site = Some (VStr (free_url raw))))
  /\ (forall raw,
        free_url raw =
          if is_url (if PyStr.startswith "http" (PyStr.lower raw)
                     then PyStr.lower raw
                     else "http://" ++ PyStr.lower raw)%string
          then (if PyStr.startswith "http" (PyStr.lower raw)
                then PyStr.lower raw
                else "http://" ++ PyStr.lower raw)%string
          else "")
  /\ free_url "example.com" = "http://example.com"
  /\ free_url "!!!invalid!!!" = "".
Proof.
  intros Hsec Hwf Hps Hpd.
  split; [|split; [|split; reflexivity]].
  2:{ intros raw. unfold free_url.
      destruct (PyStr.startswith "http" (PyStr.lower raw)); reflexivity. }
  set (dflt := _defaults (cfg w)) in *.
  set (opts := fold_left (fun o kv => dict_set o (fst kv) (snd kv)) dflt sec).
  assert (Hchain : forall site,
             In site (dict_keys opts) ->
             PyStr.lower site = site
             /\ exists s, ConfigParser.chain_get (sec, dflt) site = Some (VStr s)
                          /\ percent_free s = true).
  { intros site Hin. apply dict_update_keys in Hin.
    unfold ConfigParser.chain_get. cbn [fst snd].
    destruct (dict_get sec site) as [v|] eqn:E.
    - destruct (plain_section_get _ _ Hps E) as (Hk & s & -> & Hp). eauto.
    - destruct Hin as [Hin | Hin]; [now apply dict_get_None in E|].
      apply dict_mem_true in Hin. unfold dict_mem in Hin.
      destruct (dict_get dflt site) as [v|] eqn:E'; [|discriminate].
      destruct (plain_section_get _ _ Hpd E') as (Hk & s & -> & Hp). eauto. }
  destruct (@free_proxy_loop (dict_keys opts) w sec Hsec
              (@dict_update_wf value dflt sec Hwf) Hchain)
    as (sec' & Hrun & Hdone & _).
  exists sec'. split; [|split].
  - unfold check_proxy_free_url.
    erewrite bind_run; cycle 1.
    { unfold read, ConfigParser.getitem, ConfigParser.has_section, dict_mem.
      rewrite Hsec. reflexivity. }
    erewrite bind_run; cycle 1.
    { unfold read, ConfigParser.proxy_options, ConfigParser.options.
      cbn [negb String.eqb Ascii.eqb Bool.eqb]. rewrite Hsec. reflexivity. }
    exact Hrun.
  - intros site raw Hg. apply Hdone.
    + apply dict_update_keys. left.
      apply dict_get_In in Hg. change site with (fst (site, VStr raw)).
      now apply in_map.
    + unfold ConfigParser.chain_get. cbn [fst snd]. now rewrite Hg.
  - intros site raw Hn Hg. apply Hdone.
    + apply dict_update_keys. right.
      apply dict_get_In in Hg. change site with (fst (site, VStr raw)).
      now apply in_map.
    + unfold ConfigParser.chain_get. cbn [fst snd]. now rewrite Hn.
Qed.

Lemma free_proxy_sanitization_witness :
  exists sec',
    check_proxy_free_url (free_proxy_sample "Example.COM")
    = (with_section (free_proxy_sample "Example.COM") "ProxyFree" sec',
       Return tt)
    /\ dict_get sec' "site" = Some (VStr "http://example.com").
Proof.
  assert (Hwf : dict_wf [("site", VStr "Example.COM")]).
  { repeat constructor. simpl. tauto. }
  destruct (proj1 (@free_proxy_sanitization (free_proxy_sample "Example.COM")
                     [("site", VStr "Example.COM")]
                     eq_refl Hwf eq_refl eq_refl))
    as (sec' & Hrun & Hsite & _).
  exists sec'. split; [exact Hrun|].
  apply (Hsite "site" "Example.COM" eq_refl).
Defined.

(** C5 as stated fails: a value that holds a ['%'] goes through the
    parser's interpolation when the loop reads it, and the read
    raises. *)
Lemma percent_in_free_proxy :
  check_proxy_free_url (free_proxy_sample "example.com/%41") =
    (free_proxy_sample "example.com/%41", Raise InterpolationSyntaxError).
Proof. vm_compute. reflexivity. Qed.

(** ** C6: a second run of the pipeline *)

Lemma bind_inv {A B} (m : M A) (k : A -> M B) (w w' : world) (b : B) :
  bind m k w = (w', Return b) ->
  exists w1 a, m w = (w1, Return a) /\ k a w1 = (w', Return b).
Proof.
  unfold bind. destruct (m w) as [w1 [a | e]]; [eauto | discriminate].
Qed.

Lemma preserves_bind_read {A B} (P : world -> Prop) (f : Config -> outcome A)
    (k : A -> M B) :
  (forall a, (exists c, f c = Return a) -> preserves P (k a)) ->
  preserves P (bind (read f) k).
Proof.
  intros Hk w H. unfold bind, read.
  destruct (f (cfg w)) as [a | e] eqn:E; [|exact H].
  apply (Hk a); [eauto | exact H].
Qed.

Section RetryIsKept.
Variable rt : runtime.
Variable x : option value.


Lemma retry_logger_debug (m : message) : preserves (retry_is x) (logger_debug m).
Proof. intros w H; exact H. Qed.

Lemma retry_logger_warning (m : message) : preserves (retry_is x) (logger_warning m).
Proof. intros w H; exact H. Qed.

Lemma retry_print (s : string) : preserves (retry_is x) (print s).
Proof. intros w H; exact H. Qed.

Lemma retry_norm_tuples : preserves (retry_is x) norm_tuples.
Proof. unfold norm_tuples, retry_is. frame. Qed.

Lemma retry_norm_boolean : preserves (retry_is x) norm_boolean.
Proof.
  unfold norm_boolean, boolean_fields, retry_is. cbn [for_each fst snd]. frame.
Qed.

Lemma retry_validate_proxy : preserves (retry_is x) validate_proxy.
Proof.
  unfold validate_proxy, retry_is.
  apply preserves_bind; [apply preserves_getattr2 | intros v].
  apply preserves_bind; [apply preserves_lift | intros proxy].
  apply preserves_bind.
  - destruct (truthy (VStr proxy)); [|apply preserves_ret].
    destruct (re_match proxy_pattern proxy); [apply preserves_ret|].
    apply preserves_bind; [apply retry_logger_warning | intros _].
    apply preserves_ret.
  - intros proxies. apply setattr2_frame. right. discriminate.
Qed.

Lemma retry_import_names (mods : list string) :
  forall valid_mods unknown_mods,
    preserves (retry_is x) (import_names rt mods valid_mods unknown_mods).
Proof.
  induction mods as [|name mods IH]; intros valid unknown; cbn [import_names].
  - apply preserves_ret.
  - apply preserves_bind.
    + destruct (String.eqb name "fc2fan"); [|apply preserves_ret].
      unfold retry_is. frame.
    + intros [|].
      * apply preserves_bind; [apply retry_logger_debug | intros _; apply IH].
      * destruct (import_module rt ("web." ++ name));
          [apply IH | apply IH | apply preserves_raise].
Qed.

Lemma retry_import_categories (items : list (string * value)) :
  forall unknown_mods, preserves (retry_is x) (import_categories rt items unknown_mods).
Proof.
  induction items as [|[typ cfg_str] items IH]; intros unknown;
    cbn [import_categories].
  - apply preserves_ret.
  - apply preserves_bind; [apply preserves_lift | intros mods].
    apply preserves_bind; [apply retry_import_names | intros r].
    apply preserves_bind; [|intros _; apply IH].
    apply setattr2_frame. left. discriminate.
Qed.

Lemma retry_import_crawlers : preserves (retry_is x) (import_crawlers rt).
Proof.
  unfold import_crawlers.
  apply preserves_bind; [apply preserves_read | intros priority].
  apply preserves_bind; [apply retry_import_categories | intros unknown].
  destruct unknown; [apply preserves_ret|].
  destruct (negb (run_as_main rt));
    [apply retry_logger_warning | apply retry_print].
Qed.

Lemma retry_convert_naming_rule : preserves (retry_is x) (convert_naming_rule rt).
Proof. unfold convert_naming_rule, retry_is. frame. Qed.

Lemma retry_set (option : string) (v : value) :
  preserves (retry_is x) (ConfigParser.set "ProxyFree" option v).
Proof.
  unfold ConfigParser.set. destruct v; try apply preserves_raise.
  apply preserves_bind.
  { destruct (truthy (VStr s)); [apply preserves_lift | apply preserves_ret]. }
  intros _. apply preserves_bind; [apply preserves_read | intros c].
  cbn [String.eqb Ascii.eqb Bool.eqb orb].
  destruct (dict_get (_sections c) "ProxyFree"); [|apply preserves_raise].
  intros w H. unfold retry_is, write, lookup2 in *. simpl.
  now rewrite dict_get_set_other by discriminate.
Qed.

Lemma retry_check_proxy_free_url : preserves (retry_is x) check_proxy_free_url.
Proof.
  unfold check_proxy_free_url.
  apply preserves_bind_read. intros sec [c Hsec].
  assert (sec = "ProxyFree") as ->.
  { unfold ConfigParser.getitem in Hsec.
    destruct (_ && _) in Hsec; [discriminate | now injection Hsec]. }
  apply preserves_bind; [apply preserves_read | intros sites].
  apply preserves_for_each. intros site.
  apply preserves_bind; [apply preserves_read | intros v].
  destruct v; try apply preserves_raise.
  unfold ConfigParser.proxy_setitem. apply retry_set.
Qed.

(** Every pass after [norm_int] leaves [Network.retry] alone. *)
Lemma retry_after_norm_int :
  preserves (retry_is x)
    (bind norm_tuples (fun _ =>
     bind norm_boolean (fun _ =>
     bind validate_proxy (fun _ =>
     bind (import_crawlers rt) (fun _ =>
     bind (convert_naming_rule rt) (fun _ => check_proxy_free_url)))))).
Proof.
  apply preserves_bind; [apply retry_norm_tuples | intros _].
  apply preserves_bind; [apply retry_norm_boolean | intros _].
  apply preserves_bind; [apply retry_validate_proxy | intros _].
  apply preserves_bind; [apply retry_import_crawlers | intros _].
  apply preserves_bind; [apply retry_convert_naming_rule | intros _].
  apply retry_check_proxy_free_url.
Qed.
End RetryIsKept.

(** After [norm_int] has returned, [Network.retry] is an [int]. *)
Lemma norm_int_retry (rt : runtime) (w w1 : world) :
  norm_int rt w = (w1, Return tt) ->
  exists n, lookup2 (cfg w1) "Network" "retry" = Some (VInt n).
Proof.
  unfold norm_int. intros H.
  apply bind_inv in H as (wa & n & Hget & H).
  apply bind_inv in H as (wb & [] & Hset & H).
  exists n.
  assert (Hb : lookup2 (cfg wb) "Network" "retry" = Some (VInt n)).
  { unfold read in Hget. injection Hget as <- _.
    destruct (dict_get (_sections (cfg w)) "Network") as [d|] eqn:E.
    - rewrite (setattr2_run _ _ _ _ E) in Hset. injection Hset as <-.
      rewrite lookup2_with_section_same. apply dict_get_set_same.
    - rewrite (setattr2_fail _ _ _ _ E) in Hset. discriminate Hset. }
  assert (Hrest : preserves
            (fun w0 => lookup2 (cfg w0) "Network" "retry" = Some (VInt n))
            (bind (read (fun c => ConfigParser.getint rt c "Network" "timeout"))
                  (fun n0 => setattr2 "Network" "timeout" (VInt n0)))) by frame.
  specialize (Hrest wb Hb). now rewrite H in Hrest.
Qed.

(** [getint] does not read an [int] back. *)
Lemma getint_of_int (rt : runtime) (c : Config) (n : Z) :
  lookup2 c "Network" "retry" = Some (VInt n) ->
  ConfigParser.getint rt c "Network" "retry"
  = Raise (if Z.eqb n 0 then ValueError else AttributeError).
Proof.
  unfold lookup2. intros H.
  destruct (dict_get (_sections c) "Network") as [d|] eqn:E; [|discriminate].
  unfold ConfigParser.getint, ConfigParser.get, ConfigParser.unify_values.
  rewrite E. unfold ConfigParser.chain_get. cbn [fst snd].
  change (ConfigParser.optionxform "retry") with "retry". rewrite H.
  unfold ConfigParser.before_get, ConfigParser.MAX_INTERPOLATION_DEPTH.
  cbn [ConfigParser.interpolate_some ConfigParser.interpolate_loop
       ConfigParser.turns_for truthy].
  destruct (Z.eqb n 0); reflexivity.
Qed.

(** C6, as the code has it.  A second run of [validate] on a
    configuration that a first run has validated does not complete:
    its first statement, the integer coercion of [Network.retry],
    finds an [int] where the parser expects a string and raises, and
    the configuration, the log and the output are left exactly as the
    first run left them. *)
Theorem validate_twice (rt : runtime) (w w' : world) :
  validate rt w = (w', Return tt) ->
  exists e,
    validate rt w' = (w', Raise e)
    /\ (e = AttributeError \/ e = ValueError).
Proof.
  unfold validate. intros H.
  apply bind_inv in H as (w1 & [] & Hint & Hrest).
  destruct (norm_int_retry rt w Hint) as (n & Hn).
  assert (Hn' : lookup2 (cfg w') "Network" "retry" = Some (VInt n)).
  { pose proof (@retry_after_norm_int rt (Some (VInt n)) w1 Hn) as Hp.
    now rewrite Hrest in Hp. }
  exists (if Z.eqb n 0 then ValueError else AttributeError). split.
  - apply bind_fail. unfold norm_int. apply bind_fail.
    unfold read. now rewrite (getint_of_int rt _ Hn').
  - destruct (Z.eqb n 0); auto.
Qed.

Lemma validate_twice_witness :
  validate sample_runtime raw_sample = (validated_sample, Return tt)
  /\ exists e, validate sample_runtime validated_sample
               = (validated_sample, Raise e).
Proof.
  assert (H : validate sample_runtime raw_sample
              = (validated_sample, Return tt)) by (vm_compute; reflexivity).
  split; [exact H|].
  destruct (@validate_twice sample_runtime raw_sample validated_sample H)
    as (e & He & _).
  exists e. exact He.
Defined.

(** C6 as stated fails: the second run raises. *)
Lemma second_validate_raises :
  validate sample_runtime raw_sample = (validated_sample, Return tt)
  /\ validate sample_runtime validated_sample
     = (validated_sample, Raise AttributeError).
Proof. split; vm_compute; reflexivity. Qed.

(** ** C9 and C10: attribute reads *)

(** C9, as the code has it.  For a name that the normal look-up does
    not find on the [Config] object or its classes, the read
    [cfg.name] raises [KeyError(name)] when no section has that name,
    and returns the mapping of the section when there is one; an
    option of that mapping is then read as [cfg.Section.key]. *)
Theorem section_attribute (inherited inherited' : string -> bool)
    (c : Config) (name : string) :
  bound_in Config_class_names inherited name = false ->
  (dict_get (_sections c) name = None ->
   Config_getattribute inherited c name = Raise (KeyError name))
  /\
  (forall d,
     dict_get (_sections c) name = Some d ->
     Config_getattribute inherited c name = Return (FromGetattr d)
     /\ forall key v,
          bound_in DotDict_class_names inherited' key = false ->
          dict_get d key = Some v ->
          DotDict_getattribute inherited' d key = FromGetattr v).
Proof.
  intros Hb. unfold Config_getattribute. rewrite Hb. split.
  - intros H. now rewrite (Config___getattr___None _ _ H).
  - intros d H. rewrite (Config___getattr___Some _ _ H). split; [reflexivity|].
    intros key v Hk Hv. unfold DotDict_getattribute, DotDict___getattr__.
    now rewrite Hk, Hv.
Qed.

Lemma section_attribute_witness :
  Config_getattribute (fun _ => false) attribute_sample "Network"
    = Raise (KeyError "Network")
  /\ Config_getattribute (fun _ => false) attribute_sample "Priority"
     = Return (FromGetattr [("normal", VStr "siteA")])
  /\ DotDict_getattribute (fun _ => false) [("normal", VStr "siteA")] "normal"
     = FromGetattr (VStr "siteA").
Proof.
  split; [|split].
  - apply (proj1 (@section_attribute (fun _ => false) (fun _ => false)
                    attribute_sample "Network" eq_refl)).
    reflexivity.
  - apply (proj2 (@section_attribute (fun _ => false) (fun _ => false)
                    attribute_sample "Priority" eq_refl)).
    reflexivity.
  - apply (proj2 (proj2 (@section_attribute (fun _ => false) (fun _ => false)
                           attribute_sample "Priority" eq_refl)
                    [("normal", VStr "siteA")] eq_refl)
             "normal" (VStr "siteA") eq_refl eq_refl).
Defined.

(** C9 as stated fails: [validate] names no section, and [cfg.validate]
    is the method of the class, not a [KeyError]. *)
Lemma method_name_is_no_section :
  dict_get (_sections attribute_sample) "validate" = None
  /\ Config_getattribute (fun _ => false) attribute_sample "validate"
     = Return (ClassAttribute "validate").
Proof. split; reflexivity. Qed.

(** C10, as the code has it.  In a section that is present, the read
    of an option the section does not hold, under a name that the
    normal look-up does not find on the [dict] classes, returns [None]
    and does not raise. *)
Theorem missing_option_attribute (inherited inherited' : string -> bool)
    (c : Config) (section key : string) (d : DotDict) :
  bound_in Config_class_names inherited section = false ->
  bound_in DotDict_class_names inherited' key = false ->
  dict_get (_sections c) section = Some d ->
  dict_get d key = None ->
  Config_getattribute inherited c section = Return (FromGetattr d)
  /\ DotDict_getattribute inherited' d key = FromGetattr VNone.
Proof.
  intros Hs Hk Hd Hn. split.
  - unfold Config_getattribute.
    now rewrite Hs, (Config___getattr___Some _ _ Hd).
  - unfold DotDict_getattribute, DotDict___getattr__. now rewrite Hk, Hn.
Qed.

Lemma missing_option_attribute_witness :
  Config_getattribute (fun _ => false) attribute_sample "Priority"
    = Return (FromGetattr [("normal", VStr "siteA")])
  /\ DotDict_getattribute (fun _ => false) [("normal", VStr "siteA")] "fc2"
     = FromGetattr VNone.
Proof.
  apply (@missing_option_attribute (fun _ => false) (fun _ => false)
           attribute_sample "Priority" "fc2" [("normal", VStr "siteA")]
           eq_refl eq_refl eq_refl eq_refl).
Defined.

(** C10 as stated fails: the section holds no option [items], and the
    read [cfg.Priority.items] is the method that [import_crawlers]
    calls, not [None]. *)
Lemma method_name_is_no_option :
  Config_getattribute (fun _ => false) attribute_sample "Priority"
    = Return (FromGetattr [("normal", VStr "siteA")])
  /\ dict_get [("normal", VStr "siteA")] "items" = None
  /\ DotDict_getattribute (fun _ => false) [("normal", VStr "siteA")] "items"
     = ClassAttribute "items".
Proof. repeat split; reflexivity. Qed.

(* ================================================================= *)
(** * Further properties of the module *)

(** ** Options written, read and deleted as attributes *)

Lemma with_section_id (w : world) (s : string) (d : DotDict) :
  dict_get (_sections (cfg w)) s = Some d -> with_section w s d = w.
Proof.
  intros H. destruct w as [[secs dflt] lg out]. unfold with_section; simpl in *.
  do 2 f_equal. induction secs as [|[k x] secs IH]; simpl in *; [discriminate|].
  destruct (String.eqb k s); [now injection H as -> |].
  now rewrite IH.
Qed.

(** X1.  For a section that exists, under names that the normal
    look-up does not find on the classes: [cfg.Section.key = v]
    returns, and [cfg.Section.key] then reads [v] back; every other
    option of every section reads as before, no section is added or
    moved, and the defaults, the log and the output are untouched.
    The option keeps its place in the section if it was there and
    goes last if not. *)
Theorem attribute_write_read (inherited inherited' : string -> bool)
    (w : world) (section key : string) (v : value) (d : DotDict) :
  bound_in Config_class_names inherited section = false ->
  bound_in DotDict_class_names inherited' key = false ->
  dict_get (_sections (cfg w)) section = Some d ->
  Config_getattribute inherited (cfg w) section = Return (FromGetattr d)
  /\ exists w',
       setattr2 section key v w = (w', Return tt)
       /\ Config_getattribute inherited (cfg w') section
          = Return (FromGetattr (dict_set d key v))
       /\ DotDict_getattribute inherited' (dict_set d key v) key
          = FromGetattr v
       /\ (forall s k, s <> section \/ k <> key ->
             lookup2 (cfg w') s k = lookup2 (cfg w) s k)
       /\ dict_keys (_sections (cfg w')) = dict_keys (_sections (cfg w))
       /\ dict_keys (dict_set d key v)
          = (if dict_mem d key then dict_keys d else dict_keys d ++ [key])
       /\ same_rest w w'.
Proof.
  intros Hs Hk Hd. split.
  { unfold Config_getattribute.
    now rewrite Hs, (Config___getattr___Some _ _ Hd). }
  exists (with_section w section (dict_set d key v)).
  split; [apply (setattr2_run _ _ _ _ Hd) |
          split; [|split; [|split; [|split; [|split]]]]].
  - unfold Config_getattribute. rewrite Hs.
    erewrite Config___getattr___Some by (simpl; apply dict_get_set_same).
    reflexivity.
  - unfold DotDict_getattribute, DotDict___getattr__.
    now rewrite Hk, dict_get_set_same.
  - intros s k N.
    pose proof (@setattr2_frame section key s k v (lookup2 (cfg w) s k) N
                  w eq_refl) as H.
    rewrite (setattr2_run _ _ _ _ Hd) in H. exact H.
  - simpl. apply (dict_keys_set_present _ _ _ Hd).
  - unfold dict_mem. destruct (dict_get d key) eqn:E.
    + apply (dict_keys_set_present _ _ _ E).
    + apply (dict_keys_set_absent _ _ _ E).
  - repeat split.
Qed.

Lemma attribute_write_read_witness :
  exists w',
    setattr2 "Network" "retry" (VInt 3) (network_sample "3" "10")
      = (w', Return tt)
    /\ DotDict_getattribute (fun _ => false)
         (dict_set [("retry", VStr "3"); ("timeout", VStr "10")]
                   "retry" (VInt 3)) "retry"
       = FromGetattr (VInt 3)
    /\ lookup2 (cfg w') "Network" "timeout" = Some (VStr "10").
Proof.
  destruct (@attribute_write_read (fun _ => false) (fun _ => false)
              (network_sample "3" "10") "Network" "retry"
              (VInt 3) [("retry", VStr "3"); ("timeout", VStr "10")]
              eq_refl eq_refl eq_refl)
    as (_ & w' & Hset & _ & Hget & Hother & _).
  exists w'. split; [exact Hset | split; [exact Hget|]].
  rewrite Hother; [reflexivity | right; discriminate].
Defined.

(** ** [del cfg.Section.key] *)

Lemma dict_del_get (V : Type) (d d' : dict V) (k : string) :
  dict_del d k = Some d' ->
  (exists v, dict_get d k = Some v)
  /\ (forall k', k' <> k -> dict_get d' k' = dict_get d k')
  /\ (dict_wf d -> dict_get d' k = None).
Proof.
  revert d'. induction d as [|[k0 x] d IH]; intros d'; simpl; [discriminate|].
  destruct (String.eqb_spec k0 k) as [->|N].
  - intros [= <-]. split; [eauto | split].
    + intros k' Nk. destruct (String.eqb_spec k k'); [congruence | reflexivity].
    + intros W. inversion W as [|? ? Hn _]; subst.
      now apply dict_get_None.
  - destruct (dict_del d k) as [d''|] eqn:E; [|discriminate].
    intros [= <-]. destruct (IH d'' eq_refl) as (Hv & Ho & Hw).
    split; [exact Hv | split].
    + intros k' Nk. simpl. destruct (String.eqb k0 k'); [reflexivity | auto].
    + intros W. inversion W; subst. simpl.
      destruct (String.eqb_spec k0 k); [congruence | auto].
Qed.

Lemma dict_del_None (V : Type) (d : dict V) (k : string) :
  dict_del d k = None <-> dict_get d k = None.
Proof.
  induction d as [|[k0 x] d IH]; simpl; [tauto|].
  destruct (String.eqb k0 k); [split; discriminate|].
  destruct (dict_del d k); [|tauto].
  split; [discriminate|]. intros H. apply IH in H. discriminate.
Qed.

Lemma dict_del_set_fresh (V : Type) (d : dict V) (k : string) (v : V) :
  dict_get d k = None -> dict_del (dict_set d k v) k = Some d.
Proof.
  induction d as [|[k0 x] d IH]; simpl.
  - now rewrite String.eqb_refl.
  - destruct (String.eqb k0 k) eqn:E; [discriminate|].
    intros H. simpl. rewrite E. now rewrite IH.
Qed.

(** X2.  For a section that exists, under names that the normal
    look-up does not find on the classes: [del cfg.Section.key]
    removes an option the section holds, the option then reads as
    [None] and every other option as before.  On an option the
    section does not hold it raises [KeyError(key)] and changes
    nothing.  Writing an option the section lacks and deleting it
    again gives the configuration back. *)
Theorem attribute_delete (inherited inherited' : string -> bool)
    (w : world) (section key : string) (d : DotDict) :
  bound_in Config_class_names inherited section = false ->
  bound_in DotDict_class_names inherited' key = false ->
  dict_get (_sections (cfg w)) section = Some d ->
  dict_wf d ->
  Config_getattribute inherited (cfg w) section = Return (FromGetattr d)
  /\ (dict_mem d key = true ->
      exists w' d',
        delattr2 section key w = (w', Return tt)
        /\ Config_getattribute inherited (cfg w') section
           = Return (FromGetattr d')
        /\ DotDict_getattribute inherited' d' key = FromGetattr VNone
        /\ (forall s k, s <> section \/ k <> key ->
              lookup2 (cfg w') s k = lookup2 (cfg w) s k))
  /\ (dict_mem d key = false ->
      delattr2 section key w = (w, Raise (KeyError key))
      /\ forall v,
           bind (setattr2 section key v) (fun _ => delattr2 section key) w
           = (w, Return tt)).
Proof.
  intros Hs Hk Hd Hwf. unfold dict_mem. split; [|split].
  - unfold Config_getattribute.
    now rewrite Hs, (Config___getattr___Some _ _ Hd).
  - intros Hm. destruct (dict_del d key) as [d'|] eqn:E.
    2:{ apply dict_del_None in E. rewrite E in Hm. discriminate. }
    destruct (dict_del_get _ _ E) as (_ & Ho & Hw).
    exists (with_section w section d'), d'. split; [|split; [|split]].
    + unfold delattr2. erewrite bind_run; cycle 1.
      { unfold read. now rewrite (Config___getattr___Some _ _ Hd). }
      unfold DotDict___delattr__. rewrite E. now run_pure.
    + unfold Config_getattribute. rewrite Hs.
      erewrite Config___getattr___Some by (simpl; apply dict_get_set_same).
      reflexivity.
    + unfold DotDict_getattribute, DotDict___getattr__.
      now rewrite Hk, (Hw Hwf).
    + intros s k N. destruct (String.eqb_spec s section) as [->|Ns].
      * rewrite lookup2_with_section_same. unfold lookup2. rewrite Hd.
        apply Ho. destruct N; congruence.
      * now rewrite lookup2_with_section_other.
  - intros Hm. destruct (dict_get d key) eqn:Hg; [discriminate|].
    assert (E : dict_del d key = None) by now apply dict_del_None.
    split.
    + unfold delattr2. erewrite bind_run; cycle 1.
      { unfold read. now rewrite (Config___getattr___Some _ _ Hd). }
      apply bind_fail. unfold lift, DotDict___delattr__. now rewrite E.
    + intros v. run_with (setattr2_run _ _ key v Hd).
      unfold delattr2. erewrite bind_run; cycle 1.
      { unfold read. simpl.
        erewrite Config___getattr___Some by (simpl; apply dict_get_set_same).
        reflexivity. }
      unfold DotDict___delattr__. rewrite (dict_del_set_fresh _ _ v Hg).
      run_pure. unfold write. simpl. rewrite dict_set_set.
      change (mkWorld _ (log w) (stdout w)) with (with_section w section d).
      now rewrite (with_section_id _ _ Hd).
Qed.

Lemma attribute_delete_witness :
  (exists w' d',
     delattr2 "Network" "retry" (network_sample "3" "10") = (w', Return tt)
     /\ DotDict_getattribute (fun _ => false) d' "retry" = FromGetattr VNone)
  /\ delattr2 "Network" "proxy" (network_sample "3" "10")
     = (network_sample "3" "10", Raise (KeyError "proxy")).
Proof.
  assert (Hwf : dict_wf [("retry", VStr "3"); ("timeout", VStr "10")]).
  { repeat constructor; simpl; intuition discriminate. }
  split.
  - destruct (proj1 (proj2 (@attribute_delete (fun _ => false) (fun _ => false)
                       (network_sample "3" "10") "Network"
                       "retry" _ eq_refl eq_refl eq_refl Hwf)) eq_refl)
      as (w' & d' & Hdel & _ & Hget & _).
    exists w', d'. split; assumption.
  - apply (proj2 (proj2 (@attribute_delete (fun _ => false) (fun _ => false)
                    (network_sample "3" "10") "Network"
                    "proxy" _ eq_refl eq_refl eq_refl Hwf)) eq_refl).
Defined.

(** ** [norm_int] *)

Lemma to_int_of_str (rt : runtime) (t : string) (e : exn) :
  ConfigParser.to_int rt (VStr t) = Raise e -> e = ValueError.
Proof.
  unfold ConfigParser.to_int. destruct (PyInt.parse t) as [[z n]|].
  - destruct (_ && _); [now intros [= <-] | discriminate].
  - now intros [= <-].
Qed.

(** X3.  With [Network.retry] and [Network.timeout] two strings
    without ['%'], [norm_int] converts [retry] and then [timeout].  If
    [retry] is no integer literal it raises [ValueError] and the
    configuration is as it was; if [retry] is one and [timeout] is
    not, it raises [ValueError] with [retry] already rebound to its
    [int]; if both are, it returns with both rebound and the rest of
    the configuration as it was. *)
Theorem norm_int_outcomes (rt : runtime) (w : world) (net : DotDict)
    (t1 t2 : string) :
  dict_get (_sections (cfg w)) "Network" = Some net ->
  dict_get net "retry" = Some (VStr t1) ->
  dict_get net "timeout" = Some (VStr t2) ->
  percent_free t1 = true -> percent_free t2 = true ->
  norm_int rt w =
    match ConfigParser.to_int rt (VStr t1) with
    | Raise e => (w, Raise ValueError)
    | Return n1 =>
        match ConfigParser.to_int rt (VStr t2) with
        | Raise e =>
            (with_section w "Network" (dict_set net "retry" (VInt n1)),
             Raise ValueError)
        | Return n2 =>
            (with_section w "Network"
               (dict_set (dict_set net "retry" (VInt n1)) "timeout" (VInt n2)),
             Return tt)
        end
    end.
Proof.
  intros Hn H1 H2 P1 P2. unfold norm_int.
  assert (G1 : ConfigParser.getint rt (cfg w) "Network" "retry"
               = ConfigParser.to_int rt (VStr t1)).
  { unfold ConfigParser.getint. now rewrite (get_plain _ _ "retry" Hn H1 P1). }
  destruct (ConfigParser.to_int rt (VStr t1)) as [n1|e] eqn:E1.
  2:{ apply to_int_of_str in E1 as ->.
      apply bind_fail. unfold read. now rewrite G1. }
  erewrite bind_run; cycle 1. { unfold read. now rewrite G1. }
  run_with (setattr2_run _ _ "retry" (VInt n1) Hn).
  set (net1 := dict_set net "retry" (VInt n1)).
  assert (Hn1 : dict_get (_sections (cfg (with_section w "Network" net1)))
                  "Network" = Some net1) by (simpl; apply dict_get_set_same).
  assert (H2' : dict_get net1 "timeout" = Some (VStr t2))
    by (unfold net1; rewrite dict_get_set_other by discriminate; exact H2).
  assert (G2 : ConfigParser.getint rt (cfg (with_section w "Network" net1))
                 "Network" "timeout"
               = ConfigParser.to_int rt (VStr t2)).
  { unfold ConfigParser.getint.
    now rewrite (get_plain _ _ "timeout" Hn1 H2' P2). }
  destruct (ConfigParser.to_int rt (VStr t2)) as [n2|e] eqn:E2.
  2:{ apply to_int_of_str in E2 as ->.
      apply bind_fail. unfold read. now rewrite G2. }
  erewrite bind_run; cycle 1. { unfold read. now rewrite G2. }
  rewrite (setattr2_run _ _ "timeout" (VInt n2) Hn1).
  now rewrite with_section_twice.
Qed.

Lemma norm_int_outcomes_witness :
  norm_int sample_runtime (network_sample " 3" "1_0") =
    (with_section (network_sample " 3" "1_0") "Network"
       [("retry", VInt 3); ("timeout", VInt 10)],
     Return tt)
  /\ norm_int sample_runtime (network_sample "3" "ten") =
       (with_section (network_sample "3" "ten") "Network"
          [("retry", VInt 3); ("timeout", VStr "ten")],
        Raise ValueError).
Proof.
  split.
  - apply (@norm_int_outcomes sample_runtime (network_sample " 3" "1_0")
             [("retry", VStr " 3"); ("timeout", VStr "1_0")] " 3" "1_0"
             eq_refl eq_refl eq_refl eq_refl eq_refl).
  - apply (@norm_int_outcomes sample_runtime (network_sample "3" "ten")
             [("retry", VStr "3"); ("timeout", VStr "ten")] "3" "ten"
             eq_refl eq_refl eq_refl eq_refl eq_refl).
Defined.

(** ** [norm_tuples] *)

Lemma join_split (sep : ascii) (s : string) :
  PyStr.join (String sep "") (PyStr.split sep s) = s.
Proof.
  induction s as [|c s IH]; [reflexivity|].
  cbn [PyStr.split]. pose proof (split_not_nil sep s) as Hne.
  destruct (Ascii.eqb_spec c sep) as [->|N].
  - destruct (PyStr.split sep s) as [|t ts]; [congruence|].
    cbn [PyStr.join]. cbn [PyStr.join] in IH. rewrite IH. reflexivity.
  - destruct (PyStr.split sep s) as [|t ts]; [congruence|].
    cbn [PyStr.join] in *. destruct ts as [|t' ts].
    + now rewrite IH.
    + simpl. simpl in IH. now rewrite IH.
Qed.

Lemma split_lacks (sep : ascii) (s : string) :
  Forall (fun t => lacks sep t = true) (PyStr.split sep s).
Proof.
  unfold lacks. induction s as [|c s IH]; [repeat constructor|].
  cbn [PyStr.split]. pose proof (split_not_nil sep s) as Hne.
  destruct (Ascii.eqb c sep) eqn:E.
  - constructor; [reflexivity | exact IH].
  - destruct (PyStr.split sep s) as [|t ts]; [congruence|].
    inversion IH as [|? ? Ht Hts]; subst. constructor; [|exact Hts].
    simpl. now rewrite E.
Qed.

Lemma norm_tuples_steps (w : world) (file crawler : DotDict)
    (exts folders keys : string) :
  dict_get (_sections (cfg w)) "File" = Some file ->
  dict_get (_sections (cfg w)) "Crawler" = Some crawler ->
  dict_get file "media_ext" = Some (VStr exts) ->
  dict_get file "ignore_folder" = Some (VStr folders) ->
  dict_get crawler "required_keys" = Some (VStr keys) ->
  norm_tuples w =
    (with_section
       (with_section w "File"
          (dict_set
             (dict_set file "media_ext"
                (VTuple (map dotted (PyStr.split ";" (PyStr.lower exts)))))
             "ignore_folder" (VTuple (PyStr.split ";" folders))))
       "Crawler"
       (dict_set crawler "required_keys" (VTuple (PyStr.split "," keys))),
     Return tt).
Proof.
  intros Hf Hc He Hi Hr. unfold norm_tuples.
  run_with (getattr2_run _ _ "media_ext" Hf).
  unfold DotDict___getattr__ at 1. rewrite He. run_pure.
  run_with (setattr2_run _ _ "media_ext"
              (VTuple (map dotted (PyStr.split ";" (PyStr.lower exts)))) Hf).
  set (file1 := dict_set file "media_ext" _).
  assert (Hf1 : dict_get (_sections (cfg (with_section w "File" file1))) "File"
                = Some file1) by (simpl; apply dict_get_set_same).
  run_with (getattr2_run _ _ "ignore_folder" Hf1).
  unfold DotDict___getattr__ at 1. unfold file1 at 1.
  rewrite dict_get_set_other by discriminate. rewrite Hi. run_pure.
  run_with (setattr2_run _ _ "ignore_folder"
              (VTuple (PyStr.split ";" folders)) Hf1).
  rewrite with_section_twice.
  set (file2 := dict_set file1 "ignore_folder" _).
  assert (Hc2 : dict_get (_sections (cfg (with_section w "File" file2)))
                  "Crawler" = Some crawler)
    by (rewrite section_with_section_other by discriminate; exact Hc).
  run_with (getattr2_run _ _ "required_keys" Hc2).
  unfold DotDict___getattr__ at 1. rewrite Hr. run_pure.
  now rewrite (setattr2_run _ _ "required_keys"
                 (VTuple (PyStr.split "," keys)) Hc2).
Qed.

(** X4.  With [File.media_ext], [File.ignore_folder] and
    [Crawler.required_keys] three strings, [norm_tuples] returns and
    rebinds them to tuples: [ignore_folder] to its [';']-separated
    fields and [required_keys] to its [',']-separated fields, both as
    they are written.  Nothing else in the configuration changes. *)
Theorem norm_tuples_run (w : world) (file crawler : DotDict)
    (exts folders keys : string) :
  dict_get (_sections (cfg w)) "File" = Some file ->
  dict_get (_sections (cfg w)) "Crawler" = Some crawler ->
  dict_get file "media_ext" = Some (VStr exts) ->
  dict_get file "ignore_folder" = Some (VStr folders) ->
  dict_get crawler "required_keys" = Some (VStr keys) ->
  norm_tuples w =
    (with_section
       (with_section w "File"
          (dict_set
             (dict_set file "media_ext"
                (VTuple (map dotted (PyStr.split ";" (PyStr.lower exts)))))
             "ignore_folder" (VTuple (PyStr.split ";" folders))))
       "Crawler"
       (dict_set crawler "required_keys" (VTuple (PyStr.split "," keys))),
     Return tt).
Proof. apply norm_tuples_steps. Qed.

Lemma norm_tuples_run_witness :
  norm_tuples (tuples_sample "a;;B" "cover,title") =
    (mkWorld
       (mkConfig
          [("File", [("media_ext", VTuple [".mp4"]);
                     ("ignore_folder", VTuple ["a"; ""; "B"])]);
           ("Crawler", [("required_keys", VTuple ["cover"; "title"])])]
          [])
       [] [],
     Return tt).
Proof.
  apply (@norm_tuples_run (tuples_sample "a;;B" "cover,title")
           [("media_ext", VStr "mp4"); ("ignore_folder", VStr "a;;B")]
           [("required_keys", VStr "cover,title")] "mp4" "a;;B" "cover,title"
           eq_refl eq_refl eq_refl eq_refl eq_refl).
Defined.

(** X5.  The tuples [norm_tuples] makes of [File.ignore_folder] and
    [Crawler.required_keys] lose nothing: joining the entries with the
    separator gives the raw string back, no entry holds the
    separator, and a tuple is never empty. *)
Theorem plain_tuples_lossless (w : world) (file crawler : DotDict)
    (exts folders keys : string) :
  dict_get (_sections (cfg w)) "File" = Some file ->
  dict_get (_sections (cfg w)) "Crawler" = Some crawler ->
  dict_get file "media_ext" = Some (VStr exts) ->
  dict_get file "ignore_folder" = Some (VStr folders) ->
  dict_get crawler "required_keys" = Some (VStr keys) ->
  exists fs ks,
    lookup2 (cfg (fst (norm_tuples w))) "File" "ignore_folder"
      = Some (VTuple fs)
    /\ lookup2 (cfg (fst (norm_tuples w))) "Crawler" "required_keys"
       = Some (VTuple ks)
    /\ PyStr.join ";" fs = folders /\ PyStr.join "," ks = keys
    /\ Forall (fun f => lacks ";" f = true) fs
    /\ Forall (fun k => lacks "," k = true) ks
    /\ fs <> [] /\ ks <> [].
Proof.
  intros Hf Hc He Hi Hr.
  rewrite (norm_tuples_steps w Hf Hc He Hi Hr). cbn [fst].
  exists (PyStr.split ";" folders), (PyStr.split "," keys).
  split; [|split; [|repeat split]].
  - rewrite lookup2_with_section_other by discriminate.
    rewrite lookup2_with_section_same. apply dict_get_set_same.
  - rewrite lookup2_with_section_same. apply dict_get_set_same.
  - apply join_split.
  - apply join_split.
  - apply split_lacks.
  - apply split_lacks.
  - apply split_not_nil.
  - apply split_not_nil.
Qed.

Lemma plain_tuples_lossless_witness :
  exists fs ks,
    lookup2 (cfg (fst (norm_tuples (tuples_sample "a;;B" "cover,title"))))
      "File" "ignore_folder" = Some (VTuple fs)
    /\ lookup2 (cfg (fst (norm_tuples (tuples_sample "a;;B" "cover,title"))))
         "Crawler" "required_keys" = Some (VTuple ks)
    /\ PyStr.join ";" fs = "a;;B" /\ PyStr.join "," ks = "cover,title".
Proof.
  destruct (@plain_tuples_lossless (tuples_sample "a;;B" "cover,title")
              [("media_ext", VStr "mp4"); ("ignore_folder", VStr "a;;B")]
              [("required_keys", VStr "cover,title")] "mp4" "a;;B" "cover,title"
              eq_refl eq_refl eq_refl eq_refl eq_refl)
    as (fs & ks & H1 & H2 & H3 & H4 & _).
  exists fs, ks. repeat split; assumption.
Defined.

(** ** [validate_proxy] *)

Lemma getattr_is_str (d : DotDict) (k s : string) :
  DotDict___getattr__ d k = VStr s <-> dict_get d k = Some (VStr s).
Proof.
  unfold DotDict___getattr__. destruct (dict_get d k) as [v|].
  - split; [now intros -> | now intros [= ->]].
  - split; discriminate.
Qed.

Lemma validate_proxy_steps (w : world) (net : DotDict) (raw : string) :
  dict_get (_sections (cfg w)) "Network" = Some net ->
  dict_get net "proxy" = Some (VStr raw) ->
  validate_proxy w =
    if String.eqb (PyStr.lower raw) "" then
      (with_section w "Network" (dict_set net "proxy" (VDict [])), Return tt)
    else if matchb proxy_pattern (PyStr.lower raw) then
      (with_section w "Network"
         (dict_set net "proxy"
            (VDict [("http", PyStr.lower raw); ("https", PyStr.lower raw)])),
       Return tt)
    else
      (logged (with_section w "Network" (dict_set net "proxy" (VDict [])))
              [(WARNING, InvalidProxyFormat)],
       Return tt).
Proof.
  intros Hn Hv. unfold validate_proxy.
  run_with (getattr2_run _ _ "proxy" Hn).
  unfold DotDict___getattr__. rewrite Hv. run_pure. cbn [py_lower truthy].
  destruct (String.eqb (PyStr.lower raw) ""); cbn [negb].
  - run_pure. now rewrite (setattr2_run _ _ _ _ Hn).
  - unfold re_match. destruct (matchb proxy_pattern (PyStr.lower raw)).
    + run_pure. now rewrite (setattr2_run _ _ _ _ Hn).
    + unfold bind at 1. unfold bind at 1. unfold logger_warning at 1.
      unfold ret at 1.
      erewrite setattr2_run by exact Hn. reflexivity.
Qed.

(** X6.  Whatever the configuration, [validate_proxy] either raises
    without having changed or logged anything, with [KeyError] when
    there is no [Network] section and [AttributeError] when
    [Network.proxy] is not a string, or returns with [Network.proxy]
    rebound to a mapping, in one of three ways: the string was empty,
    the mapping is empty and nothing is logged; the string was not
    empty and its lower case does not match, the mapping is empty and
    one warning is logged; the lower case of the string is
    [scheme://host:port] with the scheme [socks5] or [http], and the
    mapping gives it to [http] and to [https], with nothing logged. *)
Theorem proxy_invariant (w : world) :
  match snd (validate_proxy w) with
  | Raise e =>
      fst (validate_proxy w) = w
      /\ ((e = KeyError "Network"
           /\ dict_get (_sections (cfg w)) "Network" = None)
          \/ (e = AttributeError
              /\ forall s, lookup2 (cfg w) "Network" "proxy" <> Some (VStr s)))
  | Return _ =>
      exists raw d,
        lookup2 (cfg w) "Network" "proxy" = Some (VStr raw)
        /\ lookup2 (cfg (fst (validate_proxy w))) "Network" "proxy"
           = Some (VDict d)
        /\ stdout (fst (validate_proxy w)) = stdout w
        /\ ((raw = "" /\ d = [] /\ log (fst (validate_proxy w)) = log w)
            \/ (raw <> "" /\ d = []
                /\ ~ Matches proxy_pattern (PyStr.lower raw)
                /\ log (fst (validate_proxy w))
                   = log w ++ [(WARNING, InvalidProxyFormat)])
            \/ (d = [("http", PyStr.lower raw); ("https", PyStr.lower raw)]
                /\ log (fst (validate_proxy w)) = log w
                /\ exists scheme host port eol,
                     PyStr.lower raw
                     = (scheme ++ "://" ++ host ++ ":" ++ port ++ eol)%string
                     /\ (scheme = "socks5" \/ scheme = "http")
                     /\ host <> "" /\ all_chars host_char host = true
                     /\ port <> "" /\ all_chars PyStr.is_digit port = true
                     /\ (eol = "" \/ eol = String "010" "")))
  end.
Proof.
  destruct (dict_get (_sections (cfg w)) "Network") as [net|] eqn:Hn.
  2:{ unfold validate_proxy.
      erewrite bind_fail by (apply getattr2_fail; exact Hn).
      cbn [fst snd]. split; [reflexivity | left; auto]. }
  destruct (DotDict___getattr__ net "proxy") as [| raw | | | | |] eqn:Hv;
    try (unfold validate_proxy;
         erewrite bind_run by (apply (getattr2_run _ _ "proxy" Hn));
         rewrite Hv; erewrite bind_fail by reflexivity; cbn [fst snd];
         split; [reflexivity | right; split; [reflexivity|]];
         intros s Hs; unfold lookup2 in Hs; rewrite Hn in Hs;
         apply getattr_is_str in Hs; congruence).
  apply getattr_is_str in Hv.
  rewrite (validate_proxy_steps w Hn Hv).
  assert (Hl : lookup2 (cfg w) "Network" "proxy" = Some (VStr raw))
    by (unfold lookup2; now rewrite Hn).
  assert (Hempty : PyStr.lower raw = "" -> raw = "")
    by (destruct raw; [reflexivity | discriminate]).
  destruct (String.eqb_spec (PyStr.lower raw) "") as [E|N].
  - cbn [fst snd].
    exists raw, []. split; [exact Hl | split; [|split; [reflexivity|]]].
    + rewrite lookup2_with_section_same. apply dict_get_set_same.
    + left. auto.
  - destruct (matchb proxy_pattern (PyStr.lower raw)) eqn:Em; cbn [fst snd].
    + exists raw, [("http", PyStr.lower raw); ("https", PyStr.lower raw)].
      split; [exact Hl | split; [|split; [reflexivity|]]].
      * rewrite lookup2_with_section_same. apply dict_get_set_same.
      * right. right. split; [reflexivity | split; [reflexivity|]].
        apply proxy_pattern_shape. now apply matchb_correct.
    + exists raw, []. split; [exact Hl | split; [|split; [reflexivity|]]].
      * unfold logged. cbn [cfg]. rewrite lookup2_with_section_same.
        apply dict_get_set_same.
      * right. left. split; [|split; [reflexivity | split; [|reflexivity]]].
        -- intros ->. now apply N.
        -- intros Hm. apply matchb_correct in Hm. congruence.
Qed.

(** ** [convert_naming_rule] *)

Lemma convert_naming_rule_steps (rt : runtime) (w : world) (nr : DotDict)
    (a b : string) :
  dict_get (_sections (cfg w)) "NamingRule" = Some nr ->
  DotDict___getattr__ nr "output_folder" = VStr a ->
  DotDict___getattr__ nr "save_dir" = VStr b ->
  convert_naming_rule rt w =
    (with_section w "NamingRule"
       (dict_set
          (dict_set nr "save_dir"
             (VTemplate (VStr ((a ++ os_sep rt) ++ b)%string)))
          "filename" (VTemplate (DotDict___getattr__ nr "filename"))),
     Return tt).
Proof.
  intros Hn Ha Hb. unfold convert_naming_rule.
  run_with (getattr2_run _ _ "output_folder" Hn). rewrite Ha. run_pure.
  run_with (getattr2_run _ _ "save_dir" Hn). rewrite Hb. run_pure.
  cbn [str_add].
  run_with (getattr2_run _ _ "filename" Hn).
  run_with (setattr2_run _ _ "save_dir"
              (VTemplate (VStr ((a ++ os_sep rt) ++ b)%string)) Hn).
  erewrite setattr2_run by (simpl; apply dict_get_set_same).
  now rewrite with_section_twice.
Qed.

(** X7.  With [NamingRule.output_folder] and [NamingRule.save_dir] two
    strings, [convert_naming_rule] returns: [save_dir] is rebound to
    the template of [output_folder + os.sep + save_dir] and [filename]
    to the template of whatever [filename] held, [None] when the
    option is missing; [output_folder] and the rest of the
    configuration stay as they were. *)
Theorem convert_naming_rule_run (rt : runtime) (w : world) (nr : DotDict)
    (folder dir : string) :
  dict_get (_sections (cfg w)) "NamingRule" = Some nr ->
  dict_get nr "output_folder" = Some (VStr folder) ->
  dict_get nr "save_dir" = Some (VStr dir) ->
  convert_naming_rule rt w =
    (with_section w "NamingRule"
       (dict_set
          (dict_set nr "save_dir"
             (VTemplate (VStr ((folder ++ os_sep rt) ++ dir)%string)))
          "filename" (VTemplate (DotDict___getattr__ nr "filename"))),
     Return tt)
  /\ lookup2 (cfg (fst (convert_naming_rule rt w))) "NamingRule" "output_folder"
     = Some (VStr folder)
  /\ (dict_get nr "filename" = None ->
      lookup2 (cfg (fst (convert_naming_rule rt w))) "NamingRule" "filename"
      = Some (VTemplate VNone)).
Proof.
  intros Hn Ha Hb.
  rewrite (convert_naming_rule_steps rt w Hn (proj2 (getattr_is_str _ _ _) Ha)
             (proj2 (getattr_is_str _ _ _) Hb)).
  cbn [fst]. split; [reflexivity | split].
  - rewrite lookup2_with_section_same.
    now rewrite !dict_get_set_other by discriminate.
  - intros Hf. rewrite lookup2_with_section_same, dict_get_set_same.
    unfold DotDict___getattr__. now rewrite Hf.
Qed.

Lemma convert_naming_rule_run_witness :
  convert_naming_rule sample_runtime naming_sample =
    (mkWorld
       (mkConfig
          [("NamingRule", [("output_folder", VStr "#out");
                           ("save_dir", VTemplate (VStr "#out/$actress"));
                           ("filename", VTemplate (VStr "$num"))])]
          [])
       [] [],
     Return tt).
Proof.
  apply (@convert_naming_rule_run sample_runtime naming_sample
           [("output_folder", VStr "#out"); ("save_dir", VStr "$actress");
            ("filename", VStr "$num")] "#out" "$actress"
           eq_refl eq_refl eq_refl).
Defined.

(** X8.  [convert_naming_rule] cannot be run twice: once it has
    returned, [NamingRule.save_dir] is a template, and a second run
    raises [TypeError] on [output_folder + os.sep + save_dir] and
    leaves the configuration as the first run left it. *)
Theorem convert_naming_rule_twice (rt : runtime) (w w' : world) :
  convert_naming_rule rt w = (w', Return tt) ->
  convert_naming_rule rt w' = (w', Raise TypeError).
Proof.
  intros H.
  destruct (dict_get (_sections (cfg w)) "NamingRule") as [nr|] eqn:Hn.
  2:{ unfold convert_naming_rule in H.
      erewrite bind_fail in H by (apply getattr2_fail; exact Hn).
      discriminate H. }
  destruct (DotDict___getattr__ nr "output_folder") as [| a | | | | |] eqn:Ha;
    try (unfold convert_naming_rule in H;
         erewrite bind_run in H by (apply (getattr2_run _ _ _ Hn));
         rewrite Ha in H; erewrite bind_fail in H by reflexivity;
         discriminate H).
  destruct (DotDict___getattr__ nr "save_dir") as [| b | | | | |] eqn:Hb;
    try (unfold convert_naming_rule in H;
         erewrite bind_run in H by (apply (getattr2_run _ _ _ Hn));
         rewrite Ha in H; erewrite bind_run in H by reflexivity;
         erewrite bind_run in H by (apply (getattr2_run _ _ _ Hn));
         rewrite Hb in H; erewrite bind_fail in H by reflexivity;
         discriminate H).
  rewrite (convert_naming_rule_steps rt w Hn Ha Hb) in H.
  injection H as <-.
  set (nr' := dict_set (dict_set nr "save_dir" _) "filename" _).
  assert (Hn' : dict_get (_sections (cfg (with_section w "NamingRule" nr')))
                  "NamingRule" = Some nr') by (simpl; apply dict_get_set_same).
  unfold convert_naming_rule.
  run_with (getattr2_run _ _ "output_folder" Hn').
  assert (Ha' : DotDict___getattr__ nr' "output_folder" = VStr a).
  { unfold DotDict___getattr__, nr'.
    rewrite !dict_get_set_other by discriminate. exact Ha. }
  rewrite Ha'. run_pure.
  run_with (getattr2_run _ _ "save_dir" Hn').
  assert (Hb' : exists t, DotDict___getattr__ nr' "save_dir" = VTemplate t).
  { unfold DotDict___getattr__, nr'.
    rewrite dict_get_set_other by discriminate.
    rewrite dict_get_set_same. eauto. }
  destruct Hb' as [t ->]. apply bind_fail. reflexivity.
Qed.

Lemma convert_naming_rule_twice_witness :
  convert_naming_rule sample_runtime naming_sample
    = (fst (convert_naming_rule sample_runtime naming_sample), Return tt)
  /\ convert_naming_rule sample_runtime
       (fst (convert_naming_rule sample_runtime naming_sample))
     = (fst (convert_naming_rule sample_runtime naming_sample),
        Raise TypeError).
Proof.
  assert (H : convert_naming_rule sample_runtime naming_sample
              = (fst (convert_naming_rule sample_runtime naming_sample),
                 Return tt)) by (vm_compute; reflexivity).
  split; [exact H|].
  apply (@convert_naming_rule_twice sample_runtime naming_sample _ H).
Defined.

(** ** [is_url] *)

Lemma lower_app (s t : string) :
  PyStr.lower (s ++ t) = (PyStr.lower s ++ PyStr.lower t)%string.
Proof. induction s as [|c s IH]; simpl; [reflexivity | now rewrite IH]. Qed.

Lemma lower_app_inv (s t1 t2 : string) :
  PyStr.lower s = (t1 ++ t2)%string ->
  exists s1 s2, s = (s1 ++ s2)%string
                /\ PyStr.lower s1 = t1 /\ PyStr.lower s2 = t2.
Proof.
  revert s. induction t1 as [|c t1 IH]; intros s H.
  - exists "", s. auto.
  - destruct s as [|x s]; [discriminate|]. simpl in H.
    injection H as Hx Hs. destruct (IH s Hs) as (s1 & s2 & -> & H1 & H2).
    exists (String x s1), s2. simpl. now rewrite Hx, H1, H2.
Qed.

(** A pattern whose classes fold case matches a string exactly when it
    matches its lower case. *)
Lemma Matches_lower (r : regex) (s : string) :
  classes_all folds_case r -> Matches r s -> Matches r (PyStr.lower s).
Proof.
  intros Hr H. induction H as [ | p c Hp | r1 r2 s1 s2 _ IH1 _ IH2
                             | r1 r2 s _ IH | r1 r2 s _ IH | r
                             | r s1 s2 _ IH1 _ IH2 ]; simpl in *.
  - constructor.
  - constructor. now rewrite Hr.
  - rewrite lower_app. constructor; tauto.
  - apply MAltL. tauto.
  - apply MAltR. tauto.
  - constructor.
  - rewrite lower_app. constructor; auto.
Qed.

Lemma Matches_unlower (r : regex) (t : string) :
  Matches r t -> classes_all folds_case r ->
  forall s, t = PyStr.lower s -> Matches r s.
Proof.
  induction 1 as [ | p c Hp | r1 r2 s1 s2 _ IH1 _ IH2
                 | r1 r2 s' _ IH | r1 r2 s' _ IH | r
                 | r s1 s2 _ IH1 _ IH2 ]; simpl; intros Hr s E.
  - destruct s; [constructor | discriminate].
  - destruct s as [|x [|y s]]; try discriminate.
    simpl in E. injection E as ->. constructor. now rewrite <- Hr.
  - symmetry in E. apply lower_app_inv in E as (a & b & -> & Ha & Hb).
    constructor; [apply IH1 | apply IH2]; tauto || auto.
  - apply MAltL. apply IH; tauto.
  - apply MAltR. apply IH; tauto.
  - destruct s; [constructor | discriminate].
  - symmetry in E. apply lower_app_inv in E as (a & b & -> & Ha & Hb).
    constructor; [apply IH1 | apply IH2]; auto.
Qed.

(** The two properties of classes are decided by trying every
    character. *)
Lemma every_char_In (c : ascii) : In c every_char.
Proof.
  rewrite <- (ascii_nat_embedding c). apply in_map, in_seq.
  pose proof (nat_ascii_bounded c). lia.
Qed.

Lemma folds_caseb_sound (p : ascii -> bool) :
  folds_caseb p = true -> folds_case p.
Proof.
  unfold folds_caseb. rewrite forallb_forall. intros H c.
  apply Bool.eqb_prop, H, every_char_In.
Qed.

Lemma avoidsb_sound (f p : ascii -> bool) :
  avoidsb f p = true -> avoids f p.
Proof.
  unfold avoidsb. rewrite forallb_forall. intros H c Hc.
  specialize (H c (every_char_In c)). rewrite Hc in H. simpl in H.
  now destruct (p c).
Qed.

Lemma classes_allb_sound (Q : (ascii -> bool) -> Prop)
    (q : (ascii -> bool) -> bool) (r : regex) :
  (forall p, q p = true -> Q p) ->
  classes_allb q r = true -> classes_all Q r.
Proof.
  intros Hq. induction r; simpl; intros H;
    try apply andb_prop in H as [H1 H2]; auto.
Qed.

Lemma url_pattern_folds_case : classes_all folds_case url_pattern.
Proof.
  apply classes_allb_sound with (q := folds_caseb).
  - apply folds_caseb_sound.
  - vm_compute. reflexivity.
Qed.

(** X9.  [is_url] does not look at the case of letters: a string
    passes exactly when its lower case passes. *)
Theorem is_url_case_insensitive (s : string) :
  is_url (PyStr.lower s) = is_url s.
Proof.
  unfold is_url, re_match.
  destruct (matchb url_pattern s) eqn:E.
  - apply matchb_correct. apply Matches_lower.
    + apply url_pattern_folds_case.
    + now apply matchb_correct.
  - destruct (matchb url_pattern (PyStr.lower s)) eqn:E'; [|reflexivity].
    apply matchb_correct in E'.
    apply (fun H => Matches_unlower H url_pattern_folds_case s eq_refl) in E'.
    apply matchb_correct in E'. congruence.
Qed.






Lemma Matches_avoids (f : ascii -> bool) (r : regex) (s : string) :
  classes_all (avoids f) r -> Matches r s ->
  all_chars (fun c => negb (f c)) s = true.
Proof.
  intros Hr H. induction H as [ | p c Hp | r1 r2 s1 s2 _ IH1 _ IH2
                             | r1 r2 s _ IH | r1 r2 s _ IH | r
                             | r s1 s2 _ IH1 _ IH2 ]; simpl in *.
  - reflexivity.
  - destruct (f c) eqn:E; [|reflexivity]. rewrite (Hr c E) in Hp. discriminate.
  - rewrite all_chars_app. rewrite IH1, IH2; tauto.
  - tauto.
  - tauto.
  - reflexivity.
  - rewrite all_chars_app. rewrite IH1, IH2; auto.
Qed.

Ltac no_space_class :=
  apply classes_allb_sound with (q := avoidsb PyStr.is_space);
  [apply avoidsb_sound | vm_compute; reflexivity].

(** X11.  A string [is_url] accepts holds no white space, but for a
    line feed that may end it. *)
Theorem is_url_no_space (s : string) :
  is_url s = true ->
  exists body eol,
    s = (body ++ eol)%string
    /\ no_space body = true
    /\ (eol = "" \/ eol = String "010" "").
Proof.
  unfold is_url, re_match. intros H. apply matchb_correct in H.
  unfold url_pattern in H.
  apply Matches_Cat in H as (a1 & r1 & -> & H1 & H).
  apply Matches_Cat in H as (a2 & r2 & -> & H2 & H).
  apply Matches_Cat in H as (a3 & r3 & -> & H3 & H).
  apply Matches_Cat in H as (a4 & r4 & -> & H4 & H).
  apply Matches_Cat in H as (a5 & r5 & -> & H5 & H).
  apply Matches_Cat in H as (a6 & eol & -> & H6 & He).
  apply Matches_dollar in He.
  exists (a1 ++ a2 ++ a3 ++ a4 ++ a5 ++ a6)%string, eol.
  split; [now rewrite !append_assoc | split; [|exact He]].
  unfold no_space. rewrite !all_chars_app.
  apply (Matches_avoids PyStr.is_space) in H1;
    [|no_space_class].
  apply (Matches_avoids PyStr.is_space) in H2;
    [|no_space_class].
  apply (Matches_avoids PyStr.is_space) in H3;
    [|no_space_class].
  apply (Matches_avoids PyStr.is_space) in H4;
    [|no_space_class].
  apply (Matches_avoids PyStr.is_space) in H5;
    [|no_space_class].
  apply (Matches_avoids PyStr.is_space) in H6;
    [|no_space_class].
  unfold non_space. now rewrite H1, H2, H3, H4, H5, H6.
Qed.

Lemma is_url_no_space_witness :
  exists body eol,
    "http://example.com/path?q=1" = (body ++ eol)%string
    /\ no_space body = true
    /\ (eol = "" \/ eol = String "010" "").
Proof. apply (@is_url_no_space "http://example.com/path?q=1"). reflexivity. Defined.

(** ** The value a free-proxy entry is rebound to *)

Lemma free_url_cases (s : string) :
  free_url s = ""
  \/ (is_url (free_url s) = true
      /\ PyStr.no_upper (free_url s) = true
      /\ PyStr.startswith "http" (free_url s) = true).
Proof.
  unfold free_url.
  destruct (PyStr.startswith "http" (PyStr.lower s)) eqn:Ep; cbn [negb].
  - destruct (is_url (PyStr.lower s)) eqn:Eu; [right | now left].
    rewrite Eu, Ep. repeat split. apply lower_no_upper.
  - destruct (is_url ("http://" ++ PyStr.lower s)) eqn:Eu; [right | now left].
    rewrite Eu. repeat split. simpl. apply lower_no_upper.
Qed.

Lemma free_url_fixed (s : string) : free_url (free_url s) = free_url s.
Proof.
  destruct (free_url_cases s) as [E | (Hu & Hl & Hp)].
  - now rewrite E.
  - apply no_upper_lower in Hl.
    generalize dependent (free_url s). intros u Hu Hl Hp.
    unfold free_url. cbv zeta. rewrite Hl, Hp. cbn [negb]. now rewrite Hu.
Qed.


(** ** A second run of [check_proxy_free_url] *)

Lemma dict_set_same (V : Type) (d : dict V) (k : string) (v : V) :
  dict_get d k = Some v -> dict_set d k v = d.
Proof.
  induction d as [|[k0 x] d IH]; simpl; [discriminate|].
  destruct (String.eqb_spec k0 k) as [->|N].
  - now intros [= ->].
  - intros H. now rewrite IH.
Qed.

(** The loop over a section whose entries are fixed points already. *)
Lemma free_proxy_loop_fixed (sites : list string) (w : world) (cur : DotDict) :
  dict_get (_sections (cfg w)) "ProxyFree" = Some cur ->
  (forall site, In site sites ->
     PyStr.lower site = site
     /\ exists u, dict_get cur site = Some (VStr u)
                  /\ percent_free u = true /\ free_url u = u) ->
  for_each sites (fun site =>
    bind (read (fun c => ConfigParser.proxy_getitem c "ProxyFree" site))
      (fun v => match v with
                | VStr url =>
                    ConfigParser.proxy_setitem "ProxyFree" site
                      (VStr (free_url url))
                | _ => raise AttributeError
                end)) w
  = (w, Return tt).
Proof.
  intros Hc. induction sites as [|site sites IH]; intros Hall; [reflexivity|].
  destruct (Hall site (or_introl eq_refl)) as (Hk & u & Hu & Hp & Hfix).
  cbn [for_each]. erewrite bind_run; cycle 1.
  { apply (@free_proxy_turn w cur site u Hc Hk); [|exact Hp].
    unfold ConfigParser.chain_get. cbn [fst snd]. now rewrite Hu. }
  rewrite Hfix, (dict_set_same _ _ Hu), (with_section_id _ _ Hc).
  apply IH. intros site' Hin. apply Hall. now right.
Qed.

(** The first run, with what it leaves in the section. *)
Lemma free_proxy_first_run (w : world) (sec : DotDict) :
  dict_get (_sections (cfg w)) "ProxyFree" = Some sec ->
  dict_wf sec ->
  plain_section sec = true ->
  plain_section (_defaults (cfg w)) = true ->
  exists sec',
    check_proxy_free_url w = (with_section w "ProxyFree" sec', Return tt)
    /\ (forall site,
          In site (dict_keys sec') \/ In site (dict_keys (_defaults (cfg w))) ->
          PyStr.lower site = site
          /\ exists s, dict_get sec' site = Some (VStr (free_url s))
                       /\ percent_free s = true).
Proof.
  intros Hsec Hwf Hps Hpd.
  set (dflt := _defaults (cfg w)) in *.
  set (opts := fold_left (fun o kv => dict_set o (fst kv) (snd kv)) dflt sec).
  assert (Hchain : forall site,
             In site (dict_keys opts) ->
             PyStr.lower site = site
             /\ exists s, ConfigParser.chain_get (sec, dflt) site = Some (VStr s)
                          /\ percent_free s = true).
  { intros site Hin. apply dict_update_keys in Hin.
    unfold ConfigParser.chain_get. cbn [fst snd].
    destruct (dict_get sec site) as [v|] eqn:E.
    - destruct (plain_section_get _ _ Hps E) as (Hk & s & -> & Hp). eauto.
    - destruct Hin as [Hin | Hin]; [now apply dict_get_None in E|].
      apply dict_mem_true in Hin. unfold dict_mem in Hin.
      destruct (dict_get dflt site) as [v|] eqn:E'; [|discriminate].
      destruct (plain_section_get _ _ Hpd E') as (Hk & s & -> & Hp). eauto. }
  destruct (@free_proxy_loop (dict_keys opts) w sec Hsec
              (@dict_update_wf value dflt sec Hwf) Hchain)
    as (sec' & Hrun & Hdone & Hrest).
  exists sec'. split.
  - unfold check_proxy_free_url.
    erewrite bind_run; cycle 1.
    { unfold read, ConfigParser.getitem, ConfigParser.has_section, dict_mem.
      rewrite Hsec. reflexivity. }
    erewrite bind_run; cycle 1.
    { unfold read, ConfigParser.proxy_options, ConfigParser.options.
      cbn [negb String.eqb Ascii.eqb Bool.eqb]. rewrite Hsec. reflexivity. }
    exact Hrun.
  - intros site Hin.
    assert (Hopts : In site (dict_keys opts)).
    { destruct (in_dec string_dec site (dict_keys opts)) as [H | H]; [exact H|].
      exfalso. assert (Hn : ~ In site (dict_keys sec) /\ ~ In site (dict_keys dflt)).
      { split; intros Hx; apply H; apply dict_update_keys; tauto. }
      destruct Hn as [Hn1 Hn2]. destruct Hin as [Hin | Hin]; [|tauto].
      apply dict_mem_true in Hin. unfold dict_mem in Hin.
      rewrite (Hrest site H) in Hin. apply dict_get_None in Hn1.
      rewrite Hn1 in Hin. discriminate. }
    destruct (Hchain site Hopts) as (Hk & s & Hs & Hp).
    split; [exact Hk|]. exists s. split; [|exact Hp].
    now apply Hdone.
Qed.

(** X13.  On a [ProxyFree] section and defaults of strings without
    ['%'], [check_proxy_free_url] can be run again: the first run
    returns, every entry it leaves is a fixed point of the rebinding,
    and a second run returns and changes nothing. *)
Theorem free_proxy_idempotent (w : world) (sec : DotDict) :
  dict_get (_sections (cfg w)) "ProxyFree" = Some sec ->
  dict_wf sec ->
  plain_section sec = true ->
  plain_section (_defaults (cfg w)) = true ->
  exists w',
    check_proxy_free_url w = (w', Return tt)
    /\ (forall site v,
          lookup2 (cfg w') "ProxyFree" site = Some v ->
          exists u, v = VStr u /\ free_url u = u)
    /\ check_proxy_free_url w' = (w', Return tt).
Proof.
  intros Hsec Hwf Hps Hpd.
  destruct (free_proxy_first_run w Hsec Hwf Hps Hpd) as (sec' & Hrun & Hall).
  set (w' := with_section w "ProxyFree" sec') in *.
  assert (Hsec' : dict_get (_sections (cfg w')) "ProxyFree" = Some sec')
    by (simpl; apply dict_get_set_same).
  exists w'. split; [exact Hrun | split].
  - intros site v Hv. unfold lookup2 in Hv. rewrite Hsec' in Hv.
    destruct (Hall site) as (_ & s & Hs & _).
    { left. apply dict_mem_true. unfold dict_mem. now rewrite Hv. }
    rewrite Hs in Hv. injection Hv as <-.
    exists (free_url s). split; [reflexivity | apply free_url_fixed].
  - unfold check_proxy_free_url.
    erewrite bind_run; cycle 1.
    { unfold read, ConfigParser.getitem, ConfigParser.has_section, dict_mem.
      rewrite Hsec'. reflexivity. }
    erewrite bind_run; cycle 1.
    { unfold read, ConfigParser.proxy_options, ConfigParser.options.
      cbn [negb String.eqb Ascii.eqb Bool.eqb]. rewrite Hsec'. reflexivity. }
    apply (@free_proxy_loop_fixed _ w' sec' Hsec').
    intros site Hin. apply dict_update_keys in Hin.
    destruct (Hall site Hin) as (Hk & s & Hs & Hp).
    split; [exact Hk|]. exists (free_url s).
    split; [exact Hs | split; [now apply free_url_plain | apply free_url_fixed]].
Qed.

Lemma free_proxy_idempotent_witness :
  exists w',
    check_proxy_free_url (free_proxy_sample "Example.COM") = (w', Return tt)
    /\ check_proxy_free_url w' = (w', Return tt).
Proof.
  assert (Hwf : dict_wf [("site", VStr "Example.COM")]).
  { repeat constructor. simpl. tauto. }
  destruct (@free_proxy_idempotent (free_proxy_sample "Example.COM")
              [("site", VStr "Example.COM")] eq_refl Hwf eq_refl eq_refl)
    as (w' & H1 & _ & H2).
  exists w'. split; assumption.
Defined.

(** ** What [validate] keeps *)

Section Kept.
Variable rt : runtime.
Variable P : world -> Prop.
(** [P] looks at the configuration only. *)
Hypothesis P_cfg : forall w w', cfg w' = cfg w -> P w -> P w'.

Lemma kept_logger_debug (m : message) : preserves P (logger_debug m).
Proof. intros w H. exact (@P_cfg w (fst (logger_debug m w)) eq_refl H). Qed.

Lemma kept_logger_warning (m : message) : preserves P (logger_warning m).
Proof. intros w H. exact (@P_cfg w (fst (logger_warning m w)) eq_refl H). Qed.

Lemma kept_print (s : string) : preserves P (print s).
Proof. intros w H. exact (@P_cfg w (fst (print s w)) eq_refl H). Qed.

Ltac kept :=
  repeat first
    [ apply preserves_getattr2
    | apply preserves_lift
    | apply preserves_read
    | apply preserves_ret
    | apply preserves_raise
    | apply kept_logger_debug
    | apply kept_logger_warning
    | apply kept_print
    | match goal with
      | H : _ |- preserves _ (setattr2 _ _ _) => apply H
      end
    | apply preserves_bind; [|intros ?] ].

Lemma kept_norm_int :
  (forall v, preserves P (setattr2 "Network" "retry" v)) ->
  (forall v, preserves P (setattr2 "Network" "timeout" v)) ->
  preserves P (norm_int rt).
Proof. intros H1 H2. unfold norm_int. kept. Qed.

Lemma kept_norm_tuples :
  (forall v, preserves P (setattr2 "File" "media_ext" v)) ->
  (forall v, preserves P (setattr2 "File" "ignore_folder" v)) ->
  (forall v, preserves P (setattr2 "Crawler" "required_keys" v)) ->
  preserves P norm_tuples.
Proof. intros H1 H2 H3. unfold norm_tuples. kept. Qed.

Lemma kept_norm_boolean :
  (forall v, preserves P (setattr2 "Crawler" "hardworking_mode" v)) ->
  (forall v, preserves P (setattr2 "Crawler" "remove_actor_in_title" v)) ->
  (forall v, preserves P (setattr2 "NFO" "add_genre_to_tag" v)) ->
  preserves P norm_boolean.
Proof.
  intros H1 H2 H3. unfold norm_boolean, boolean_fields.
  cbn [for_each fst snd]. kept.
Qed.

Lemma kept_validate_proxy :
  (forall v, preserves P (setattr2 "Network" "proxy" v)) ->
  preserves P validate_proxy.
Proof.
  intros H1. unfold validate_proxy.
  apply preserves_bind; [apply preserves_getattr2 | intros v].
  apply preserves_bind; [apply preserves_lift | intros proxy].
  apply preserves_bind; [|intros proxies; apply H1].
  destruct (truthy (VStr proxy)); [|apply preserves_ret].
  destruct (re_match proxy_pattern proxy); kept.
Qed.

Lemma kept_import_names (mods : list string) :
  forall valid_mods unknown_mods,
    preserves P (import_names rt mods valid_mods unknown_mods).
Proof.
  induction mods as [|name mods IH]; intros valid unknown; cbn [import_names].
  - apply preserves_ret.
  - apply preserves_bind.
    + destruct (String.eqb name "fc2fan"); kept.
    + intros [|].
      * apply preserves_bind; [apply kept_logger_debug | intros _; apply IH].
      * destruct (import_module rt ("web." ++ name));
          [apply IH | apply IH | apply preserves_raise].
Qed.

Lemma kept_import_categories (items : list (string * value)) :
  (forall typ l, preserves P (setattr2 "Priority" typ (VTuple l))) ->
  forall unknown_mods, preserves P (import_categories rt items unknown_mods).
Proof.
  intros H.
  induction items as [|[typ cfg_str] items IH]; intros unknown;
    cbn [import_categories].
  - apply preserves_ret.
  - apply preserves_bind; [apply preserves_lift | intros mods].
    apply preserves_bind; [apply kept_import_names | intros r].
    apply preserves_bind; [apply H | intros _; apply IH].
Qed.

Lemma kept_import_crawlers :
  (forall typ l, preserves P (setattr2 "Priority" typ (VTuple l))) ->
  preserves P (import_crawlers rt).
Proof.
  intros H. unfold import_crawlers.
  apply preserves_bind; [apply preserves_read | intros priority].
  apply preserves_bind; [now apply kept_import_categories | intros unknown].
  destruct unknown; [apply preserves_ret|].
  destruct (negb (run_as_main rt));
    [apply kept_logger_warning | apply kept_print].
Qed.

Lemma kept_convert_naming_rule :
  (forall v, preserves P (setattr2 "NamingRule" "save_dir" v)) ->
  (forall v, preserves P (setattr2 "NamingRule" "filename" v)) ->
  preserves P (convert_naming_rule rt).
Proof. intros H1 H2. unfold convert_naming_rule. kept. Qed.

Lemma kept_check_proxy_free_url :
  (forall option v, preserves P (ConfigParser.set "ProxyFree" option v)) ->
  preserves P check_proxy_free_url.
Proof.
  intros H. unfold check_proxy_free_url.
  apply preserves_bind_read. intros sec [c Hsec].
  assert (sec = "ProxyFree") as ->.
  { unfold ConfigParser.getitem in Hsec.
    destruct (_ && _) in Hsec; [discriminate | now injection Hsec]. }
  apply preserves_bind; [apply preserves_read | intros sites].
  apply preserves_for_each. intros site.
  apply preserves_bind; [apply preserves_read | intros v].
  destruct v; try apply preserves_raise.
  unfold ConfigParser.proxy_setitem. apply H.
Qed.

Lemma kept_validate :
  (forall s k v, writes s k = true -> preserves P (setattr2 s k v)) ->
  (forall option v, preserves P (ConfigParser.set "ProxyFree" option v)) ->
  preserves P (validate rt).
Proof.
  intros H Hset. unfold validate.
  apply preserves_bind; [apply kept_norm_int; intros; now apply H | intros _].
  apply preserves_bind; [apply kept_norm_tuples; intros; now apply H | intros _].
  apply preserves_bind; [apply kept_norm_boolean; intros; now apply H | intros _].
  apply preserves_bind; [apply kept_validate_proxy; intros; now apply H | intros _].
  apply preserves_bind; [apply kept_import_crawlers; intros; now apply H | intros _].
  apply preserves_bind;
    [apply kept_convert_naming_rule; intros; now apply H | intros _].
  now apply kept_check_proxy_free_url.
Qed.
End Kept.

(** A write of the parser into [ProxyFree]. *)
Lemma set_run (w : world) (option : string) (v : value) :
  fst (ConfigParser.set "ProxyFree" option v w) = w
  \/ exists d s,
       dict_get (_sections (cfg w)) "ProxyFree" = Some d
       /\ fst (ConfigParser.set "ProxyFree" option v w)
          = with_section w "ProxyFree"
              (dict_set d (ConfigParser.optionxform option) (VStr s)).
Proof.
  unfold ConfigParser.set. destruct v; try (now left).
  assert (E : exists o,
             (if truthy (VStr s) then lift (ConfigParser.before_set s)
              else ret s) w = (w, o))
    by (destruct (truthy (VStr s)); eexists; reflexivity).
  destruct E as [[a|e] E].
  2:{ left. erewrite bind_fail by exact E. reflexivity. }
  erewrite bind_run by exact E. erewrite bind_run by reflexivity.
  change (String.eqb "ProxyFree" "" || String.eqb "ProxyFree" default_section)
    with false. cbv iota.
  destruct (dict_get (_sections (cfg w)) "ProxyFree") as [d|] eqn:Ed;
    [right | now left].
  exists d, s. split; reflexivity.
Qed.

Lemma option_is_set (s k : string) (x : option value) (option : string)
    (v : value) :
  s <> "ProxyFree" ->
  preserves (option_is s k x) (ConfigParser.set "ProxyFree" option v).
Proof.
  intros N w H. destruct (set_run w option v) as [-> | (d & t & _ & ->)];
    [exact H|].
  unfold option_is. now rewrite lookup2_with_section_other.
Qed.

(** X14.  [validate], whether it returns or raises, leaves alone every
    option other than those it converts: the eleven options of the
    schema, the categories of [Priority] and the entries of
    [ProxyFree]. *)
Theorem validate_frame (rt : runtime) (w : world) (s k : string) :
  writes s k = false ->
  s <> "ProxyFree" ->
  lookup2 (cfg (fst (validate rt w))) s k = lookup2 (cfg w) s k.
Proof.
  intros Hw Hs.
  apply (@kept_validate rt (option_is s k (lookup2 (cfg w) s k)));
    [| | | reflexivity].
  - intros w0 w1 E H. unfold option_is in *. now rewrite E.
  - intros s' k' v Hw'. apply setattr2_frame.
    destruct (String.eqb_spec s s') as [->|]; [|now left].
    destruct (String.eqb_spec k k') as [->|]; [|now right].
    congruence.
  - intros option v. now apply option_is_set.
Qed.

Lemma validate_frame_witness :
  lookup2 (cfg (fst (validate sample_runtime raw_sample)))
    "Crawler" "fc2fan_local_path"
  = Some (VStr "").
Proof.
  apply (@validate_frame sample_runtime raw_sample
           "Crawler" "fc2fan_local_path" eq_refl).
  discriminate.
Defined.

Lemma shape_is_setattr2 (names : list string) (dflt : DotDict)
    (s k : string) (v : value) :
  preserves (shape_is names dflt) (setattr2 s k v).
Proof.
  intros w [H1 H2].
  destruct (dict_get (_sections (cfg w)) s) as [d|] eqn:E.
  - rewrite (setattr2_run _ _ _ _ E). split; [|exact H2].
    simpl. now rewrite (dict_keys_set_present _ _ _ E).
  - rewrite (setattr2_fail _ _ _ _ E). now split.
Qed.

Lemma shape_is_set (names : list string) (dflt : DotDict)
    (option : string) (v : value) :
  preserves (shape_is names dflt) (ConfigParser.set "ProxyFree" option v).
Proof.
  intros w [H1 H2]. destruct (set_run w option v) as [-> | (d & t & E & ->)];
    [now split|].
  split; [|exact H2]. simpl. now rewrite (dict_keys_set_present _ _ _ E).
Qed.

Lemma option_set_setattr2 (s0 k0 s k : string) (v : value) :
  preserves (option_set s0 k0) (setattr2 s k v).
Proof.
  intros w H. unfold option_set in *.
  destruct (dict_get (_sections (cfg w)) s) as [d|] eqn:E.
  - rewrite (setattr2_run _ _ _ _ E). cbn [fst].
    destruct (String.eqb_spec s0 s) as [->|Ns].
    + rewrite lookup2_with_section_same. unfold DotDict___setattr__.
      destruct (String.eqb_spec k0 k) as [->|Nk].
      * now rewrite dict_get_set_same.
      * rewrite dict_get_set_other by exact Nk.
        unfold lookup2 in H. now rewrite E in H.
    + now rewrite lookup2_with_section_other.
  - now rewrite (setattr2_fail _ _ _ _ E).
Qed.

Lemma option_set_set (s0 k0 option : string) (v : value) :
  preserves (option_set s0 k0) (ConfigParser.set "ProxyFree" option v).
Proof.
  intros w H. unfold option_set in *.
  destruct (set_run w option v) as [-> | (d & t & E & ->)]; [exact H|].
  destruct (String.eqb_spec s0 "ProxyFree") as [->|Ns].
  - rewrite lookup2_with_section_same.
    destruct (String.eqb_spec k0 (ConfigParser.optionxform option)) as [->|Nk].
    + now rewrite dict_get_set_same.
    + rewrite dict_get_set_other by exact Nk.
      unfold lookup2 in H. now rewrite E in H.
  - now rewrite lookup2_with_section_other.
Qed.

(** X15.  [validate], whether it returns or raises, adds, removes and
    moves no section, leaves the defaults as they are, and removes no
    option: an option that was set is still set. *)
Theorem validate_shape (rt : runtime) (w : world) :
  dict_keys (_sections (cfg (fst (validate rt w))))
    = dict_keys (_sections (cfg w))
  /\ _defaults (cfg (fst (validate rt w))) = _defaults (cfg w)
  /\ (forall s k, lookup2 (cfg w) s k <> None ->
        lookup2 (cfg (fst (validate rt w))) s k <> None).
Proof.
  assert (H : shape_is (dict_keys (_sections (cfg w))) (_defaults (cfg w))
                (fst (validate rt w))).
  { apply kept_validate; [| | | now split].
    - intros w0 w1 E [H1 H2]. unfold shape_is. now rewrite E.
    - intros; apply shape_is_setattr2.
    - intros; apply shape_is_set. }
  destruct H as [H1 H2]. split; [exact H1 | split; [exact H2|]].
  intros s k Hsk. apply (@kept_validate rt (option_set s k)); [| | | exact Hsk].
  - intros w0 w1 E H. unfold option_set in *. now rewrite E.
  - intros; apply option_set_setattr2.
  - intros; apply option_set_set.
Qed.

Lemma validate_shape_witness :
  dict_keys (_sections (cfg (fst (validate sample_runtime raw_sample))))
    = dict_keys (_sections (cfg raw_sample))
  /\ lookup2 (cfg (fst (validate sample_runtime raw_sample)))
       "Crawler" "fc2fan_local_path" <> None.
Proof.
  destruct (@validate_shape sample_runtime raw_sample) as (H1 & _ & H3).
  split; [exact H1 | apply H3; discriminate].
Defined.

(** ** What [validate] brings about *)

Lemma ensures_bind_last {A B} (Q : world -> Prop) (m : M A) (k : A -> M B) :
  (forall a, ensures Q (k a)) -> ensures Q (bind m k).
Proof.
  intros Hk w w' b H. apply bind_inv in H as (w1 & a & _ & H).
  exact (Hk a w1 w' b H).
Qed.

Lemma ensures_bind_then {A B} (Q : world -> Prop) (m : M A) (k : A -> M B) :
  ensures Q m -> (forall a, preserves Q (k a)) -> ensures Q (bind m k).
Proof.
  intros Hm Hk w w' b H. apply bind_inv in H as (w1 & a & H1 & H).
  pose proof (Hk a w1 (Hm _ _ _ H1)) as Hq. now rewrite H in Hq.
Qed.

Lemma ensures_setattr2 (T : option value -> bool) (s k : string) (v : value) :
  T (Some v) = true -> ensures (has_type T s k) (setattr2 s k v).
Proof.
  intros Ht w w' [] H. unfold has_type.
  destruct (dict_get (_sections (cfg w)) s) as [d|] eqn:E.
  - rewrite (setattr2_run _ _ _ _ E) in H. injection H as <-.
    rewrite lookup2_with_section_same. unfold DotDict___setattr__.
    now rewrite dict_get_set_same.
  - rewrite (setattr2_fail _ _ _ _ E) in H. discriminate H.
Qed.

Lemma has_type_cfg (T : option value -> bool) (s k : string) (w w' : world) :
  cfg w' = cfg w -> has_type T s k w -> has_type T s k w'.
Proof. unfold has_type. now intros ->. Qed.

Lemma has_type_setattr2 (T : option value -> bool) (s0 k0 s k : string)
    (v : value) :
  s0 <> s \/ k0 <> k -> preserves (has_type T s0 k0) (setattr2 s k v).
Proof.
  intros N w H. unfold has_type in *.
  now rewrite (@setattr2_frame s k s0 k0 v (lookup2 (cfg w) s0 k0) N w eq_refl).
Qed.

Lemma has_type_set (T : option value -> bool) (s0 k0 option : string)
    (v : value) :
  s0 <> "ProxyFree" ->
  preserves (has_type T s0 k0) (ConfigParser.set "ProxyFree" option v).
Proof.
  intros N w H. unfold has_type in *.
  now rewrite (@option_is_set s0 k0 (lookup2 (cfg w) s0 k0) option v N w
                 eq_refl).
Qed.

(** A category keeps a tuple through the writes of tuples to
    [Priority]. *)
Lemma tuple_setattr2 (typ s k : string) (l : list string) :
  preserves (has_type is_tuple "Priority" typ) (setattr2 s k (VTuple l)).
Proof.
  destruct (String.eqb_spec s "Priority") as [->|Ns];
    [destruct (String.eqb_spec k typ) as [->|Nk]|].
  - intros w H. unfold has_type in *.
    destruct (dict_get (_sections (cfg w)) "Priority") as [d|] eqn:E.
    + rewrite (setattr2_run _ _ _ _ E). cbn [fst].
      rewrite lookup2_with_section_same. unfold DotDict___setattr__.
      now rewrite dict_get_set_same.
    + now rewrite (setattr2_fail _ _ _ _ E).
  - apply has_type_setattr2. right. congruence.
  - apply has_type_setattr2. left. congruence.
Qed.

Ltac apart := first [left; discriminate | right; discriminate].

(** The rest of a pass, after the write that matters. *)
Ltac inside_kept :=
  repeat first
    [ apply preserves_getattr2
    | apply has_type_setattr2; apart
    | apply preserves_lift
    | apply preserves_read
    | apply preserves_ret
    | apply preserves_raise
    | apply preserves_bind; [|intros ?] ].

(** One pass, and the passes that follow one. *)
Ltac pass_kept :=
  first [ apply kept_norm_tuples | apply kept_norm_boolean
        | apply kept_validate_proxy | apply kept_import_crawlers
        | apply kept_convert_naming_rule | apply kept_check_proxy_free_url ];
  try apply has_type_cfg; intros;
  first [ apply has_type_setattr2; apart
        | apply has_type_set; discriminate ].

Ltac tail_kept :=
  lazymatch goal with
  | |- preserves _ (bind _ _) =>
      apply preserves_bind; [pass_kept | intros _; tail_kept]
  | |- _ => pass_kept
  end.

(** The write that gives an option its type, inside a pass. *)
Ltac established :=
  lazymatch goal with
  | |- ensures (has_type _ ?s ?k) (bind (setattr2 ?s ?k _) _) =>
      apply ensures_bind_then;
      [apply ensures_setattr2; reflexivity | intros ?; inside_kept]
  | |- ensures (has_type _ ?s ?k) (setattr2 ?s ?k _) =>
      apply ensures_setattr2; reflexivity
  | |- ensures _ (bind _ _) =>
      apply ensures_bind_last; intros ?; established
  end.

Section Types.
Variable rt : runtime.

Lemma norm_int_types :
  ensures (has_type is_int "Network" "retry") (norm_int rt)
  /\ ensures (has_type is_int "Network" "timeout") (norm_int rt).
Proof. split; unfold norm_int; established. Qed.

Lemma norm_tuples_types :
  ensures (has_type is_tuple "File" "media_ext") norm_tuples
  /\ ensures (has_type is_tuple "File" "ignore_folder") norm_tuples
  /\ ensures (has_type is_tuple "Crawler" "required_keys") norm_tuples.
Proof. repeat split; unfold norm_tuples; established. Qed.

Lemma norm_boolean_types :
  ensures (has_type is_bool "Crawler" "hardworking_mode") norm_boolean
  /\ ensures (has_type is_bool "Crawler" "remove_actor_in_title") norm_boolean
  /\ ensures (has_type is_bool "NFO" "add_genre_to_tag") norm_boolean.
Proof.
  repeat split; unfold norm_boolean, boolean_fields; cbn [for_each fst snd].
  - apply ensures_bind_then; [established | intros ?; inside_kept].
  - apply ensures_bind_last; intros ?.
    apply ensures_bind_then; [established | intros ?; inside_kept].
  - do 2 (apply ensures_bind_last; intros ?).
    apply ensures_bind_then; [established | intros ?; inside_kept].
Qed.

Lemma validate_proxy_types :
  ensures (has_type is_mapping "Network" "proxy") validate_proxy.
Proof. unfold validate_proxy. established. Qed.

Lemma convert_naming_rule_types :
  ensures (has_type is_template "NamingRule" "save_dir")
          (convert_naming_rule rt)
  /\ ensures (has_type is_template "NamingRule" "filename")
             (convert_naming_rule rt).
Proof. split; unfold convert_naming_rule; established. Qed.

(** The loop of [import_crawlers] makes a tuple of every category it
    goes through. *)
Lemma import_categories_types (typ : string) (items : list (string * value)) :
  In typ (map fst items) ->
  forall unknown_mods,
    ensures (has_type is_tuple "Priority" typ)
            (import_categories rt items unknown_mods).
Proof.
  induction items as [|[t cfg_str] items IH]; intros Hin unknown; [destruct Hin|].
  cbn [import_categories].
  apply ensures_bind_last; intros mods.
  apply ensures_bind_last; intros r.
  destruct (string_dec t typ) as [->|N].
  - apply ensures_bind_then; [apply ensures_setattr2; reflexivity | intros _].
    apply kept_import_categories; [apply has_type_cfg|].
    intros; apply tuple_setattr2.
  - apply ensures_bind_last; intros _. apply IH.
    destruct Hin as [Hin | Hin]; [contradiction | exact Hin].
Qed.

Lemma import_crawlers_types (typ : string) (w w' : world) :
  option_set "Priority" typ w ->
  import_crawlers rt w = (w', Return tt) ->
  has_type is_tuple "Priority" typ w'.
Proof.
  unfold option_set, lookup2, import_crawlers. intros Hset H.
  apply bind_inv in H as (w1 & priority & Hread & H).
  apply bind_inv in H as (w2 & unknown & Hloop & H).
  unfold read in Hread.
  destruct (dict_get (_sections (cfg w)) "Priority") as [d|] eqn:E;
    [|contradiction].
  rewrite (Config___getattr___Some _ _ E) in Hread.
  injection Hread as <- <-.
  assert (Hin : In typ (map fst d)).
  { apply dict_mem_true. unfold dict_mem.
    destruct (dict_get d typ); [reflexivity | contradiction]. }
  pose proof (@import_categories_types typ d Hin [] _ _ _ Hloop) as H2.
  destruct unknown; [unfold ret in H; now injection H as <- |].
  apply (@has_type_cfg _ _ _ w2); [|exact H2].
  destruct (negb (run_as_main rt)); unfold logger_warning, print in H;
    now injection H as <-.
Qed.
End Types.

(** X16.  When [validate] returns, the options of the schema have the
    types the rest of the program relies on: [Network.retry] and
    [Network.timeout] are integers; [File.media_ext],
    [File.ignore_folder] and [Crawler.required_keys] are tuples; the
    three switches are booleans; [Network.proxy] is a mapping;
    [NamingRule.save_dir] and [NamingRule.filename] are templates; and
    every category [Priority] had is a tuple. *)
Theorem validate_types (rt : runtime) (w w' : world) :
  validate rt w = (w', Return tt) ->
  Forall (fun t => has_type (snd t) (fst (fst t)) (snd (fst t)) w')
         typed_options
  /\ (forall typ, lookup2 (cfg w) "Priority" typ <> None ->
        has_type is_tuple "Priority" typ w').
Proof.
  intros H. split.
  - unfold typed_options.
    destruct (norm_int_types rt) as (I1 & I2).
    destruct norm_tuples_types as (T1 & T2 & T3).
    destruct norm_boolean_types as (B1 & B2 & B3).
    destruct (convert_naming_rule_types rt) as (N1 & N2).
    pose proof validate_proxy_types as Hproxy.
    repeat constructor; cbn [fst snd]; revert H; unfold validate;
      match goal with
      | |- ?m w = (w', Return tt) -> ?Q w' =>
          intros H; apply (fun E : ensures Q m => E w w' tt H)
      end.
    + apply ensures_bind_then; [exact I1 | intros _; tail_kept].
    + apply ensures_bind_then; [exact I2 | intros _; tail_kept].
    + apply ensures_bind_last; intros _.
      apply ensures_bind_then; [exact T1 | intros _; tail_kept].
    + apply ensures_bind_last; intros _.
      apply ensures_bind_then; [exact T2 | intros _; tail_kept].
    + apply ensures_bind_last; intros _.
      apply ensures_bind_then; [exact T3 | intros _; tail_kept].
    + do 2 (apply ensures_bind_last; intros _).
      apply ensures_bind_then; [exact B1 | intros _; tail_kept].
    + do 2 (apply ensures_bind_last; intros _).
      apply ensures_bind_then; [exact B2 | intros _; tail_kept].
    + do 2 (apply ensures_bind_last; intros _).
      apply ensures_bind_then; [exact B3 | intros _; tail_kept].
    + do 3 (apply ensures_bind_last; intros _).
      apply ensures_bind_then; [exact Hproxy | intros _; tail_kept].
    + do 5 (apply ensures_bind_last; intros _).
      apply ensures_bind_then; [exact N1 | intros _; tail_kept].
    + do 5 (apply ensures_bind_last; intros _).
      apply ensures_bind_then; [exact N2 | intros _; tail_kept].
  - intros typ Hset. unfold validate in H.
    apply bind_inv in H as (w1 & [] & H1 & H).
    apply bind_inv in H as (w2 & [] & H2 & H).
    apply bind_inv in H as (w3 & [] & H3 & H).
    apply bind_inv in H as (w4 & [] & H4 & H).
    apply bind_inv in H as (w5 & [] & H5 & H).
    assert (Hcfg : forall w0 w0', cfg w0' = cfg w0 ->
                     option_set "Priority" typ w0 ->
                     option_set "Priority" typ w0')
      by (intros w0 w0' E; unfold option_set; now rewrite E).
    assert (Kattr : forall s k v,
              preserves (option_set "Priority" typ) (setattr2 s k v))
      by (intros; apply option_set_setattr2).
    assert (S1 : option_set "Priority" typ w1).
    { assert (K : preserves (option_set "Priority" typ) (norm_int rt))
        by (apply kept_norm_int; intros; apply Kattr).
      specialize (K w Hset). now rewrite H1 in K. }
    assert (S2 : option_set "Priority" typ w2).
    { assert (K : preserves (option_set "Priority" typ) norm_tuples)
        by (apply kept_norm_tuples; intros; apply Kattr).
      specialize (K w1 S1). now rewrite H2 in K. }
    assert (S3 : option_set "Priority" typ w3).
    { assert (K : preserves (option_set "Priority" typ) norm_boolean)
        by (apply kept_norm_boolean; intros; apply Kattr).
      specialize (K w2 S2). now rewrite H3 in K. }
    assert (S4 : option_set "Priority" typ w4).
    { assert (K : preserves (option_set "Priority" typ) validate_proxy)
        by (apply kept_validate_proxy; try exact Hcfg; intros; apply Kattr).
      specialize (K w3 S3). now rewrite H4 in K. }
    pose proof (@import_crawlers_types rt typ w4 w5 S4 H5) as S5.
    assert (K : preserves (has_type is_tuple "Priority" typ)
                  (bind (convert_naming_rule rt)
                        (fun _ => check_proxy_free_url))).
    { apply preserves_bind; [|intros _].
      - apply kept_convert_naming_rule; intros;
          apply has_type_setattr2; left; discriminate.
      - apply kept_check_proxy_free_url; intros;
          apply has_type_set; discriminate. }
    specialize (K w5 S5). now rewrite H in K.
Qed.

Lemma validate_types_witness :
  Forall (fun t => has_type (snd t) (fst (fst t)) (snd (fst t))
                     validated_sample)
         typed_options
  /\ has_type is_tuple "Priority" "fc2" validated_sample.
Proof.
  assert (H : validate sample_runtime raw_sample
              = (validated_sample, Return tt)) by (vm_compute; reflexivity).
  destruct (@validate_types sample_runtime raw_sample validated_sample H)
    as [H1 H2].
  split; [exact H1 | apply H2; discriminate].
Defined.

(** ** [validate] on a configuration that lacks its first option *)

(** X17.  [validate] begins with [cfg.getint('Network', 'retry')]: on
    a configuration without a [Network] section it raises
    [NoSectionError('Network')], and on one whose [Network] section
    and defaults have no [retry] it raises
    [NoOptionError('retry', 'Network')]; in both cases nothing is
    changed, logged or printed, and no later pass runs. *)
Theorem validate_missing_retry (rt : runtime) (w : world) :
  (dict_get (_sections (cfg w)) "Network" = None ->
   validate rt w = (w, Raise (NoSectionError "Network")))
  /\ (forall net,
        dict_get (_sections (cfg w)) "Network" = Some net ->
        dict_get net "retry" = None ->
        dict_get (_defaults (cfg w)) "retry" = None ->
        validate rt w = (w, Raise (NoOptionError "retry" "Network"))).
Proof.
  split.
  - intros Hn. unfold validate, norm_int. do 2 apply bind_fail.
    unfold read, ConfigParser.getint, ConfigParser.get,
      ConfigParser.unify_values. now rewrite Hn.
  - intros net Hn Hr Hd. unfold validate, norm_int. do 2 apply bind_fail.
    unfold read, ConfigParser.getint, ConfigParser.get,
      ConfigParser.unify_values, ConfigParser.chain_get.
    rewrite Hn. cbn [fst snd].
    change (ConfigParser.optionxform "retry") with "retry".
    now rewrite Hr, Hd.
Qed.

Lemma validate_missing_retry_witness :
  validate sample_runtime (proxy_sample "")
    = (proxy_sample "", Raise (NoOptionError "retry" "Network"))
  /\ validate sample_runtime (free_proxy_sample "")
     = (free_proxy_sample "", Raise (NoSectionError "Network")).
Proof.
  split.
  - apply (proj2 (@validate_missing_retry sample_runtime (proxy_sample ""))
             [("proxy", VStr "")] eq_refl eq_refl eq_refl).
  - apply (proj1 (@validate_missing_retry sample_runtime
                    (free_proxy_sample "")) eq_refl).
Defined.

(** ** An import that fails *)

Section ImportFails.
Variable rt : runtime.
Variable isd : bool.

Lemma skip_notes_repeat (names : list string) :
  exists n, skip_notes isd names = repeat (DEBUG, Fc2fanSkipped) n.
Proof.
  unfold skip_notes.
  induction (filter (fun name => negb (attempted isd name)) names)
    as [|x l [n IH]].
  - now exists 0.
  - exists (S n). simpl. now rewrite IH.
Qed.

(** The loop over the names of a category, when one of its imports
    fails. *)
Lemma import_names_fail (mods : list string) :
  forall (valid_mods unknown_mods : list string) (w : world)
         (crawler : DotDict),
    dict_get (_sections (cfg w)) "Crawler" = Some crawler ->
    os_path_isdir rt (DotDict___getattr__ crawler "fc2fan_local_path")
      = Return isd ->
    settles rt isd mods = false ->
    exists n,
      import_names rt mods valid_mods unknown_mods w =
        (logged w (repeat (DEBUG, Fc2fanSkipped) n), Raise ImportRaised).
Proof.
  induction mods as [|name mods IH]; intros valid unknown w crawler Hc Hd Hs;
    [discriminate Hs|].
  simpl in Hs. cbn [import_names].
  assert (Hgate :
    (if String.eqb name "fc2fan"
     then bind (getattr2 "Crawler" "fc2fan_local_path")
            (fun p => bind (lift (os_path_isdir rt p))
                        (fun b => ret (negb b)))
     else ret false) w
    = (w, Return (negb (attempted isd name)))).
  { unfold attempted. destruct (String.eqb name "fc2fan"); [|reflexivity].
    run_with (getattr2_run _ _ "fc2fan_local_path" Hc).
    rewrite Hd. run_pure. cbn [negb orb]. reflexivity. }
  run_with Hgate.
  destruct (attempted isd name) eqn:Ha; cbn [negb andb] in *.
  - destruct (import_module rt ("web." ++ name)) eqn:Hi;
      simpl in Hi; rewrite Hi in Hs; cbn [negb andb] in Hs.
    + apply (IH _ _ _ _ Hc Hd Hs).
    + apply (IH _ _ _ _ Hc Hd Hs).
    + exists 0. cbn [repeat]. now rewrite logged_nil.
  - unfold bind at 1. unfold logger_debug at 1.
    destruct (IH valid unknown (logged w [(DEBUG, Fc2fanSkipped)]) _ Hc Hd Hs)
      as [n Hn].
    exists (S n). etransitivity; [exact Hn|].
    now rewrite logged_logged.
Qed.

(** The loop over the categories, up to the one that fails. *)
Lemma import_categories_fail (typ raw : string)
    (post : list (string * string)) (pre : list (string * string)) :
  forall (unknown_mods : list string) (w : world) (cur crawler : DotDict),
    dict_get (_sections (cfg w)) "Priority" = Some cur ->
    dict_get (_sections (cfg w)) "Crawler" = Some crawler ->
    os_path_isdir rt (DotDict___getattr__ crawler "fc2fan_local_path")
      = Return isd ->
    settles rt isd (all_names pre) = true ->
    settles rt isd (names_of raw) = false ->
    exists n,
      import_categories rt (raw_section (pre ++ (typ, raw) :: post))
        unknown_mods w =
        (logged (with_section w "Priority"
                   (fold_left (resolve_category rt isd) pre cur))
                (skip_notes isd (all_names pre)
                 ++ repeat (DEBUG, Fc2fanSkipped) n),
         Raise ImportRaised).
Proof.
  induction pre as [|[t r] pre IH];
    intros unknown w cur crawler Hp Hc Hd Hs Hf.
  - cbn [app raw_section map fst snd import_categories].
    run_pure. cbn [py_split].
    destruct (import_names_fail (PyStr.split "," raw) [] unknown w Hc Hd Hf)
      as [n Hn].
    exists n. erewrite bind_fail by exact Hn.
    cbn [fold_left all_names flat_map]. unfold skip_notes at 1.
    cbn [filter map app]. now rewrite (with_section_id _ _ Hp).
  - rewrite all_names_cons in Hs. cbn [snd] in Hs.
    rewrite settles_app in Hs. apply andb_true_iff in Hs as [Hs1 Hs2].
    cbn [app raw_section map fst snd import_categories].
    run_pure. cbn [py_split].
    run_with (@import_names_run rt isd (PyStr.split "," r) [] unknown w crawler
                Hc Hd Hs1).
    cbn [fst snd app].
    assert (Hp1 : dict_get (_sections (cfg (logged w
                     (skip_notes isd (PyStr.split "," r))))) "Priority"
                  = Some cur) by exact Hp.
    run_with (setattr2_run _ _ t
                (VTuple (resolved rt isd (PyStr.split "," r))) Hp1).
    set (cur1 := dict_set cur t _).
    set (w1 := with_section _ "Priority" cur1).
    assert (Hp' : dict_get (_sections (cfg w1)) "Priority" = Some cur1)
      by (simpl; apply dict_get_set_same).
    assert (Hc' : dict_get (_sections (cfg w1)) "Crawler" = Some crawler).
    { unfold w1. rewrite section_with_section_other by discriminate.
      exact Hc. }
    destruct (IH (unknown ++ unknown_names rt isd (PyStr.split "," r))
                 w1 cur1 crawler Hp' Hc' Hd Hs2 Hf) as [n Hn].
    exists n. fold (raw_section (pre ++ (typ, raw) :: post)). rewrite Hn.
    rewrite all_names_cons, skip_notes_app.
    cbn [fold_left snd]. unfold w1. rewrite with_section_twice.
    unfold names_of. fold cur1. unfold resolve_category at 2. cbn [fst snd].
    fold cur1.
    f_equal. unfold with_section, logged; simpl. now rewrite <- !app_assoc.
Qed.
End ImportFails.

(** X18.  When an attempted import fails in another way than with
    [ModuleNotFoundError], [import_crawlers] raises what the import
    raised.  The categories before the one that holds the failing
    name are already rebound to their tuples, that category and the
    later ones still hold their strings, and the unknown names met so
    far are not reported: the log gains debug records only and
    nothing is printed. *)
Theorem import_failure (rt : runtime) (w : world)
    (pre post : list (string * string)) (typ raw : string)
    (crawler : DotDict) (isd : bool) :
  dict_get (_sections (cfg w)) "Priority"
    = Some (raw_section (pre ++ (typ, raw) :: post)) ->
  dict_get (_sections (cfg w)) "Crawler" = Some crawler ->
  os_path_isdir rt (DotDict___getattr__ crawler "fc2fan_local_path")
    = Return isd ->
  settles rt isd (all_names pre) = true ->
  settles rt isd (names_of raw) = false ->
  exists n,
    import_crawlers rt w =
      (logged (with_section w "Priority"
                 (fold_left (resolve_category rt isd) pre
                            (raw_section (pre ++ (typ, raw) :: post))))
              (repeat (DEBUG, Fc2fanSkipped) n),
       Raise ImportRaised).
Proof.
  intros Hp Hc Hd Hs Hf. unfold import_crawlers.
  erewrite bind_run; cycle 1.
  { unfold read. now rewrite (Config___getattr___Some _ _ Hp). }
  destruct (@import_categories_fail rt isd typ raw post pre [] w _ crawler
              Hp Hc Hd Hs Hf) as [n Hn].
  destruct (skip_notes_repeat isd (all_names pre)) as [m Hm].
  exists (m + n). erewrite bind_fail by exact Hn.
  now rewrite Hm, repeat_app.
Qed.

Lemma import_failure_witness :
  exists n,
    import_crawlers archive_runtime raw_sample =
      (logged (with_section raw_sample "Priority"
                 [("normal", VTuple ["web.siteA"]); ("fc2", VStr "fc2fan")])
              (repeat (DEBUG, Fc2fanSkipped) n),
       Raise ImportRaised).
Proof.
  apply (@import_failure archive_runtime raw_sample
           [("normal", "siteA,siteB")] [] "fc2" "fc2fan"
           [("required_keys", VStr "cover,title");
            ("hardworking_mode", VStr "yes");
            ("remove_actor_in_title", VStr "no");
            ("fc2fan_local_path", VStr "")]
           true eq_refl eq_refl eq_refl eq_refl eq_refl).
Defined.
